(** * The LangGraph demo workflows: cycles, routing and human approval

    A shallow embedding of [langgraph-agents-demo/agents/]: the portfolio
    constraint checker ([cycles_iteration.py]), the trade approval
    workflow ([human_in_loop.py]), the investment router
    ([router_pattern.py]) and the travel planner ([travel_agent.py]: its
    agent node, its graph and its two search tools), together with the
    execution loop they run on.

    Conventions of the embedding.
    - A [TypedDict] state is a record with the declared fields.
    - A Python [dict] whose iteration order is observable (the holdings)
      is an association list in insertion order; the process-wide
      [_pending_trades] store is a [gmap].
    - Python numbers ([int] and [float] weights, prices) are exact
      rationals [Q]; rounding, overflow, infinities and NaN of IEEE
      doubles are outside the model.  The module [Doubles] repeats the
      two steps of the constraint checker over IEEE doubles, for the
      statements that rounding decides.
    - A raised exception is the [Raise] branch of [Py.result].
    - What the Python runtime and third-party packages compute (string
      formatting, [json.loads], [str(e)], graph rendering, case mapping)
      is a field of the class [Builtins].
    - Everything outside the state a step receives is explicit and
      threaded through the calls: the world (the step functions called so
      far, the uuid source, the requests to the language model) and the
      pending store.
    - The tool node of [langgraph] and the answers of the Amadeus service
      are fields of the classes [Packages] and [Amadeus]; an answer of
      the service is a JSON document, read with the subscripts of Python. *)

From Stdlib Require Import QArith Qabs Qfield Field ZArith Lia Lqa Ascii String.
From stdpp Require Import gmap strings list pretty.
From Stdlib Require PrimFloat.

Open Scope string_scope.
Open Scope list_scope.

(** ** Python values, exceptions and dictionaries *)

Module Py.

Inductive exn : Type :=
| ZeroDivisionError
| KeyError (key : string)
| IndexError
| TypeError
| ValueError
| GraphRecursionError.

Inductive result (A : Type) : Type :=
| Ok (a : A)
| Raise (e : exn).
Arguments Ok {A} a.
Arguments Raise {A} e.

Definition bind {A B} (r : result A) (k : A -> result B) : result B :=
  match r with
  | Ok a => k a
  | Raise e => Raise e
  end.

(** [dict] in insertion order; keys are strings. *)
Definition dict (V : Type) : Type := list (string * V).

Definition keys {V} (d : dict V) : list string := map fst d.
Definition values {V} (d : dict V) : list V := map snd d.

Fixpoint find {V} (d : dict V) (k : string) : option V :=
  match d with
  | [] => None
  | (k', v) :: rest => if String.eqb k' k then Some v else find rest k
  end.

(** [d.get(k, default)] *)
Definition get {V} (d : dict V) (k : string) (default : V) : V :=
  match find d k with
  | Some v => v
  | None => default
  end.

(** [d[k]], which raises [KeyError] on a missing key *)
Definition getitem {V} (d : dict V) (k : string) : result V :=
  match find d k with
  | Some v => Ok v
  | None => Raise (KeyError k)
  end.

(** [d[k] = v]: an existing key keeps its position, a new key goes last *)
Fixpoint setitem {V} (d : dict V) (k : string) (v : V) : dict V :=
  match d with
  | [] => [(k, v)]
  | (k', v') :: rest =>
      if String.eqb k' k then (k, v) :: rest
      else (k', v') :: setitem rest k v
  end.

(** [sum(xs)]: left to right, starting from [0] *)
Definition sum (xs : list Q) : Q := fold_left Qplus xs 0%Q.

(** [a / b] on numbers, which raises on a zero divisor *)
Definition truediv (a b : Q) : result Q :=
  if Qeq_bool b 0 then Raise ZeroDivisionError else Ok (a / b)%Q.

(** [a > b] and [a < b] on numbers *)
Definition gt (a b : Q) : bool := negb (Qle_bool a b).
Definition lt (a b : Q) : bool := negb (Qle_bool b a).

(** [needle in haystack] on strings *)
Fixpoint contains (needle haystack : string) : bool :=
  if String.prefix needle haystack then true
  else match haystack with
       | EmptyString => false
       | String _ rest => contains needle rest
       end.

(** The part of the process a step function can reach besides its
    argument: the names of the step functions called so far (oldest
    first), the source [uuid.uuid4()] draws from, given as the hex digits
    of its successive values, and the number of requests sent to the
    language model so far. *)
Record World : Type := {
  calls : list string;
  uuid_source : nat -> string;
  uuid_drawn : nat;
  model_requests : nat
}.

Definition record_call (name : string) (w : World) : World :=
  {| calls := calls w ++ [name];
     uuid_source := uuid_source w;
     uuid_drawn := uuid_drawn w;
     model_requests := model_requests w |}.

(** [uuid.uuid4().hex] *)
Definition uuid4_hex (w : World) : string * World :=
  (uuid_source w (uuid_drawn w),
   {| calls := calls w;
      uuid_source := uuid_source w;
      uuid_drawn := S (uuid_drawn w);
      model_requests := model_requests w |}).

(** one request to the model endpoint, whose answer may differ from one
    request to the next *)
Definition model_invoke {A} (endpoint : nat -> A) (w : World) : A * World :=
  (endpoint (model_requests w),
   {| calls := calls w;
      uuid_source := uuid_source w;
      uuid_drawn := uuid_drawn w;
      model_requests := S (model_requests w) |}).

(** several calls in a row *)
Definition record_calls (names : list string) (w : World) : World :=
  fold_left (fun w name => record_call name w) names w.

Definition nl : string := String "010"%char EmptyString.

Definition join_lines (lines : list string) : string :=
  fold_left String.append lines "".

End Py.

#[global] Instance result_ret : MRet Py.result := @Py.Ok.
#[global] Instance result_bind : MBind Py.result :=
fun A B k r => Py.bind r k.

(** ** The execution loop

    The demos run on the compiled graph of the [langgraph] package, which
    is not part of the repository.  This module is its model, after the
    Workflow Graph Engine of the specification (sections 3, 4.2 and 7). *)

Module Engine.
Section Engine.

Context {State Partial World : Type}.

(** shallow field overwrite of the current state by a step's return *)
Variable merge : State -> Partial -> State.

(** Modelled from the spec: a destination of section 3, a step name or
    the terminal marker. *)
Inductive destination : Type :=
| Step (name : string)
| END.

(** Modelled from the spec: the edges of section 3, unconditional, or
    conditional with a router and the labels registered for it. *)
Inductive transition : Type :=
| Edge (to_step : destination)
| ConditionalEdges (router : State -> string)
                   (label_to_step : list (string * destination)).

(** Modelled from the spec: a step of section 3, from a state to a partial
    state; it may raise, and it may act on the world. *)
Definition step_fn : Type := State -> World -> Py.result Partial * World.

(** Modelled from the spec: the compiled graph of section 3; the entry is
    a transition, a plain edge after [set_entry_point] and a conditional
    one after [set_conditional_entry_point]. *)
Record Graph : Type := {
  steps : list (string * step_fn);
  edges : list (string * transition);
  entry_point : transition
}.

(** Modelled from the spec: the run-time failures of section 7;
    [UnknownStepError] is what [compile] excludes. *)
Inductive abort_reason : Type :=
| step_limit_exceeded
| configuration_error
| UnknownStepError (name : string)
| UnroutableStateError (label : string)
| StepExecutionError (cause : Py.exn).

(** Modelled from the spec: the status of a run, the result of
    [execute], and the checkpoint of a suspended run (section 3). *)
Inductive status : Type :=
| completed
| suspended (resume_step : string)
| aborted (reason : abort_reason).

Record RunResult : Type := {
  run_status : status;
  run_state : State
}.

Record Checkpoint : Type := {
  saved_state : State;
  resume_step : string
}.

Fixpoint assoc {V} (l : list (string * V)) (k : string) : option V :=
  match l with
  | [] => None
  | (k', v) :: rest => if String.eqb k' k then Some v else assoc rest k
  end.

(** Modelled from the spec: step (f) of the execution loop of section 4.2
    (the loop itself belongs to the [langgraph] package): follow the
    edge, or ask the router and look its label up in the declared map;
    a label outside the map is an [UnroutableStateError]. *)
Definition resolve (t : transition) (s : State)
  : abort_reason + destination :=
  match t with
  | Edge d => inr d
  | ConditionalEdges router label_to_step =>
      let label := router s in
      match assoc label_to_step label with
      | Some d => inr d
      | None => inl (UnroutableStateError label)
      end
  end.

(** Modelled from the spec: steps (d) to (f) of section 4.2 for the step
    called [name]: run the step function, merge its return into the
    state, resolve the next destination.  An exception raised by the
    step aborts the run with the exception kept as cause. *)
Definition advance (g : Graph) (name : string) (s : State) (w : World)
  : (abort_reason * State + destination * State) * World :=
  match assoc (steps g) name with
  | None => (inl (UnknownStepError name, s), w)
  | Some fn =>
      match fn s w with
      | (Py.Raise e, w') => (inl (StepExecutionError e, s), w')
      | (Py.Ok partial, w') =>
          let s' := merge s partial in
          match assoc (edges g) name with
          | None => (inl (UnknownStepError name, s'), w')
          | Some t =>
              match resolve t s' with
              | inl r => (inl (r, s'), w')
              | inr d => (inr (d, s'), w')
              end
          end
      end
  end.

(** Modelled from the spec: the loop of section 4.2, step 2, with checks
    (a), (b), (c) in that order; [fuel] is [max_steps - steps_taken]. *)
Fixpoint loop (g : Graph) (suspend_before : list string) (fuel : nat)
    (current_step : destination) (s : State) (w : World)
  : RunResult * World :=
  match current_step with
  | END => ({| run_status := completed; run_state := s |}, w)
  | Step name =>
      if existsb (String.eqb name) suspend_before then
        ({| run_status := suspended name; run_state := s |}, w)
      else
        match fuel with
        | O => ({| run_status := aborted step_limit_exceeded;
                   run_state := s |}, w)
        | S fuel' =>
            match advance g name s w with
            | (inl (r, s'), w') =>
                ({| run_status := aborted r; run_state := s' |}, w')
            | (inr (d, s'), w') => loop g suspend_before fuel' d s' w'
            end
        end
  end.

(** Modelled from the spec: [execute] of section 4.2; a [max_steps] that
    is not positive is rejected before the loop starts. *)
Definition execute (g : Graph) (initial_state : State) (max_steps : nat)
    (suspend_before : list string) (w : World) : RunResult * World :=
  match max_steps with
  | O => ({| run_status := aborted configuration_error;
             run_state := initial_state |}, w)
  | S _ =>
      match resolve (entry_point g) initial_state with
      | inl r => ({| run_status := aborted r;
                     run_state := initial_state |}, w)
      | inr d => loop g suspend_before max_steps d initial_state w
      end
  end.

(** Modelled from the spec: [resume] of section 4.2, step 3: merge the
    update into the saved state, then re-enter the loop at (d) on the
    suspended step itself. *)
Definition resume (g : Graph) (checkpoint : Checkpoint)
    (supplied_state_update : Partial) (max_steps : nat)
    (suspend_before : list string) (w : World) : RunResult * World :=
  let s := merge (saved_state checkpoint) supplied_state_update in
  match max_steps with
  | O => ({| run_status := aborted configuration_error;
             run_state := s |}, w)
  | S fuel' =>
      match advance g (resume_step checkpoint) s w with
      | (inl (r, s'), w') =>
          ({| run_status := aborted r; run_state := s' |}, w')
      | (inr (d, s'), w') => loop g suspend_before fuel' d s' w'
      end
  end.

(** every state gives the transition a destination *)
Definition routable (t : transition) : Prop :=
  forall s, exists d, resolve t s = inr d.

(** the entry transition of a graph and those of its steps *)
Definition transitions (g : Graph) : list transition :=
  entry_point g :: map snd (edges g).

(** the label set declared with a router, as the graph holds it *)
Definition declared_labels (t : transition) : list string :=
  match t with
  | Edge _ => []
  | ConditionalEdges _ label_to_step => map fst label_to_step
  end.

(** a run that aborted on a label outside the declared set *)
Definition unroutable (r : RunResult) : Prop :=
  exists label, run_status r = aborted (UnroutableStateError label).

End Engine.

Arguments destination : clear implicits.
Arguments transition : clear implicits.
Arguments Graph : clear implicits.
Arguments RunResult : clear implicits.
Arguments Checkpoint : clear implicits.

(** Modelled from the spec: the [max_steps] ceiling of an [invoke] that
  passes none; 25 is the default [recursion_limit] of [langgraph]. *)
Definition recursion_limit : nat := 25.

(** Modelled from the spec: how an aborted run reaches the Python caller
  of [app.invoke]: the exception of the step itself, or the one of the
  package for its own failures. *)
Definition raised (r : abort_reason) : Py.exn :=
match r with
| step_limit_exceeded => Py.GraphRecursionError
| configuration_error => Py.ValueError
| UnknownStepError name => Py.KeyError name
| UnroutableStateError label => Py.KeyError label
| StepExecutionError cause => cause
end.

(** Modelled from the spec: [app.invoke(initial_state)] of a graph compiled
  without [interrupt_before]: [execute] with the default ceiling and an
  empty suspend set, handing back the final state or raising. *)
Definition invoke {State Partial World : Type}
  (merge : State -> Partial -> State) (g : Graph State Partial World)
  (initial_state : State) (w : World) : Py.result State * World :=
match execute merge g initial_state recursion_limit [] w with
| ({| run_status := aborted r |}, w') => (Py.Raise (raised r), w')
| ({| run_status := _; run_state := s |}, w') => (Py.Ok s, w')
end.

End Engine.

(** ** What the Python runtime and the installed packages provide *)

#[local] Set Warnings "-register-all".

Inductive json : Type :=
| JNull
| JBool (b : bool)
| JNumber (q : Q)
| JString (s : string)
| JArray (items : list json)
| JObject (members : Py.dict json).

Inductive loaded : Type :=
| JSONDecodeError
| Loaded (value : json).

(** a chat message; only a message of the model has [tool_calls] *)
Record Message : Type := {
  content : string;
  tool_calls : option (list string)
}.

Class Builtins : Type := {
  (** [f"{x:.1%}"] *)
  format_percent : Q -> string;
  (** [f"{x:.2f}"] *)
  format_fixed2 : Q -> string;
  (** [f"{x:,.2f}"] *)
  format_grouped_fixed2 : Q -> string;
  (** [f"{n:,}"] and [f"{n}"] on an [int] *)
  format_grouped : Z -> string;
  format_int : Z -> string;
  (** [s.lower()] and [s.upper()] *)
  str_lower : string -> string;
  str_upper : string -> string;
  (** [str(e)] *)
  exn_str : Py.exn -> string;
  (** [json.loads(s)] *)
  json_loads : string -> loaded;
  (** [llm.bind_tools(tools).invoke(messages)], by request number *)
  llm_invoke : list string -> list Message -> nat -> Message;
  (** [utils.graph_viz.visualize_graph(app)], which catches every failure
      of the rendering and then returns [None] *)
  Image : Type;
  visualize_graph :
    forall State Partial World : Type,
      Engine.Graph State Partial World -> option Image
}.

(** ** [cycles_iteration.py]: the portfolio constraint checker *)

Module CyclesIteration.
Section CyclesIteration.

Context `{Builtins}.

(** an entry of [state["violations"]]; the constructor is its ["type"] *)
Inductive Violation : Type :=
| position_size (ticker : string) (current limit : Q) (message : string)
| cash_reserve (current required : Q) (message : string)
| sum_constraint (current required : Q) (message : string).

Record PortfolioState : Type := {
  holdings : Py.dict Q;
  violations : list Violation;
  iteration_count : Z;
  adjustments_made : list string;
  status : string
}.

Definition MAX_POSITION_SIZE : Q := 0.25.
Definition MIN_CASH_RESERVE : Q := 0.05.
Definition MAX_ITERATIONS : Z := 5.

Definition is_cash_reserve (v : Violation) : bool :=
  match v with cash_reserve _ _ _ => true | _ => false end.

(** Check 1 of [check_constraints], one holding at a time *)
Definition check_position (item : string * Q) : list Violation :=
  let '(ticker, weight) := item in
  if negb (String.eqb ticker "CASH") && Py.gt weight MAX_POSITION_SIZE then
    [position_size ticker weight MAX_POSITION_SIZE
       (ticker +:+ " position (" +:+ format_percent weight
        +:+ ") exceeds maximum allowed ("
        +:+ format_percent MAX_POSITION_SIZE +:+ ")")]
  else [].

Definition check_constraints (state : PortfolioState) : PortfolioState :=
  let holdings := holdings state in
  (* Check 1: Position size limits *)
  let violations := flat_map check_position holdings in
  (* Check 2: Cash reserve *)
  let cash_position := Py.get holdings "CASH" 0%Q in
  let violations :=
    if Py.lt cash_position MIN_CASH_RESERVE then
      violations ++
      [cash_reserve cash_position MIN_CASH_RESERVE
         ("Cash reserve (" +:+ format_percent cash_position
          +:+ ") below minimum required ("
          +:+ format_percent MIN_CASH_RESERVE +:+ ")")]
    else violations in
  (* Check 3: Sum to 100% *)
  let total_weight := Py.sum (Py.values holdings) in
  let violations :=
    if Py.gt (Qabs (total_weight - 1)) 0.01 then
      violations ++
      [sum_constraint total_weight 1
         ("Portfolio weights sum to " +:+ format_percent total_weight
          +:+ " instead of 100%")]
    else violations in
  (* Update iteration count *)
  let new_iteration := (iteration_count state + 1)%Z in
  {| holdings := holdings;
     violations := violations;
     iteration_count := new_iteration;
     adjustments_made := adjustments_made state;
     status := "checking" |}.

(** the first loop of [adjust_portfolio]: fix oversized positions *)
Fixpoint fix_oversized (violations : list Violation)
    (holdings : Py.dict Q) (adjustments : list string)
  : Py.result (Py.dict Q * list string) :=
  match violations with
  | [] => mret (holdings, adjustments)
  | position_size ticker _ _ _ :: rest =>
      old_weight ← Py.getitem holdings ticker;
      let new_weight := MAX_POSITION_SIZE in
      fix_oversized rest (Py.setitem holdings ticker new_weight)
        (adjustments ++
         ["Reduced " +:+ ticker +:+ " from " +:+ format_percent old_weight
          +:+ " to " +:+ format_percent new_weight])
  | _ :: rest => fix_oversized rest holdings adjustments
  end.

Definition scale_non_cash (scale_factor : Q) (item : string * Q)
  : string * Q :=
  let '(ticker, old_weight) := item in
  if negb (String.eqb ticker "CASH") then (ticker, old_weight * scale_factor)%Q
  else (ticker, old_weight).

(** the second part of [adjust_portfolio]: fix the cash reserve *)
Definition fix_cash_reserve (violations : list Violation)
    (holdings : Py.dict Q) (adjustments : list string)
  : Py.dict Q * list string :=
  let cash_violations := List.filter is_cash_reserve violations in
  match cash_violations with
  | [] => (holdings, adjustments)
  | _ :: _ =>
      let current_cash := Py.get holdings "CASH" 0%Q in
      let needed_cash := (MIN_CASH_RESERVE - current_cash)%Q in
      (* Scale down non-cash positions proportionally *)
      let non_cash_total :=
        Py.sum (Py.values
                  (List.filter (fun kv => negb (String.eqb (fst kv) "CASH"))
                     holdings)) in
      if Py.gt non_cash_total 0 then
        let scale_factor :=
          ((non_cash_total - needed_cash) / non_cash_total)%Q in
        let holdings := map (scale_non_cash scale_factor) holdings in
        let holdings :=
          Py.setitem holdings "CASH"
            (Py.get holdings "CASH" 0%Q + needed_cash)%Q in
        (holdings,
         adjustments ++
         ["Increased cash reserve to " +:+ format_percent MIN_CASH_RESERVE])
      else (holdings, adjustments)
  end.

(** [for ticker in holdings: holdings[ticker] = holdings[ticker] / total] *)
Fixpoint divide_all (holdings : Py.dict Q) (total : Q)
  : Py.result (Py.dict Q) :=
  match holdings with
  | [] => mret []
  | (ticker, weight) :: rest =>
      weight' ← Py.truediv weight total;
      rest' ← divide_all rest total;
      mret ((ticker, weight') :: rest')
  end.

(** the last part of [adjust_portfolio]: normalize to sum to 100% *)
Definition normalize (holdings : Py.dict Q) (adjustments : list string)
  : Py.result (Py.dict Q * list string) :=
  let total := Py.sum (Py.values holdings) in
  if Py.gt (Qabs (total - 1)) 0.01 then
    holdings' ← divide_all holdings total;
    mret (holdings', adjustments ++ ["Normalized portfolio to 100%"])
  else mret (holdings, adjustments).

Definition adjust_portfolio (state : PortfolioState)
  : Py.result PortfolioState :=
  let holdings0 := holdings state in
  let violations := violations state in
  '(holdings1, adjustments1) ← fix_oversized violations holdings0 [];
  let '(holdings2, adjustments2) :=
    fix_cash_reserve violations holdings1 adjustments1 in
  '(holdings3, adjustments3) ← normalize holdings2 adjustments2;
  mret {| holdings := holdings3;
          violations := violations;
          iteration_count := iteration_count state;
          adjustments_made := adjustments_made state ++ adjustments3;
          status := "adjusting" |}.

Definition should_continue_iteration (state : PortfolioState) : string :=
  (* Check iteration limit *)
  if (iteration_count state >=? MAX_ITERATIONS)%Z then "max_iterations"
  (* Check if all constraints satisfied *)
  else if (length (violations state) =? 0)%nat then "satisfied"
  (* Continue adjusting *)
  else "adjust".

(** a step returns [{**state, ...}], a value for every field, so merging
    it into the current state leaves exactly what the step returned *)
Definition merge (current returned : PortfolioState) : PortfolioState :=
  returned.

Definition call_check_constraints
  : Engine.step_fn (State := PortfolioState) :=
  fun state w =>
    (Py.Ok (check_constraints state), Py.record_call "check_constraints" w).

Definition call_adjust_portfolio
  : Engine.step_fn (State := PortfolioState) :=
  fun state w =>
    (adjust_portfolio state, Py.record_call "adjust_portfolio" w).

Definition build_cycles_agent
  : Engine.Graph PortfolioState PortfolioState Py.World :=
  {| Engine.steps :=
       [("check_constraints", call_check_constraints);
        ("adjust_portfolio", call_adjust_portfolio)];
     Engine.entry_point := Engine.Edge (Engine.Step "check_constraints");
     Engine.edges :=
       [("check_constraints",
         Engine.ConditionalEdges should_continue_iteration
           [("adjust", Engine.Step "adjust_portfolio");
            ("satisfied", Engine.END);
            ("max_iterations", Engine.END)]);
        ("adjust_portfolio",
         Engine.Edge (Engine.Step "check_constraints"))] |}.

(** [sorted(d.items())]: tuples compare by ticker, then by weight *)
Definition item_ltb (a b : string * Q) : bool :=
  String.ltb (fst a) (fst b)
  || (String.eqb (fst a) (fst b) && Py.lt (snd a) (snd b)).

Fixpoint insert_sorted (item : string * Q) (l : list (string * Q))
  : list (string * Q) :=
  match l with
  | [] => [item]
  | x :: rest =>
      if item_ltb x item then x :: insert_sorted item rest
      else item :: l
  end.

Definition sorted (l : list (string * Q)) : list (string * Q) :=
  fold_right insert_sorted [] l.

Definition holding_line (item : string * Q) : string :=
  "- **" +:+ fst item +:+ "**: " +:+ format_percent (snd item) +:+ Py.nl.

Definition violation_message (v : Violation) : string :=
  match v with
  | position_size _ _ _ message => message
  | cash_reserve _ _ message => message
  | sum_constraint _ _ message => message
  end.

Definition format_results (initial_state final_state : PortfolioState)
  : string :=
  let result := "# 🔄 PORTFOLIO CONSTRAINT ANALYSIS" +:+ Py.nl +:+ Py.nl in
  (* Initial portfolio *)
  let result := result +:+ "## Initial Portfolio" +:+ Py.nl in
  let result :=
    result
    +:+ Py.join_lines (map holding_line (sorted (holdings initial_state))) in
  let result :=
    result +:+ Py.nl +:+ "**Total**: "
    +:+ format_percent (Py.sum (Py.values (holdings initial_state)))
    +:+ Py.nl +:+ Py.nl in
  (* Iterations *)
  let result := result +:+ "## Iteration Summary" +:+ Py.nl in
  let result :=
    result +:+ "**Total Iterations**: "
    +:+ format_int (iteration_count final_state) +:+ Py.nl +:+ Py.nl in
  (* Violations (if any) *)
  let result :=
    match violations final_state with
    | [] => result
    | vs =>
        result +:+ "## ⚠️ Remaining Violations" +:+ Py.nl
        +:+ Py.join_lines
              (map (fun v => "- " +:+ violation_message v +:+ Py.nl) vs)
        +:+ Py.nl
    end in
  (* Adjustments made *)
  let result :=
    match adjustments_made final_state with
    | [] => result
    | adjs =>
        result +:+ "## 🔧 Adjustments Made" +:+ Py.nl
        +:+ Py.join_lines (map (fun adj => "- " +:+ adj +:+ Py.nl) adjs)
        +:+ Py.nl
    end in
  (* Final portfolio *)
  let result := result +:+ "## Final Portfolio" +:+ Py.nl in
  let result :=
    result
    +:+ Py.join_lines (map holding_line (sorted (holdings final_state))) in
  let result :=
    result +:+ Py.nl +:+ "**Total**: "
    +:+ format_percent (Py.sum (Py.values (holdings final_state)))
    +:+ Py.nl +:+ Py.nl in
  (* Status *)
  if (length (violations final_state) =? 0)%nat then
    result +:+ "## ✅ Status: ALL CONSTRAINTS SATISFIED" +:+ Py.nl +:+ Py.nl
    +:+ "The portfolio meets all defined constraints:" +:+ Py.nl
    +:+ "✓ No position exceeds " +:+ format_percent MAX_POSITION_SIZE
    +:+ Py.nl
    +:+ "✓ Cash reserve above " +:+ format_percent MIN_CASH_RESERVE
    +:+ Py.nl
    +:+ "✓ Portfolio sums to 100%" +:+ Py.nl
  else if (iteration_count final_state >=? MAX_ITERATIONS)%Z then
    result +:+ "## ⚠️ Status: MAXIMUM ITERATIONS REACHED" +:+ Py.nl +:+ Py.nl
    +:+ "Could not satisfy all constraints within "
    +:+ format_int MAX_ITERATIONS +:+ " iterations." +:+ Py.nl
    +:+ "Manual review recommended." +:+ Py.nl
  else
    result +:+ "## ❌ Status: CONSTRAINTS VIOLATED" +:+ Py.nl.



(** the state [run_constraint_checker] starts a run from *)
Definition initial_state (holdings : Py.dict Q) : PortfolioState :=
  {| holdings := holdings;
     violations := [];
     iteration_count := 0;
     adjustments_made := [];
     status := "checking" |}.

Definition error_executing (e : Py.exn) : string :=
  "❌ Error executing constraint checker: " +:+ exn_str e.


(** *** Notions used in the statements about the cycle *)

(** the portfolio of the example: [{"AAPL": 0.50, "CASH": 0.50}] *)
Definition example_portfolio : Py.dict Q :=
  [("AAPL", 0.50%Q); ("CASH", 0.50%Q)].

(** the sum of the weights of a portfolio *)
Definition total (h : Py.dict Q) : Q := Py.sum (Py.values h).

(** a sum within the 1% tolerance of [check_constraints] *)
Definition within_tolerance (h : Py.dict Q) : Prop :=
  (Qabs (total h - 1) <= 0.01)%Q.

Definition all_positive (h : Py.dict Q) : Prop :=
  Forall (fun kv => (0 < kv.2)%Q) h.

Definition is_cash (kv : string * Q) : bool := String.eqb kv.1 "CASH".

(** the same holdings up to the value of each weight *)
Definition same_holdings (a b : Py.dict Q) : Prop :=
  Forall2 (fun x y => x.1 = y.1 /\ (x.2 == y.2)%Q) a b.

(** the tickers named by the [position_size] entries *)
Definition oversized_tickers (vs : list Violation) : list string :=
  flat_map (fun v => match v with
                     | position_size ticker _ _ _ => [ticker]
                     | _ => []
                     end) vs.

(** the number of check passes, and of adjustments, recorded in a world *)
Definition check_passes (w : Py.World) : nat :=
  count_occ string_dec (Py.calls w) "check_constraints".
Definition adjustments (w : Py.World) : nat :=
  count_occ string_dec (Py.calls w) "adjust_portfolio".

(** the most check passes a run from a state can take *)
Definition passes_bound (s : PortfolioState) : nat :=
  Z.to_nat (Z.max 1 (MAX_ITERATIONS - iteration_count s)).

(** how a run of the cycle can end: on one of the two terminal labels of
    the router, or aborted by the division in [adjust_portfolio] *)
Definition terminal_outcome (r : Engine.RunResult PortfolioState) : Prop :=
  (Engine.run_status r = Engine.completed
   /\ In (should_continue_iteration (Engine.run_state r))
         ["satisfied"; "max_iterations"])
  \/ Engine.run_status r
     = Engine.aborted (Engine.StepExecutionError Py.ZeroDivisionError).

End CyclesIteration.
End CyclesIteration.

(** ** [cycles_iteration.py] over IEEE doubles

    The two steps of the constraint checker once more, with the weights
    as the doubles Python computes with, for the statements that rounding
    decides.  The weights are floats, as in the portfolios the source
    shows ([{"AAPL": 0.30, "CASH": 0.20}]); an [int] weight, which
    [json.loads] gives for a number written without a fraction or
    exponent, is outside this module.  The default [0] of
    [holdings.get("CASH", 0)] and the start [0] of [sum] are the [int]
    zero in Python; every use converts it to the double [0.0]. *)

Module Doubles.

Import PrimFloat.

(** What the interpreter provides on floats. *)
Class Runtime : Type := {
  (** [sum(xs)] on floats, [0] when there is none *)
  sum : list float -> float;
  (** [f"{x:.1%}"] *)
  percent : float -> string
}.



Section Doubles.

Context `{Runtime}.
#[local] Open Scope float_scope.
#[local] Set Warnings "-inexact-float".

(** an entry of [state["violations"]]; the constructor is its ["type"] *)
Inductive Violation : Type :=
| position_size (ticker : string) (current limit : float) (message : string)
| cash_reserve (current required : float) (message : string)
| sum_constraint (current required : float) (message : string).

Record PortfolioState : Type := {
  holdings : Py.dict float;
  violations : list Violation;
  iteration_count : Z;
  adjustments_made : list string;
  status : string
}.

Definition MAX_POSITION_SIZE : float := 0.25.
Definition MIN_CASH_RESERVE : float := 0.05.

(** [a > b] and [a < b], false when an operand is not a number *)
Definition gt (a b : float) : bool := b <? a.
Definition lt (a b : float) : bool := a <? b.

(** [a / b], which raises on a zero divisor, [-0.0] included *)
Definition truediv (a b : float) : Py.result float :=
  if b =? 0 then Py.Raise Py.ZeroDivisionError else Py.Ok (a / b).

(** [abs(total - 1.0) > 0.01] *)
Definition off_target (total : float) : bool := gt (abs (total - 1)) 0.01.

Definition is_cash_reserve (v : Violation) : bool :=
  match v with cash_reserve _ _ _ => true | _ => false end.

(** Check 1 of [check_constraints], one holding at a time *)
Definition check_position (item : string * float) : list Violation :=
  let '(ticker, weight) := item in
  if negb (String.eqb ticker "CASH") && gt weight MAX_POSITION_SIZE then
    [position_size ticker weight MAX_POSITION_SIZE
       (ticker +:+ " position (" +:+ percent weight
        +:+ ") exceeds maximum allowed ("
        +:+ percent MAX_POSITION_SIZE +:+ ")")]
  else [].

Definition check_constraints (state : PortfolioState) : PortfolioState :=
  let holdings := holdings state in
  (* Check 1: Position size limits *)
  let violations := flat_map check_position holdings in
  (* Check 2: Cash reserve *)
  let cash_position := Py.get holdings "CASH" 0 in
  let violations :=
    if lt cash_position MIN_CASH_RESERVE then
      violations ++
      [cash_reserve cash_position MIN_CASH_RESERVE
         ("Cash reserve (" +:+ percent cash_position
          +:+ ") below minimum required ("
          +:+ percent MIN_CASH_RESERVE +:+ ")")]
    else violations in
  (* Check 3: Sum to 100% *)
  let total_weight := sum (Py.values holdings) in
  let violations :=
    if off_target total_weight then
      violations ++
      [sum_constraint total_weight 1
         ("Portfolio weights sum to " +:+ percent total_weight
          +:+ " instead of 100%")]
    else violations in
  (* Update iteration count *)
  let new_iteration := (iteration_count state + 1)%Z in
  {| holdings := holdings;
     violations := violations;
     iteration_count := new_iteration;
     adjustments_made := adjustments_made state;
     status := "checking" |}.

(** the first loop of [adjust_portfolio]: fix oversized positions *)
Fixpoint fix_oversized (violations : list Violation)
    (holdings : Py.dict float) (adjustments : list string)
  : Py.result (Py.dict float * list string) :=
  match violations with
  | [] => mret (holdings, adjustments)
  | position_size ticker _ _ _ :: rest =>
      old_weight ← Py.getitem holdings ticker;
      let new_weight := MAX_POSITION_SIZE in
      fix_oversized rest (Py.setitem holdings ticker new_weight)
        (adjustments ++
         ["Reduced " +:+ ticker +:+ " from " +:+ percent old_weight
          +:+ " to " +:+ percent new_weight])
  | _ :: rest => fix_oversized rest holdings adjustments
  end.

Definition scale_non_cash (scale_factor : float) (item : string * float)
  : string * float :=
  let '(ticker, old_weight) := item in
  if negb (String.eqb ticker "CASH") then (ticker, old_weight * scale_factor)
  else (ticker, old_weight).

(** the second part of [adjust_portfolio]: fix the cash reserve *)
Definition fix_cash_reserve (violations : list Violation)
    (holdings : Py.dict float) (adjustments : list string)
  : Py.dict float * list string :=
  let cash_violations := List.filter is_cash_reserve violations in
  match cash_violations with
  | [] => (holdings, adjustments)
  | _ :: _ =>
      let current_cash := Py.get holdings "CASH" 0 in
      let needed_cash := MIN_CASH_RESERVE - current_cash in
      (* Scale down non-cash positions proportionally *)
      let non_cash_total :=
        sum (Py.values
               (List.filter (fun kv => negb (String.eqb (fst kv) "CASH"))
                  holdings)) in
      if gt non_cash_total 0 then
        let scale_factor := (non_cash_total - needed_cash) / non_cash_total in
        let holdings := map (scale_non_cash scale_factor) holdings in
        let holdings :=
          Py.setitem holdings "CASH"
            (Py.get holdings "CASH" 0 + needed_cash) in
        (holdings,
         adjustments ++
         ["Increased cash reserve to " +:+ percent MIN_CASH_RESERVE])
      else (holdings, adjustments)
  end.

(** [for ticker in holdings: holdings[ticker] = holdings[ticker] / total] *)
Fixpoint divide_all (holdings : Py.dict float) (total : float)
  : Py.result (Py.dict float) :=
  match holdings with
  | [] => mret []
  | (ticker, weight) :: rest =>
      weight' ← truediv weight total;
      rest' ← divide_all rest total;
      mret ((ticker, weight') :: rest')
  end.

(** the last part of [adjust_portfolio]: normalize to sum to 100% *)
Definition normalize (holdings : Py.dict float) (adjustments : list string)
  : Py.result (Py.dict float * list string) :=
  let total := sum (Py.values holdings) in
  if off_target total then
    holdings' ← divide_all holdings total;
    mret (holdings', adjustments ++ ["Normalized portfolio to 100%"])
  else mret (holdings, adjustments).

Definition adjust_portfolio (state : PortfolioState)
  : Py.result PortfolioState :=
  let holdings0 := holdings state in
  let violations := violations state in
  '(holdings1, adjustments1) ← fix_oversized violations holdings0 [];
  let '(holdings2, adjustments2) :=
    fix_cash_reserve violations holdings1 adjustments1 in
  '(holdings3, adjustments3) ← normalize holdings2 adjustments2;
  mret {| holdings := holdings3;
          violations := violations;
          iteration_count := iteration_count state;
          adjustments_made := adjustments_made state ++ adjustments3;
          status := "adjusting" |}.

(** the state [run_constraint_checker] starts from *)
Definition initial_state (holdings : Py.dict float) : PortfolioState :=
  {| holdings := holdings;
     violations := [];
     iteration_count := 0;
     adjustments_made := [];
     status := "checking" |}.

(** the tickers the [position_size] entries of a violation list name *)
Definition oversized_tickers (vs : list Violation) : list string :=
  flat_map (fun v => match v with
                     | position_size ticker _ _ _ => [ticker]
                     | _ => []
                     end) vs.

(** the holdings as the cap and the cash fix leave them, before the
    normalization *)
Definition fixed_holdings (state : PortfolioState)
  : Py.result (Py.dict float) :=
  '(holdings1, adjustments1) ← fix_oversized (violations state)
                                 (holdings state) [];
  mret (fix_cash_reserve (violations state) holdings1 adjustments1).1.

End Doubles.
End Doubles.

(** ** [human_in_loop.py]: the trade approval workflow *)

Module HumanInLoop.
Section HumanInLoop.

Context `{Builtins}.

Record TradeState : Type := {
  ticker : string;
  quantity : Z;
  price : Q;
  trade_type : string;
  analysis : string;
  human_decision : string;
  execution_result : string;
  thread_id : string
}.

(** [{**state, "analysis": a, "human_decision": d}] and the like *)
Definition with_analysis (a d : string) (state : TradeState) : TradeState :=
  {| ticker := ticker state;
     quantity := quantity state;
     price := price state;
     trade_type := trade_type state;
     analysis := a;
     human_decision := d;
     execution_result := execution_result state;
     thread_id := thread_id state |}.

Definition with_execution_result (r : string) (state : TradeState)
  : TradeState :=
  {| ticker := ticker state;
     quantity := quantity state;
     price := price state;
     trade_type := trade_type state;
     analysis := analysis state;
     human_decision := human_decision state;
     execution_result := r;
     thread_id := thread_id state |}.

(** [state["human_decision"] = d] *)
Definition with_human_decision (d : string) (state : TradeState)
  : TradeState :=
  {| ticker := ticker state;
     quantity := quantity state;
     price := price state;
     trade_type := trade_type state;
     analysis := analysis state;
     human_decision := d;
     execution_result := execution_result state;
     thread_id := thread_id state |}.

Definition market_impact (trade_value : Q) : string :=
  if Py.lt trade_value 100000 then "Low"
  else if Py.lt trade_value 500000 then "Medium"
  else "High".

Definition analyze_trade (state : TradeState) : TradeState :=
  let ticker := ticker state in
  let quantity := quantity state in
  let price := price state in
  let trade_type := trade_type state in
  (* Calculate trade value *)
  let trade_value := (inject_Z quantity * price)%Q in
  (* Generate analysis *)
  let analysis := "
📋 **TRADE ANALYSIS COMPLETE**

Trade Details:
- **Action**: " +:+ trade_type +:+ "
- **Ticker**: " +:+ ticker +:+ "
- **Quantity**: " +:+ format_grouped quantity +:+ " shares
- **Limit Price**: $" +:+ format_fixed2 price +:+ "
- **Total Value**: $" +:+ format_grouped_fixed2 trade_value +:+ "

Risk Assessment:
- **Market Impact**: " +:+ market_impact trade_value +:+ "
- **Liquidity**: Assess current market depth
- **Timing**: Consider market hours and volatility

Pre-Trade Checklist:
✓ Trade parameters validated
✓ Account has sufficient funds/shares
✓ Compliance checks passed
✓ Risk limits verified

**⚠️ AWAITING HUMAN APPROVAL**

Please review the trade details above and approve or reject this order.
" in
  with_analysis analysis "pending" state.

Definition human_approval (state : TradeState) : TradeState := state.

Definition execute_trade (state : TradeState) (w : Py.World)
  : TradeState * Py.World :=
  let decision := human_decision state in
  if String.eqb decision "approved" then
    (* Simulate trade execution *)
    let '(hex, w') := Py.uuid4_hex w in
    let result := "
✅ **TRADE EXECUTED SUCCESSFULLY**

Confirmation Details:
- **Order ID**: " +:+ str_upper (String.substring 0 8 hex) +:+ "
- **Status**: FILLED
- **Ticker**: " +:+ ticker state +:+ "
- **Action**: " +:+ trade_type state +:+ "
- **Quantity**: " +:+ format_grouped (quantity state) +:+ " shares
- **Fill Price**: $" +:+ format_fixed2 (price state) +:+ "
- **Total Value**: $"
      +:+ format_grouped_fixed2 (inject_Z (quantity state) * price state)%Q
      +:+ "
- **Timestamp**: 2026-01-11 10:30:00 EST

The trade has been successfully executed and recorded in your account.
" in
    (with_execution_result result state, w')
  else
    (* Trade rejected *)
    let result := "
❌ **TRADE REJECTED**

The trade order for " +:+ format_int (quantity state) +:+ " shares of "
      +:+ ticker state +:+ " has been rejected per your decision.

No action has been taken. The order has been cancelled.

Reason: User rejected the trade
" in
    (with_execution_result result state, w).

Definition should_execute (state : TradeState) : string :=
  let decision := human_decision state in
  if String.eqb decision "approved" then "execute"
  else if String.eqb decision "rejected" then "cancel"
  else
    (* Default to cancel if decision is pending or unknown *)
    "cancel".

(** the function [create_cancel_node()] returns *)
Definition cancel_trade (state : TradeState) : TradeState :=
  let result := "
❌ **TRADE CANCELLED**

The trade order has been cancelled per your decision.

Order Details (Cancelled):
- Ticker: " +:+ ticker state +:+ "
- Action: " +:+ trade_type state +:+ "
- Quantity: " +:+ format_int (quantity state) +:+ " shares
- Price: $" +:+ format_fixed2 (price state) +:+ "

No trade was executed. Your account remains unchanged.
" in
  with_execution_result result state.

Definition create_cancel_node : TradeState -> TradeState := cancel_trade.

(** A partial update of a [TradeState]: the fields a returned dict holds. *)
Record TradeUpdate : Type := {
  set_ticker : option string;
  set_quantity : option Z;
  set_price : option Q;
  set_trade_type : option string;
  set_analysis : option string;
  set_human_decision : option string;
  set_execution_result : option string;
  set_thread_id : option string
}.

Definition merge (state : TradeState) (u : TradeUpdate) : TradeState :=
  {| ticker := default (ticker state) (set_ticker u);
     quantity := default (quantity state) (set_quantity u);
     price := default (price state) (set_price u);
     trade_type := default (trade_type state) (set_trade_type u);
     analysis := default (analysis state) (set_analysis u);
     human_decision := default (human_decision state) (set_human_decision u);
     execution_result :=
       default (execution_result state) (set_execution_result u);
     thread_id := default (thread_id state) (set_thread_id u) |}.

(** the update a step returns: [{**state, ...}] holds every field *)
Definition every_field (state : TradeState) : TradeUpdate :=
  {| set_ticker := Some (ticker state);
     set_quantity := Some (quantity state);
     set_price := Some (price state);
     set_trade_type := Some (trade_type state);
     set_analysis := Some (analysis state);
     set_human_decision := Some (human_decision state);
     set_execution_result := Some (execution_result state);
     set_thread_id := Some (thread_id state) |}.

(** the update a human supplies on resumption: [{"human_decision": d}] *)
Definition decision_update (d : string) : TradeUpdate :=
  {| set_ticker := None;
     set_quantity := None;
     set_price := None;
     set_trade_type := None;
     set_analysis := None;
     set_human_decision := Some d;
     set_execution_result := None;
     set_thread_id := None |}.

(** calls of the step functions, each leaving its name in the world *)
Definition call_analyze_trade (state : TradeState) (w : Py.World)
  : TradeState * Py.World :=
  (analyze_trade state, Py.record_call "analyze_trade" w).

Definition call_human_approval (state : TradeState) (w : Py.World)
  : TradeState * Py.World :=
  (human_approval state, Py.record_call "human_approval" w).

Definition call_execute_trade (state : TradeState) (w : Py.World)
  : TradeState * Py.World :=
  execute_trade state (Py.record_call "execute_trade" w).

Definition call_cancel_trade (state : TradeState) (w : Py.World)
  : TradeState * Py.World :=
  (cancel_trade state, Py.record_call "cancel_trade" w).

Definition as_step (call : TradeState -> Py.World -> TradeState * Py.World)
  : Engine.step_fn (State := TradeState) :=
  fun state w =>
    let '(returned, w') := call state w in (Py.Ok (every_field returned), w').

Definition build_hitl_agent : Engine.Graph TradeState TradeUpdate Py.World :=
  {| Engine.steps :=
       [("analyze_trade", as_step call_analyze_trade);
        ("human_approval", as_step call_human_approval);
        ("execute_trade", as_step call_execute_trade);
        ("cancel_trade", as_step call_cancel_trade)];
     Engine.entry_point := Engine.Edge (Engine.Step "analyze_trade");
     Engine.edges :=
       [("analyze_trade", Engine.Edge (Engine.Step "human_approval"));
        ("human_approval",
         Engine.ConditionalEdges should_execute
           [("execute", Engine.Step "execute_trade");
            ("cancel", Engine.Step "cancel_trade")]);
        ("execute_trade", Engine.Edge Engine.END);
        ("cancel_trade", Engine.Edge Engine.END)] |}.

(** the step the graph is meant to be interrupted before *)
Definition interrupt_before : string := "human_approval".

(** An entry of [_pending_trades]: the tuple [(app, state, config)], where
    [app] is always [build_hitl_agent()] and [config] holds the thread id. *)
Record Pending : Type := {
  pending_state : TradeState;
  pending_config : string
}.

(** [str(uuid.uuid4())]: the hex digits in groups of 8-4-4-4-12 *)
Definition uuid4_str (w : Py.World) : string * Py.World :=
  let '(hex, w') := Py.uuid4_hex w in
  (String.substring 0 8 hex +:+ "-" +:+ String.substring 8 4 hex +:+ "-"
   +:+ String.substring 12 4 hex +:+ "-" +:+ String.substring 16 4 hex
   +:+ "-" +:+ String.substring 20 12 hex, w').

Definition submit_trade (ticker : string) (quantity : Z) (price : Q)
    (trade_type : string) (_pending_trades : gmap string Pending)
    (w : Py.World)
  : (string * string * option Image) * gmap string Pending * Py.World :=
  (* Build the agent *)
  let app := build_hitl_agent in
  (* Generate unique thread ID *)
  let '(thread_id, w) := uuid4_str w in
  (* Create initial state (only run analyze_trade) *)
  let initial_state :=
    {| ticker := str_upper ticker;
       quantity := quantity;
       price := price;
       trade_type := str_upper trade_type;
       analysis := "";
       human_decision := "pending";
       execution_result := "";
       thread_id := thread_id |} in
  (* Only run analyze_trade step (not the full workflow) *)
  let '(analyzed_state, w) := call_analyze_trade initial_state w in
  (* Store the analyzed state (before human decision) *)
  let _pending_trades :=
    <[thread_id := {| pending_state := analyzed_state;
                      pending_config := thread_id |}]> _pending_trades in
  (* Generate graph visualization *)
  let graph_image := visualize_graph _ _ _ app in
  ((thread_id, analysis analyzed_state, graph_image), _pending_trades, w).

Definition no_pending_trade : string :=
  "❌ No pending trade found. Please submit a trade first.".

Definition approve_trade (thread_id : string)
    (_pending_trades : gmap string Pending) (w : Py.World)
  : string * gmap string Pending * Py.World :=
  match _pending_trades !! thread_id with
  | None => (no_pending_trade, _pending_trades, w)
  | Some entry =>
      (* Update state with approval: the stored dict itself is changed *)
      let state := with_human_decision "approved" (pending_state entry) in
      let _pending_trades :=
        <[thread_id := {| pending_state := state;
                          pending_config := pending_config entry |}]>
          _pending_trades in
      (* Execute the trade directly; on a state with every declared
         field it raises nothing, so the handler of the source is dead *)
      let '(final_state, w) := call_execute_trade state w in
      (* Clean up *)
      let _pending_trades := delete thread_id _pending_trades in
      (execution_result final_state, _pending_trades, w)
  end.

Definition reject_trade (thread_id : string)
    (_pending_trades : gmap string Pending) (w : Py.World)
  : string * gmap string Pending * Py.World :=
  match _pending_trades !! thread_id with
  | None => (no_pending_trade, _pending_trades, w)
  | Some entry =>
      (* Update state with rejection: the stored dict itself is changed *)
      let state := with_human_decision "rejected" (pending_state entry) in
      let _pending_trades :=
        <[thread_id := {| pending_state := state;
                          pending_config := pending_config entry |}]>
          _pending_trades in
      (* Cancel the trade directly *)
      let cancel_node := create_cancel_node in
      let '(final_state, w) :=
        (cancel_node state, Py.record_call "cancel_trade" w) in
      (* Clean up *)
      let _pending_trades := delete thread_id _pending_trades in
      (execution_result final_state, _pending_trades, w)
  end.

(** Modelled from the spec: the resumption of section 4.2, step 3, for an
    entry of the pending store: the saved state is the checkpoint, the
    suspended step is [human_approval], the update is the decision. *)
Definition resume_pending (decision : string) (entry : Pending)
    (w : Py.World) : Engine.RunResult TradeState * Py.World :=
  Engine.resume merge build_hitl_agent
    {| Engine.saved_state := pending_state entry;
       Engine.resume_step := interrupt_before |}
    (decision_update decision) Engine.recursion_limit [] w.

End HumanInLoop.
End HumanInLoop.

(** ** [router_pattern.py]: the investment analysis router *)

Module RouterPattern.
Section RouterPattern.

Context `{Builtins}.

Record InvestmentState : Type := {
  user_input : string;
  asset_type : string;
  analysis_result : string;
  routing_path : string
}.

(** [{**state, "analysis_result": r, "asset_type": a}] *)
Definition with_analysis_result (r a : string) (state : InvestmentState)
  : InvestmentState :=
  {| user_input := user_input state;
     asset_type := a;
     analysis_result := r;
     routing_path := routing_path state |}.

Definition analyze_equity (state : InvestmentState) : InvestmentState :=
  let result := "
📊 **EQUITY ANALYSIS**

Asset Identified: " +:+ user_input state +:+ "

Analysis Type: Fundamental Equity Analysis

Key Metrics to Consider:
- **P/E Ratio**: Price-to-earnings ratio for valuation
- **Revenue Growth**: YoY revenue trends
- **Profit Margins**: Net and operating margins
- **Market Cap**: Company size and liquidity
- **Dividend Yield**: Income generation potential

Recommendation Framework:
1. Review financial statements (10-K, 10-Q)
2. Compare to industry peers
3. Analyze competitive moat
4. Assess management quality
5. Consider macroeconomic factors

Risk Factors:
- Market volatility
- Sector-specific risks
- Company-specific execution risks
" in
  with_analysis_result result "equity" state.

Definition analyze_bond (state : InvestmentState) : InvestmentState :=
  let result := "
📈 **FIXED INCOME ANALYSIS**

Asset Identified: " +:+ user_input state +:+ "

Analysis Type: Credit & Duration Analysis

Key Metrics to Consider:
- **Yield to Maturity (YTM)**: Total return if held to maturity
- **Duration**: Interest rate sensitivity
- **Credit Rating**: S&P, Moody's, Fitch ratings
- **Coupon Rate**: Periodic interest payments
- **Spread**: Premium over risk-free rate

Recommendation Framework:
1. Assess credit quality and default risk
2. Evaluate interest rate environment
3. Calculate duration and convexity
4. Compare to similar bonds
5. Consider tax implications

Risk Factors:
- Credit/default risk
- Interest rate risk
- Inflation risk
- Liquidity risk
" in
  with_analysis_result result "bond" state.

Definition analyze_alternative (state : InvestmentState) : InvestmentState :=
  let result := "
🏦 **ALTERNATIVE INVESTMENT ANALYSIS**

Asset Identified: " +:+ user_input state +:+ "

Analysis Type: Alternative Asset Evaluation

Asset Classes:
- Real Estate / REITs
- Commodities (Gold, Oil, Agriculture)
- Cryptocurrencies
- Private Equity
- Hedge Funds

Key Considerations:
- **Liquidity**: How easily can you exit?
- **Correlation**: Diversification benefits
- **Fees**: Management and performance fees
- **Minimum Investment**: Capital requirements
- **Time Horizon**: Typical holding period

Recommendation Framework:
1. Define investment objective
2. Assess liquidity needs
3. Evaluate track record and management
4. Understand fee structure
5. Consider portfolio allocation

Risk Factors:
- Illiquidity premium/discount
- Valuation complexity
- Regulatory changes
- Concentration risk
" in
  with_analysis_result result "alternative" state.

Definition equity_keywords : list string :=
  ["stock"; "stocks"; "equity"; "equities"; "share"; "shares";
   "nasdaq"; "s&p"; "dow"; "ipo"; "dividend"].

Definition bond_keywords : list string :=
  ["bond"; "bonds"; "fixed income"; "treasury"; "treasuries";
   "corporate bond"; "municipal bond"; "yield"; "coupon"].

Definition route_to_analysis (state : InvestmentState) : string :=
  let user_input := str_lower (user_input state) in
  (* Check for equity keywords *)
  if existsb (fun keyword => Py.contains keyword user_input) equity_keywords
  then "equity"
  (* Check for bond keywords *)
  else if existsb (fun keyword => Py.contains keyword user_input) bond_keywords
  then "bond"
  (* Default to alternative *)
  else "alternative".

(** a step returns [{**state, ...}], a value for every field *)
Definition merge (current returned : InvestmentState) : InvestmentState :=
  returned.

Definition as_step (name : string) (f : InvestmentState -> InvestmentState)
  : Engine.step_fn (State := InvestmentState) :=
  fun state w => (Py.Ok (f state), Py.record_call name w).

Definition build_router_agent
  : Engine.Graph InvestmentState InvestmentState Py.World :=
  {| Engine.steps :=
       [("equity_analysis", as_step "analyze_equity" analyze_equity);
        ("bond_analysis", as_step "analyze_bond" analyze_bond);
        ("alternative_analysis",
         as_step "analyze_alternative" analyze_alternative)];
     Engine.entry_point :=
       Engine.ConditionalEdges route_to_analysis
         [("equity", Engine.Step "equity_analysis");
          ("bond", Engine.Step "bond_analysis");
          ("alternative", Engine.Step "alternative_analysis")];
     Engine.edges :=
       [("equity_analysis", Engine.Edge Engine.END);
        ("bond_analysis", Engine.Edge Engine.END);
        ("alternative_analysis", Engine.Edge Engine.END)] |}.

End RouterPattern.
End RouterPattern.

(** ** [router_pattern.py]: the execution helper and the keyword lists *)

Module RouterRun.
Section RouterRun.

Context `{Builtins}.
Import RouterPattern.

Definition run_router (user_query : string) (w : Py.World)
  : (string * option Image) * Py.World :=
  (* Build the agent *)
  let app := build_router_agent in
  (* Create initial state *)
  let initial_state :=
    {| user_input := user_query;
       asset_type := "";
       analysis_result := "";
       routing_path := "" |} in
  (* Execute agent *)
  match Engine.invoke merge app initial_state w with
  | (Py.Ok final_state, w') =>
      (* Extract result *)
      let response_text := analysis_result final_state in
      (* Add routing info *)
      let response_text :=
        response_text +:+ Py.nl +:+ Py.nl +:+ "**🔀 Routing Decision:** "
        +:+ str_upper (asset_type final_state)
        +:+ " analysis path selected" in
      (* Generate graph visualization *)
      let graph_image := visualize_graph _ _ _ app in
      ((response_text, graph_image), w')
  | (Py.Raise e, w') => (("Error executing router: " +:+ exn_str e, None), w')
  end.

(** the state [run_router] starts from *)
Definition initial_state (user_query : string) : InvestmentState :=
  {| user_input := user_query;
     asset_type := "";
     analysis_result := "";
     routing_path := "" |}.

(** the lower-cased query holds one of the keywords, anywhere *)
Definition mentions (keywords : list string) (state : InvestmentState)
  : Prop :=
  exists keyword before after,
    In keyword keywords
    /\ str_lower (user_input state) = before +:+ keyword +:+ after.

(** the keywords left when those that hold another keyword are dropped *)
Definition core_equity_keywords : list string :=
  ["stock"; "equity"; "equities"; "share";
   "nasdaq"; "s&p"; "dow"; "ipo"; "dividend"].

Definition core_bond_keywords : list string :=
  ["bond"; "fixed income"; "treasury"; "treasuries"; "yield"; "coupon"].

(** the analysis function behind each label, with the name it logs *)
Definition analysis_nodes
  : list (string * (string * (InvestmentState -> InvestmentState))) :=
  [("equity", ("analyze_equity", analyze_equity));
   ("bond", ("analyze_bond", analyze_bond));
   ("alternative", ("analyze_alternative", analyze_alternative))].

(** the line [run_router] appends to the analysis *)
Definition routing_line (label : string) : string :=
  Py.nl +:+ Py.nl +:+ "**🔀 Routing Decision:** "
  +:+ str_upper label +:+ " analysis path selected".

End RouterRun.
End RouterRun.

(** ** [travel_agent.py]: the agent node and its router *)

Module TravelAgent.
Section TravelAgent.

Context `{Builtins}.

(** [messages] carries the reducer [operator.add]: a returned list of
    messages is appended to the history. *)
Record AgentState : Type := {
  messages : list Message
}.

Definition merge (state : AgentState) (returned : list Message) : AgentState :=
  {| messages := messages state ++ returned |}.

(** returns the partial update [{"messages": [response]}] *)
Definition call_model_with_tools (state : AgentState) (tools : list string)
    (w : Py.World) : list Message * Py.World :=
  let messages := messages state in
  (* Bind tools to the LLM, invoke with conversation history *)
  let '(response, w') := Py.model_invoke (llm_invoke tools messages) w in
  (* Return new message to be appended to state *)
  ([response], w').

Definition should_continue (state : AgentState) : Py.result string :=
  match last (messages state) with
  | None => Py.Raise Py.IndexError
  | Some last_message =>
      (* If the LLM made tool calls, route to action node *)
      match tool_calls last_message with
      | Some (_ :: _) => Py.Ok "action"
      (* Otherwise, end the workflow *)
      | _ => Py.Ok "__end__"
      end
  end.

(** the labels declared for [should_continue] in [build_travel_agent] *)
Definition should_continue_edges : list string := ["action"; "__end__"].

End TravelAgent.
End TravelAgent.

(** ** The validation of a compiled graph *)

Module Validation.
Section Validation.

Context {State Partial World : Type}.

(** the destinations a transition can lead to *)
Definition destinations (t : Engine.transition State)
  : list Engine.destination :=
  match t with
  | Engine.Edge d => [d]
  | Engine.ConditionalEdges _ label_to_step => map snd label_to_step
  end.

Definition named (names : list string) (name : string) : bool :=
  existsb (String.eqb name) names.

Fixpoint distinct (names : list string) : bool :=
  match names with
  | [] => true
  | name :: rest => negb (named rest name) && distinct rest
  end.

(** Modelled from the spec: what [compile] validates (sections 3 and 4.1):
    every destination of the entry, of an edge and of a router's label map
    is a registered step or the terminal marker; every registered step
    has its outgoing edges; no step name collides. *)
Definition validate (g : Engine.Graph State Partial World) : bool :=
  forallb (fun d => match d with
                    | Engine.END => true
                    | Engine.Step name => named (map fst (Engine.steps g)) name
                    end)
          (flat_map destinations (Engine.transitions g))
  && forallb (named (map fst (Engine.edges g))) (map fst (Engine.steps g))
  && distinct (map fst (Engine.steps g)).

(** a destination the validation accepts *)
Definition known (g : Engine.Graph State Partial World)
    (d : Engine.destination) : Prop :=
  match d with
  | Engine.END => True
  | Engine.Step name => named (map fst (Engine.steps g)) name = true
  end.

(** a run that failed on the structure of the graph, not in a step *)
Definition structural (r : Engine.abort_reason) : Prop :=
  match r with
  | Engine.UnknownStepError _ => True
  | _ => False
  end.

End Validation.
End Validation.

(** ** [travel_agent.py]: the graph and its execution helper *)

Module TravelRun.

(** What the packages give the travel agent besides the language model. *)
Class Packages : Type := {
  (** [ToolNode(tools)] of [langgraph.prebuilt], as a step: it runs the
      tools the last message asks for and returns their messages *)
  ToolNode :
    list string -> TravelAgent.AgentState -> Py.World
    -> Py.result (list Message) * Py.World;
  (** [str(message)] *)
  message_str : Message -> string
}.

Section TravelRun.

Context `{Builtins} `{Packages}.
Import TravelAgent.

(** [HumanMessage(content=text)] *)
Definition HumanMessage (text : string) : Message :=
  {| content := text; tool_calls := None |}.

(** [isinstance(message, AIMessage)]: the messages of the model are the
    ones that have [tool_calls] *)
Definition is_AIMessage (message : Message) : bool :=
  match tool_calls message with
  | Some _ => true
  | None => false
  end.

(** Define all available tools *)
Definition tools : list string :=
  ["tavily_search_tool"; "search_flights_tool"; "search_hotels_tool";
   "get_current_date_tool"].

(** Create agent node (bind tools) *)
Definition agent_node (state : AgentState) (w : Py.World)
  : Py.result (list Message) * Py.World :=
  let '(returned, w') := call_model_with_tools state tools w in
  (Py.Ok returned, w').

(** [should_continue] as the router of the graph.  A router of the
    execution loop answers with a label; the [IndexError] of
    [should_continue] on an empty history is given the label [""], which
    no edge declares, so that the run aborts there as well. *)
Definition route (state : AgentState) : string :=
  match should_continue state with
  | Py.Ok label => label
  | Py.Raise _ => ""
  end.

Definition build_travel_agent
  : Engine.Graph AgentState (list Message) Py.World :=
  {| Engine.steps :=
       [("agent", agent_node);
        ("action", ToolNode tools)];
     Engine.entry_point := Engine.Edge (Engine.Step "agent");
     Engine.edges :=
       [("agent",
         Engine.ConditionalEdges route
           [("action", Engine.Step "action");
            ("__end__", Engine.END)]);
        ("action", Engine.Edge (Engine.Step "agent"))] |}.

(** Modelled from the spec:
    [app.invoke(initial_state, config={"recursion_limit": n})], which is
    [execute] with [n] as the step ceiling and an empty suspend set,
    handing back the final state or raising. *)
Definition invoke_with (recursion_limit : nat)
    (initial_state : AgentState) (w : Py.World)
  : Py.result AgentState * Py.World :=
  match Engine.execute merge build_travel_agent initial_state
          recursion_limit [] w with
  | ({| Engine.run_status := Engine.aborted r |}, w') =>
      (Py.Raise (Engine.raised r), w')
  | ({| Engine.run_status := _; Engine.run_state := s |}, w') =>
      (Py.Ok s, w')
  end.

Definition error_executing (e : Py.exn) : string :=
  "Error executing travel agent: " +:+ exn_str e.

Definition run_travel_agent (user_query : string) (w : Py.World)
  : (string * option Image) * Py.World :=
  (* Build the agent *)
  let app := build_travel_agent in
  (* Create initial state *)
  let initial_state := {| messages := [HumanMessage user_query] |} in
  (* Execute agent *)
  match invoke_with 15 initial_state w with
  | (Py.Ok final_state, w') =>
      (* Extract final response *)
      match last (messages final_state) with
      | None => ((error_executing Py.IndexError, None), w')
      | Some final_message =>
          let response_text :=
            if is_AIMessage final_message then content final_message
            else message_str final_message in
          (* Generate graph visualization *)
          let graph_image := visualize_graph _ _ _ app in
          ((response_text, graph_image), w')
      end
  | (Py.Raise e, w') => ((error_executing e, None), w')
  end.

(** the replies of the model are messages of the model *)
Definition model_replies_are_AIMessages : Prop :=
  forall tools history request,
    tool_calls (llm_invoke tools history request) <> None.

(** the tool node sends no request to the model *)
Definition tools_leave_the_model_alone : Prop :=
  forall state w,
    Py.model_requests (ToolNode tools state w).2 = Py.model_requests w.

(** a message that asks for a tool *)
Definition asks_for_a_tool (message : Message) : Prop :=
  exists call calls, tool_calls message = Some (call :: calls).

(** how a run from the agent step, or from the tool step, can end: on a
    reply of the model that asks for no tool, on an exception of the tool
    node, or at the step ceiling after [bound] requests *)
Definition ends_well (bound : nat) (w : Py.World)
    (out : Engine.RunResult AgentState * Py.World) : Prop :=
  (Py.model_requests out.2 <= Py.model_requests w + bound)%nat
  /\ match Engine.run_status out.1 with
     | Engine.completed =>
         exists history request,
           messages (Engine.run_state out.1)
           = history ++ [llm_invoke tools history request]
           /\ ~ asks_for_a_tool (llm_invoke tools history request)
     | Engine.aborted Engine.step_limit_exceeded =>
         Py.model_requests out.2 = (Py.model_requests w + bound)%nat
     | Engine.aborted (Engine.StepExecutionError e) =>
         exists state w0, (ToolNode tools state w0).1 = Py.Raise e
     | _ => False
     end.

End TravelRun.
End TravelRun.

(** ** [travel_agent.py]: the search tools

    The tools read the answers of the Amadeus service, which are JSON
    documents.  The data of the three endpoints used is a JSON array; a
    missing data counts as the empty array, both being false for
    [if not response.data]. *)

Module TravelTools.

(** what the body of a tool can raise before its handlers catch it *)
Inductive error : Type :=
| KeyError (key : string)
| IntKeyError (key : Z)
| IndexError
| TypeError
| AttributeError
| ClientError (text : string).

Inductive outcome (A : Type) : Type :=
| Done (a : A)
| Fails (e : error).
Arguments Done {A} a.
Arguments Fails {A} e.

(** [response.data] of a request, or what the request, the making of
    the client included, raised: a [ResponseError] with its description,
    or another exception *)
Inductive response : Type :=
| Data (data : list json)
| ResponseError (description : string)
| Raised (e : error).

(** the keyword arguments of [flight_offers_search.get] *)
Record FlightSearch : Type := {
  originLocationCode : string;
  destinationLocationCode : string;
  departureDate : string;
  flight_adults : Z;
  travelClass : string;
  currencyCode : string;
  max : Z;
  returnDate : option string
}.

(** the keyword arguments of [hotel_offers_search.get] *)
Record HotelOffers : Type := {
  hotelIds : string;
  checkInDate : string;
  checkOutDate : string;
  hotel_adults : Z;
  hotel_currency : string
}.

(** What the Amadeus client and the Python runtime provide. *)
Class Amadeus : Type := {
  (** [amadeus.shopping.flight_offers_search.get(...)] *)
  flight_offers_search : FlightSearch -> response;
  (** [amadeus.reference_data.locations.hotels.by_city.get(cityCode=c)] *)
  hotels_by_city : string -> response;
  (** [amadeus.shopping.hotel_offers_search.get(...)] *)
  hotel_offers_search : HotelOffers -> response;
  (** [f"{v}"] on a value that is no [str] *)
  value_str : json -> string;
  (** [s[0]] and [s[-1]] on a [str] that is not empty *)
  str_first : string -> string;
  str_last : string -> string;
  (** [str(e)] *)
  error_str : error -> string
}.

End TravelTools.

#[global] Instance outcome_ret : MRet TravelTools.outcome :=
@TravelTools.Done.
#[global] Instance outcome_bind : MBind TravelTools.outcome :=
fun A B k r =>
  match r with
  | TravelTools.Done a => k a
  | TravelTools.Fails e => TravelTools.Fails e
  end.

Module SearchTools.
Section SearchTools.

Import TravelTools.
Context `{Builtins} `{Amadeus}.

(** [v[key]] with a [str] key *)
Definition subscript (v : json) (key : string) : outcome json :=
  match v with
  | JObject members =>
      match Py.find members key with
      | Some item => Done item
      | None => Fails (KeyError key)
      end
  | _ => Fails TypeError
  end.

(** [v[0]] *)
Definition first (v : json) : outcome json :=
  match v with
  | JArray [] => Fails IndexError
  | JArray (item :: _) => Done item
  | JString "" => Fails IndexError
  | JString s => Done (JString (str_first s))
  | JObject _ => Fails (IntKeyError 0)
  | _ => Fails TypeError
  end.

(** [v[-1]] *)
Definition final (v : json) : outcome json :=
  match v with
  | JArray items =>
      match last items with
      | None => Fails IndexError
      | Some item => Done item
      end
  | JString "" => Fails IndexError
  | JString s => Done (JString (str_last s))
  | JObject _ => Fails (IntKeyError (-1))
  | _ => Fails TypeError
  end.

(** [v.get(key, default)] *)
Definition get (v : json) (key : string) (default : json) : outcome json :=
  match v with
  | JObject members => Done (Py.get members key default)
  | _ => Fails AttributeError
  end.

(** [bool(v)] *)
Definition truthy (v : json) : bool :=
  match v with
  | JNull => false
  | JBool b => b
  | JNumber q => negb (Qeq_bool q 0)
  | JString s => negb (String.eqb s "")
  | JArray items => match items with [] => false | _ => true end
  | JObject members => match members with [] => false | _ => true end
  end.

(** [f"{v}"] *)
Definition fstring (v : json) : string :=
  match v with
  | JString s => s
  | _ => value_str v
  end.

(** [l[:n]] *)
Definition slice_to {A} (n : Z) (l : list A) : list A :=
  if (0 <=? n)%Z then firstn (Z.to_nat n) l
  else firstn (length l - Z.to_nat (- n)) l.

(** [sep.join(parts)] *)
Fixpoint join (sep : string) (parts : list string) : string :=
  match parts with
  | [] => ""
  | [part] => part
  | part :: rest => part +:+ sep +:+ join sep rest
  end.

(** the values one flight offer is read for, in the order of the reads *)
Record FlightFields : Type := {
  price : json;
  currency : json;
  airline : json;
  departure : json;
  arrival : json
}.

Definition flight_fields (offer : json) : outcome FlightFields :=
  price_entry ← subscript offer "price";
  price ← subscript price_entry "total";
  currency_entry ← subscript offer "price";
  currency ← subscript currency_entry "currency";
  (* Extract itinerary details *)
  itineraries ← subscript offer "itineraries";
  outbound ← first itineraries;
  segments ← subscript outbound "segments";
  (* First segment details *)
  first_segment ← first segments;
  airline ← subscript first_segment "carrierCode";
  departure_entry ← subscript first_segment "departure";
  departure ← subscript departure_entry "at";
  last_segment ← final segments;
  arrival_entry ← subscript last_segment "arrival";
  arrival ← subscript arrival_entry "at";
  Done {| price := price; currency := currency; airline := airline;
          departure := departure; arrival := arrival |}.

Definition flight_text (idx : Z) (fields : FlightFields) : string :=
  "Flight " +:+ format_int idx +:+ ":" +:+ Py.nl
  +:+ "  Airline: " +:+ fstring (airline fields) +:+ Py.nl
  +:+ "  Departure: " +:+ fstring (departure fields) +:+ Py.nl
  +:+ "  Arrival: " +:+ fstring (arrival fields) +:+ Py.nl
  +:+ "  Price: " +:+ fstring (currency fields) +:+ " "
  +:+ fstring (price fields) +:+ Py.nl.

(** the loop over [enumerate(offers, idx)] *)
Fixpoint flight_results (idx : Z) (offers : list json)
  : outcome (list string) :=
  match offers with
  | [] => Done []
  | offer :: rest =>
      fields ← flight_fields offer;
      results ← flight_results (idx + 1) rest;
      Done (flight_text idx fields :: results)
  end.

(** Build search parameters; add return date if provided *)
Definition search_params (origin_code destination_code : string)
    (departure_date : string) (return_date : option string) (adults : Z)
    (travel_class currency : string) (max_offers : Z) : FlightSearch :=
  {| originLocationCode := origin_code;
     destinationLocationCode := destination_code;
     departureDate := departure_date;
     flight_adults := adults;
     travelClass := travel_class;
     currencyCode := currency;
     max := max_offers;
     returnDate :=
       match return_date with
       | Some date => if String.eqb date "" then None else Some date
       | None => None
       end |}.

Definition error_searching_flights (e : error) : string :=
  "Error searching flights: " +:+ error_str e.

Definition search_flights_tool (origin_code destination_code : string)
    (departure_date : string) (return_date : option string) (adults : Z)
    (travel_class currency : string) (max_offers : Z) : string :=
  (* Execute search *)
  match flight_offers_search
          (search_params origin_code destination_code departure_date
             return_date adults travel_class currency max_offers) with
  | ResponseError description => "Amadeus API Error: " +:+ description
  | Raised e => error_searching_flights e
  | Data [] => "No flights found for the specified criteria."
  | Data data =>
      (* Parse and format results *)
      match flight_results 1 (slice_to max_offers data) with
      | Done results => join Py.nl results
      | Fails e => error_searching_flights e
      end
  end.

(** [[hotel['hotelId'] for hotel in hotels]] *)
Fixpoint hotel_ids (hotels : list json) : outcome (list json) :=
  match hotels with
  | [] => Done []
  | hotel :: rest =>
      id ← subscript hotel "hotelId";
      ids ← hotel_ids rest;
      Done (id :: ids)
  end.

(** [','.join(ids)], a [TypeError] when an item is no [str] *)
Fixpoint join_ids (ids : list json) : outcome (list string) :=
  match ids with
  | [] => Done []
  | JString id :: rest =>
      strings ← join_ids rest;
      Done (id :: strings)
  | _ :: _ => Fails TypeError
  end.

(** the values one hotel entry is read for; no price without an offer *)
Record HotelFields : Type := {
  name : json;
  hotel_price : json;
  price_currency : json
}.

Definition hotel_fields (hotel : json) : outcome (option HotelFields) :=
  hotel_entry ← get hotel "hotel" (JObject []);
  name ← get hotel_entry "name" (JString "Unknown Hotel");
  (* Get best offer *)
  offers ← get hotel "offers" JNull;
  if truthy offers then
    offers ← subscript hotel "offers";
    offer ← first offers;
    price_entry ← subscript offer "price";
    price ← subscript price_entry "total";
    currency_entry ← subscript offer "price";
    currency ← subscript currency_entry "currency";
    Done (Some {| name := name; hotel_price := price;
                  price_currency := currency |})
  else Done None.

Definition hotel_text (idx : Z) (fields : HotelFields) : string :=
  "Hotel " +:+ format_int idx +:+ ":" +:+ Py.nl
  +:+ "  Name: " +:+ fstring (name fields) +:+ Py.nl
  +:+ "  Price: " +:+ fstring (price_currency fields) +:+ " "
  +:+ fstring (hotel_price fields) +:+ " (total)" +:+ Py.nl.

Fixpoint hotel_results (idx : Z) (hotels : list json)
  : outcome (list string) :=
  match hotels with
  | [] => Done []
  | hotel :: rest =>
      fields ← hotel_fields hotel;
      results ← hotel_results (idx + 1) rest;
      Done (match fields with
            | Some fields => hotel_text idx fields :: results
            | None => results
            end)
  end.

Definition error_searching_hotels (e : error) : string :=
  "Error searching hotels: " +:+ error_str e.

Definition search_hotels_tool (city_code check_in_date : string)
    (check_out_date : string) (adults radius : Z) (radius_unit : string)
    (currency : string) (max_offers : Z) : string :=
  (* First, search for hotel IDs by city *)
  match hotels_by_city city_code with
  | ResponseError description => "Amadeus API Error: " +:+ description
  | Raised e => error_searching_hotels e
  | Data [] => "No hotels found in " +:+ city_code +:+ "."
  | Data hotels =>
      (* Get first few hotel IDs *)
      match ids ← hotel_ids (firstn 10 hotels); join_ids ids with
      | Fails e => error_searching_hotels e
      | Done ids =>
          (* Search for offers *)
          match hotel_offers_search
                  {| hotelIds := join "," ids;
                     checkInDate := check_in_date;
                     checkOutDate := check_out_date;
                     hotel_adults := adults;
                     hotel_currency := currency |} with
          | ResponseError description =>
              "Amadeus API Error: " +:+ description
          | Raised e => error_searching_hotels e
          | Data [] => "No hotel offers available for the specified dates."
          | Data offers =>
              (* Format results *)
              match hotel_results 1 (slice_to max_offers offers) with
              | Fails e => error_searching_hotels e
              | Done [] => "No hotel offers with pricing available."
              | Done results => join Py.nl results
              end
          end
      end
  end.

(** an offer that has all the fields the flight tool reads *)
Definition readable (offer : json) : Prop :=
  exists fields, flight_fields offer = Done fields.

(** the results of the hotel loop for the fields read, the first entry
    being number [idx]: an entry without offers gives no result *)
Definition numbered_hotels (idx : Z) (fields : list (option HotelFields))
  : list string :=
  omap (fun result => result)
       (imap (fun i => option_map (hotel_text (idx + Z.of_nat i))) fields).

End SearchTools.
End SearchTools.

(** ** A concrete runtime for the closed examples

    The theorems below hold for every [Builtins].  The examples that run
    a workflow on a given input need one: this is a small one, exact on
    rationals, for ASCII text and for JSON without escapes or exponents. *)

Module Sample.

Definition dquote : ascii := "034"%char.

Definition is_space (c : ascii) : bool :=
  let n := N_of_ascii c in
  (n =? 32)%N || (n =? 9)%N || (n =? 10)%N || (n =? 13)%N.

Fixpoint skip_ws (s : string) : string :=
  match s with
  | String c rest => if is_space c then skip_ws rest else s
  | EmptyString => s
  end.

Fixpoint digits (s : string) (acc : N) (count : nat) : N * nat * string :=
  match s with
  | String c rest =>
      let n := N_of_ascii c in
      if (48 <=? n)%N && (n <=? 57)%N
      then digits rest (acc * 10 + (n - 48))%N (S count)
      else (acc, count, s)
  | EmptyString => (acc, count, s)
  end.

Definition parse_number (s : string) : option (Q * string) :=
  let '(negative, s1) :=
    match s with
    | String "-"%char rest => (true, rest)
    | _ => (false, s)
    end in
  let '(int_part, int_count, s2) := digits s1 0%N 0%nat in
  if (int_count =? 0)%nat then None
  else
    let signed (n : N) : Z :=
      if negative then (- Z.of_N n)%Z else Z.of_N n in
    match s2 with
    | String "."%char rest =>
        let '(all_digits, frac_count, s3) := digits rest int_part 0%nat in
        if (frac_count =? 0)%nat then None
        else Some (signed all_digits # Pos.pow 10 (Pos.of_nat frac_count), s3)
    | _ => Some (signed int_part # 1, s2)
    end.

Fixpoint until_quote (s : string) : option (string * string) :=
  match s with
  | EmptyString => None
  | String c rest =>
      if Ascii.eqb c dquote then Some (EmptyString, rest)
      else if Ascii.eqb c "\"%char then None
      else match until_quote rest with
           | Some (text, rest') => Some (String c text, rest')
           | None => None
           end
  end.

Definition drop (n : nat) (s : string) : string :=
  String.substring n (String.length s - n) s.

Fixpoint parse_value (fuel : nat) (s : string) : option (json * string) :=
  match fuel with
  | O => None
  | S fuel' =>
      let s := skip_ws s in
      match s with
      | String "{"%char rest =>
          match skip_ws rest with
          | String "}"%char rest' => Some (JObject [], rest')
          | rest' => parse_members fuel' rest' []
          end
      | String "["%char rest =>
          match skip_ws rest with
          | String "]"%char rest' => Some (JArray [], rest')
          | rest' => parse_items fuel' rest' []
          end
      | String c rest =>
          if Ascii.eqb c dquote then
            match until_quote rest with
            | Some (text, rest') => Some (JString text, rest')
            | None => None
            end
          else if String.prefix "true" s then Some (JBool true, drop 4 s)
          else if String.prefix "false" s then Some (JBool false, drop 5 s)
          else if String.prefix "null" s then Some (JNull, drop 4 s)
          else match parse_number s with
               | Some (q, rest') => Some (JNumber q, rest')
               | None => None
               end
      | EmptyString => None
      end
  end
with parse_members (fuel : nat) (s : string) (acc : Py.dict json)
  : option (json * string) :=
  match fuel with
  | O => None
  | S fuel' =>
      match skip_ws s with
      | String c rest =>
          if Ascii.eqb c dquote then
            match until_quote rest with
            | Some (key, rest1) =>
                match skip_ws rest1 with
                | String ":"%char rest2 =>
                    match parse_value fuel' rest2 with
                    | Some (v, rest3) =>
                        let acc := Py.setitem acc key v in
                        match skip_ws rest3 with
                        | String ","%char rest4 =>
                            parse_members fuel' rest4 acc
                        | String "}"%char rest4 => Some (JObject acc, rest4)
                        | _ => None
                        end
                    | None => None
                    end
                | _ => None
                end
            | None => None
            end
          else None
      | EmptyString => None
      end
  end
with parse_items (fuel : nat) (s : string) (acc : list json)
  : option (json * string) :=
  match fuel with
  | O => None
  | S fuel' =>
      match parse_value fuel' s with
      | Some (v, rest) =>
          match skip_ws rest with
          | String ","%char rest' => parse_items fuel' rest' (acc ++ [v])
          | String "]"%char rest' => Some (JArray (acc ++ [v]), rest')
          | _ => None
          end
      | None => None
      end
  end.

Definition loads (s : string) : loaded :=
  match parse_value (S (String.length s)) s with
  | Some (v, rest) =>
      match skip_ws rest with
      | EmptyString => Loaded v
      | _ => JSONDecodeError
      end
  | None => JSONDecodeError
  end.

(** the nearest integer, ties to the even one *)
Definition round_half_even (q : Q) : Z :=
  let n := Qnum q in
  let d := Z.pos (Qden q) in
  let f := (n / d)%Z in
  match (2 * (n - f * d) ?= d)%Z with
  | Lt => f
  | Gt => (f + 1)%Z
  | Eq => if Z.even f then f else (f + 1)%Z
  end.

Fixpoint group3 (rev_digits : list ascii) : list ascii :=
  match rev_digits with
  | a :: b :: c :: (_ :: _) as rest => a :: b :: c :: ","%char :: group3 rest
  | _ => rev_digits
  end.

Definition grouped (digits : string) : string :=
  string_of_list_ascii (rev (group3 (rev (list_ascii_of_string digits)))).

Definition int_text (n : Z) : string := pretty n.

Definition grouped_int (n : Z) : string :=
  if (n <? 0)%Z then "-" +:+ grouped (pretty (- n)%Z) else grouped (pretty n).

Fixpoint pad_left (width : nat) (s : string) : string :=
  if (String.length s <? width)%nat
  then match width with
       | O => s
       | S w => "0" +:+ pad_left w s
       end
  else s.

Definition fixed (grouping : bool) (decimals : nat) (q : Q) : string :=
  let scale := (10 ^ Z.of_nat decimals)%Z in
  let n := round_half_even (Qabs q * inject_Z scale) in
  let int_digits := pretty (n / scale)%Z in
  let frac_digits := pad_left decimals (pretty (n mod scale)%Z) in
  (if Py.lt q 0 then "-" else "")
  +:+ (if grouping then grouped int_digits else int_digits)
  +:+ "." +:+ frac_digits.

Definition percent (q : Q) : string :=
  fixed false 1 (q * 100) +:+ "%".

Definition map_ascii (f : ascii -> ascii) (s : string) : string :=
  string_of_list_ascii (map f (list_ascii_of_string s)).

Definition lower_ascii (c : ascii) : ascii :=
  let n := N_of_ascii c in
  if (65 <=? n)%N && (n <=? 90)%N then ascii_of_N (n + 32) else c.

Definition upper_ascii (c : ascii) : ascii :=
  let n := N_of_ascii c in
  if (97 <=? n)%N && (n <=? 122)%N then ascii_of_N (n - 32) else c.

Definition exception_text (e : Py.exn) : string :=
  match e with
  | Py.ZeroDivisionError => "division by zero"
  | Py.KeyError key => "'" +:+ key +:+ "'"
  | Py.IndexError => "list index out of range"
  | Py.TypeError => "unsupported operand type(s)"
  | Py.ValueError => "invalid value"
  | Py.GraphRecursionError =>
      "Recursion limit of 25 reached without hitting a stop condition."
  end.

(** a model endpoint that asks for one search first and then answers *)
Definition endpoint (tools : list string) (history : list Message)
    (request : nat) : Message :=
  match request with
  | O => {| content := ""; tool_calls := Some (firstn 1 tools) |}
  | S _ => {| content := "Here is your itinerary."; tool_calls := Some [] |}
  end.

Definition builtins : Builtins :=
  {| format_percent := percent;
     format_fixed2 := fixed false 2;
     format_grouped_fixed2 := fixed true 2;
     format_grouped := grouped_int;
     format_int := int_text;
     str_lower := map_ascii lower_ascii;
     str_upper := map_ascii upper_ascii;
     exn_str := exception_text;
     json_loads := loads;
     llm_invoke := endpoint;
     Image := unit;
     visualize_graph := fun _ _ _ _ => None |}.

(** a process that has called no step yet and whose uuid source yields
    distinct values *)
Definition uuid_source (n : nat) : string :=
  pad_left 8 (pretty n) +:+ "a1b2c3d4e5f60718293a4b5c".

Definition world : Py.World :=
  {| Py.calls := [];
     Py.uuid_source := uuid_source;
     Py.uuid_drawn := 0;
     Py.model_requests := 0 |}.

Definition text (parts : list string) : string :=
  fold_right (fun part acc => part +:+ acc) "" parts.


End Sample.

(** ** The inputs of the closed examples *)

Module Examples.


(** the first run of the example portfolio *)
Definition example_run
  : Engine.RunResult CyclesIteration.PortfolioState * Py.World :=
  Engine.execute CyclesIteration.merge
    (@CyclesIteration.build_cycles_agent Sample.builtins)
    (CyclesIteration.initial_state CyclesIteration.example_portfolio)
    Engine.recursion_limit [] Sample.world.

(** a trade of 100 AAPL at 150.50, approved *)
Definition approved_trade : HumanInLoop.TradeState :=
  {| HumanInLoop.ticker := "AAPL";
     HumanInLoop.quantity := 100;
     HumanInLoop.price := 150.5;
     HumanInLoop.trade_type := "BUY";
     HumanInLoop.analysis := "";
     HumanInLoop.human_decision := "approved";
     HumanInLoop.execution_result := "";
     HumanInLoop.thread_id := "00000000-a1b2-c3d4-e5f6-0718293a4b5c" |}.

(** the same trade as [submit_trade] stores it, and the process after it *)
Definition submitted
  : (string * string * option (@Image Sample.builtins))
    * gmap string HumanInLoop.Pending * Py.World :=
  @HumanInLoop.submit_trade Sample.builtins "aapl" 100 150.5 "buy" ∅
    Sample.world.

Definition thread : string := submitted.1.1.1.1.
Definition pending : gmap string HumanInLoop.Pending := submitted.1.2.
Definition after_submit : Py.World := submitted.2.

Definition entry : HumanInLoop.Pending :=
  {| HumanInLoop.pending_state :=
       @HumanInLoop.analyze_trade Sample.builtins
         (HumanInLoop.with_human_decision "pending" approved_trade);
     HumanInLoop.pending_config := thread |}.

End Examples.

(** ** Further inputs of the closed examples *)

Module Cases.

Import CyclesIteration.

(** the example portfolio after its first check pass *)
Definition checked : PortfolioState :=
  @check_constraints Sample.builtins (initial_state example_portfolio).


End Cases.

(** ** Sample services for the travel agent *)

Module TravelCases.

(** a tool node that answers every request with one tool message *)
Definition packages : TravelRun.Packages :=
  {| TravelRun.ToolNode := fun tools state w =>
       (Py.Ok [{| content := "2026-01-11"; tool_calls := None |}], w);
     TravelRun.message_str := content |}.

(** the sample runtime with a model that asks for every tool, whatever
    it is told *)
Definition eager : Builtins :=
  {| format_percent := @format_percent Sample.builtins;
     format_fixed2 := @format_fixed2 Sample.builtins;
     format_grouped_fixed2 := @format_grouped_fixed2 Sample.builtins;
     format_grouped := @format_grouped Sample.builtins;
     format_int := @format_int Sample.builtins;
     str_lower := @str_lower Sample.builtins;
     str_upper := @str_upper Sample.builtins;
     exn_str := @exn_str Sample.builtins;
     json_loads := @json_loads Sample.builtins;
     llm_invoke := fun tools history request =>
       {| content := ""; tool_calls := Some tools |};
     Image := unit;
     visualize_graph := fun _ _ _ _ => None |}.

End TravelCases.

(** ** Sample answers of the Amadeus service *)

Module ToolCases.

Import TravelTools.

Definition price_of (total : string) : json :=
  JObject [("total", JString total); ("currency", JString "USD")].

Definition segment (carrier departs arrives : string) : json :=
  JObject [("carrierCode", JString carrier);
           ("departure", JObject [("at", JString departs)]);
           ("arrival", JObject [("at", JString arrives)])].

(** a complete offer, and one without itineraries *)
Definition complete_offer : json :=
  JObject [("price", price_of "850.00");
           ("itineraries",
            JArray [JObject [("segments",
                              JArray [segment "AC" "2026-06-01T18:30:00"
                                        "2026-06-02T07:45:00"])]])].

Definition bare_offer : json := JObject [("price", price_of "910.00")].

Definition flights : list json := [complete_offer; bare_offer].

Definition hotels : list json :=
  [JObject [("hotelId", JString "HLPAR001")];
   JObject [("hotelId", JString "HLPAR002")]].

(** a hotel without offers, followed by one with an offer *)
Definition hotel_offers : list json :=
  [JObject [("hotel", JObject [("name", JString "Hotel A")]);
            ("offers", JArray [])];
   JObject [("hotel", JObject [("name", JString "Hotel B")]);
            ("offers", JArray [JObject [("price", price_of "1200.00")]])]].

Definition error_text (e : error) : string :=
  match e with
  | KeyError key => "'" +:+ key +:+ "'"
  | IntKeyError key => pretty key
  | IndexError => "list index out of range"
  | TypeError => "object is not subscriptable"
  | AttributeError => "object has no attribute 'get'"
  | ClientError text => text
  end.

Definition amadeus : Amadeus :=
  {| flight_offers_search := fun _ => Data flights;
     hotels_by_city := fun _ => Data hotels;
     hotel_offers_search := fun _ => Data hotel_offers;
     value_str := fun _ => "None";
     str_first := fun s => String.substring 0 1 s;
     str_last := fun s => String.substring (String.length s - 1) 1 s;
     error_str := error_text |}.

End ToolCases.

(** ** Sample inputs in doubles *)

Module DoubleCases.

Import PrimFloat.
#[local] Set Warnings "-inexact-float".

(** the items added from left to right, as CPython adds floats up to
    version 3.11 *)
Definition left_to_right (xs : list float) : float :=
  fold_left PrimFloat.add xs 0%float.

Definition runtime : Doubles.Runtime :=
  {| Doubles.sum := left_to_right;
     Doubles.percent := fun _ => "%" |}.

(** the portfolio [{"A": 1e-30, "B": 1e-16}] *)
Definition tiny : Py.dict float := [("A", 1e-30%float); ("B", 1e-16%float)].

(** the sum its adjusted weights have *)
Definition missed_sum : float := 1.0625%float.

(** the example portfolio [{"AAPL": 0.50, "CASH": 0.50}], checked once *)
Definition checked : Doubles.PortfolioState :=
  @Doubles.check_constraints runtime
    (Doubles.initial_state [("AAPL", 0.5%float); ("CASH", 0.5%float)]).

(** the holdings [fix_oversized] leaves of it *)
Definition capped : Py.dict float :=
  [("AAPL", 0.25%float); ("CASH", 0.5%float)].

(** a portfolio that meets the three constraints, checked once *)
Definition balanced : Doubles.PortfolioState :=
  {| Doubles.holdings :=
       [("AAPL", 0.25%float); ("MSFT", 0.25%float); ("GOOGL", 0.25%float);
        ("TSLA", 0.2%float); ("CASH", 0.05%float)];
     Doubles.violations := [];
     Doubles.iteration_count := 1;
     Doubles.adjustments_made := [];
     Doubles.status := "checking" |}.

End DoubleCases.

(** * Properties *)

Ltac py_step := cbn [mbind mret result_bind result_ret Py.bind] in *.

(** ** The execution loop never leaves the declared edges *)


(** ** The execution loop never leaves the declared edges *)

Section EngineFacts.

Context {State Partial World : Type}.
Variable merge : State -> Partial -> State.
Variable g : Engine.Graph State Partial World.

Hypothesis all_routable : Forall Engine.routable (Engine.transitions g).

Lemma assoc_In {V} (l : list (string * V)) k v :
  Engine.assoc l k = Some v -> In v (map snd l).
Proof.
  induction l as [|[k' v'] l IH]; simpl; [discriminate|].
  destruct (String.eqb k' k); [intros [= ->]; now left | auto].
Qed.

Lemma advance_routable name s w r s' w' :
  Engine.advance merge g name s w = (inl (r, s'), w') ->
  forall label, r <> Engine.UnroutableStateError label.
Proof.
  unfold Engine.advance.
  destruct (Engine.assoc (Engine.steps g) name) as [fn|];
    [|intros [= <- _ _]; discriminate].
  destruct (fn s w) as [[partial|e] w1]; [|intros [= <- _ _]; discriminate].
  destruct (Engine.assoc (Engine.edges g) name) as [t|] eqn:Ht;
    [|intros [= <- _ _]; discriminate].
  apply assoc_In in Ht.
  assert (Hr : Engine.routable t).
  { apply (proj1 (List.Forall_forall _ _) all_routable). now right. }
  destruct (Hr (merge s partial)) as [d ->]. discriminate.
Qed.

Lemma loop_routable suspend_before fuel current s w :
  ~ Engine.unroutable
      (fst (Engine.loop merge g suspend_before fuel current s w)).
Proof.
  revert current s w.
  induction fuel as [|fuel IH]; intros [name|] s w; simpl;
    try (intros [label Hl]; simpl in Hl; discriminate).
  - destruct (existsb _ _); intros [label Hl]; simpl in Hl; discriminate.
  - destruct (existsb _ _); [intros [label Hl]; simpl in Hl; discriminate|].
    destruct (Engine.advance merge g name s w) as [[[r s']|[d s']] w'] eqn:Ha.
    + intros [label Hl]; simpl in Hl.
      injection Hl as Hl. exact (advance_routable _ _ _ _ _ _ Ha label Hl).
    + apply IH.
Qed.

Lemma execute_routable initial_state max_steps suspend_before w :
  ~ Engine.unroutable
      (fst (Engine.execute merge g initial_state max_steps suspend_before w)).
Proof.
  unfold Engine.execute.
  destruct max_steps; [intros [label Hl]; simpl in Hl; discriminate|].
  assert (Hr : Engine.routable (Engine.entry_point g)).
  { apply (proj1 (List.Forall_forall _ _) all_routable). now left. }
  destruct (Hr initial_state) as [d ->]. apply loop_routable.
Qed.

End EngineFacts.

(** ** Dictionaries and sums of weights *)
Section DictFacts.

Context {V : Type}.

Lemma find_Some_keys (d : Py.dict V) k :
  In k (Py.keys d) -> is_Some (Py.find d k).
Proof.
  induction d as [|[k' v] d IH]; simpl; [tauto|].
  destruct (String.eqb_spec k' k) as [->|Hne]; [eauto|].
  intros [Hk|Hd]; [congruence|auto].
Qed.

Lemma keys_setitem_present (d : Py.dict V) k v :
  In k (Py.keys d) -> Py.keys (Py.setitem d k v) = Py.keys d.
Proof.
  induction d as [|[k' v'] d IH]; simpl; [tauto|].
  destruct (String.eqb_spec k' k) as [->|Hne]; [reflexivity|].
  intros [Hk|Hd]; [congruence|]. simpl. f_equal. auto.
Qed.

End DictFacts.

Section SumFacts.

Import CyclesIteration.
Open Scope Q_scope.

Lemma fold_left_Qplus l : forall a,
  fold_left Qplus l a == a + fold_left Qplus l 0.
Proof.
  induction l as [|x l IH]; intros a; simpl; [ring|].
  rewrite (IH (a + x)), (IH (0 + x)). ring.
Qed.

Lemma sum_cons x l : Py.sum (x :: l) == x + Py.sum l.
Proof. unfold Py.sum. simpl. rewrite fold_left_Qplus. ring. Qed.

Lemma total_cons k v h : total ((k, v) :: h) == v + total h.
Proof. apply sum_cons. Qed.

Lemma total_nil : total [] == 0.
Proof. reflexivity. Qed.

Lemma total_setitem h k v :
  total (Py.setitem h k v) == total h - Py.get h k 0 + v.
Proof.
  induction h as [|[k' v'] h IH]; simpl.
  - rewrite total_cons, total_nil. unfold Py.get. simpl. ring.
  - unfold Py.get in *. simpl.
    destruct (String.eqb k' k).
    + rewrite !total_cons. ring.
    + rewrite !total_cons, IH. ring.
Qed.

Lemma total_positive h : h <> [] -> all_positive h -> 0 < total h.
Proof.
  intros Hne Hpos. destruct h as [|[k v] h]; [congruence|]. clear Hne.
  revert k v Hpos. induction h as [|[k' v'] h IH]; intros k v Hpos.
  - rewrite total_cons, total_nil. inversion Hpos; subst. simpl in *. lra.
  - rewrite total_cons. inversion Hpos; subst. simpl in *.
    specialize (IH k' v' H2). lra.
Qed.

Lemma all_positive_setitem h k v :
  0 < v -> all_positive h -> all_positive (Py.setitem h k v).
Proof.
  intros Hv. induction 1 as [|[k' v'] h Hk Hh IH]; simpl.
  - repeat constructor. exact Hv.
  - destruct (String.eqb k' k); constructor; auto.
Qed.

Lemma setitem_nonempty {V} (h : Py.dict V) k v : Py.setitem h k v <> [].
Proof.
  destruct h as [|[k' v'] h]; simpl; [|destruct (String.eqb k' k)];
    discriminate.
Qed.

(** the weights split into the cash entries and the others *)
Lemma total_split h :
  total h
  == total (List.filter (fun kv => negb (String.eqb kv.1 "CASH")) h)
     + total (List.filter is_cash h).
Proof.
  induction h as [|[k v] h IH]; simpl; [reflexivity|].
  unfold is_cash at 1. simpl.
  rewrite total_cons, IH.
  destruct (String.eqb k "CASH"); simpl; rewrite total_cons; ring.
Qed.

End SumFacts.

(** ** The steps of the constraint checker *)

Section CycleFacts.

Context `{Builtins}.
Import CyclesIteration.

Lemma adjust_portfolio_inv s s' :
  adjust_portfolio s = Py.Ok s' ->
  exists holdings1 adjustments1 holdings3 adjustments3,
    fix_oversized (violations s) (holdings s) []
    = Py.Ok (holdings1, adjustments1)
    /\ normalize
         (fst (fix_cash_reserve (violations s) holdings1 adjustments1))
         (snd (fix_cash_reserve (violations s) holdings1 adjustments1))
       = Py.Ok (holdings3, adjustments3)
    /\ s' = {| holdings := holdings3;
               violations := violations s;
               iteration_count := iteration_count s;
               adjustments_made := adjustments_made s ++ adjustments3;
               status := "adjusting" |}.
Proof.
  unfold adjust_portfolio.
  destruct (fix_oversized _ _ _) as [[holdings1 adjustments1]|e] eqn:H1;
    py_step; [|discriminate].
  destruct (fix_cash_reserve _ _ _) as [holdings2 adjustments2] eqn:H2.
  destruct (normalize _ _) as [[holdings3 adjustments3]|e] eqn:H3;
    py_step; [|discriminate].
  intros [= <-].
  exists holdings1, adjustments1, holdings3, adjustments3.
  rewrite H2. cbn [fst snd]. auto.
Qed.

Lemma fix_oversized_ok vs : forall h adj,
  incl (oversized_tickers vs) (Py.keys h) ->
  exists h' adj',
    fix_oversized vs h adj = Py.Ok (h', adj') /\ Py.keys h' = Py.keys h.
Proof.
  induction vs as [|v vs IH]; intros h adj Hin; simpl.
  - now exists h, adj.
  - destruct v as [ticker current limit message| |]; simpl in Hin;
      try (apply IH; exact Hin).
    assert (Ht : In ticker (Py.keys h)) by (apply Hin; now left).
    unfold Py.getitem. destruct (find_Some_keys h ticker Ht) as [old ->].
    py_step.
    destruct (IH (Py.setitem h ticker MAX_POSITION_SIZE)
                (adj ++ ["Reduced " +:+ ticker +:+ " from "
                         +:+ format_percent old +:+ " to "
                         +:+ format_percent MAX_POSITION_SIZE]))
      as (h' & adj' & -> & Hk).
    + rewrite keys_setitem_present by exact Ht.
      intros t Hi. apply Hin. now right.
    + exists h', adj'. split; [reflexivity|].
      now rewrite Hk, keys_setitem_present.
Qed.

Lemma oversized_tickers_app a b :
  oversized_tickers (a ++ b) = oversized_tickers a ++ oversized_tickers b.
Proof. apply flat_map_app. Qed.

Lemma oversized_tickers_check s :
  incl (oversized_tickers (violations (check_constraints s)))
       (Py.keys (holdings s)).
Proof.
  unfold check_constraints. cbn [violations].
  assert (Hp : incl (oversized_tickers (flat_map check_position (holdings s)))
                    (Py.keys (holdings s))).
  { induction (holdings s) as [|[ticker weight] h IH]; simpl; [easy|].
    rewrite oversized_tickers_app.
    apply incl_app; [|now apply incl_tl].
    destruct (negb _ && _); simpl; [|easy].
    intros t [<-|[]]. now left. }
  destruct (Py.lt _ _), (Py.gt _ _);
    rewrite ?oversized_tickers_app; simpl; rewrite ?app_nil_r; exact Hp.
Qed.

Lemma divide_all_raises h total e :
  divide_all h total = Py.Raise e -> e = Py.ZeroDivisionError.
Proof.
  induction h as [|[ticker weight] h IH]; simpl; [discriminate|].
  unfold Py.truediv. destruct (Qeq_bool total 0); py_step; [now intros [= <-]|].
  destruct (divide_all h total); py_step; [discriminate|].
  intros [= <-]. now apply IH.
Qed.

Lemma normalize_raises h adj e :
  normalize h adj = Py.Raise e -> e = Py.ZeroDivisionError.
Proof.
  unfold normalize. destruct (Py.gt _ _); [|discriminate].
  destruct (divide_all _ _) eqn:Hd; py_step; [discriminate|].
  intros [= <-]. exact (divide_all_raises _ _ _ Hd).
Qed.

(** after a check pass, an adjustment can only fail by dividing by zero *)
Lemma adjust_after_check_raises s e :
  adjust_portfolio (check_constraints s) = Py.Raise e ->
  e = Py.ZeroDivisionError.
Proof.
  unfold adjust_portfolio.
  destruct (fix_oversized_ok (violations (check_constraints s))
              (holdings (check_constraints s)) [])
    as (h1 & adj1 & -> & _).
  { exact (oversized_tickers_check s). }
  py_step. destruct (fix_cash_reserve _ _ _) as [h2 adj2].
  destruct (normalize h2 adj2) as [[h3 adj3]|e'] eqn:Hn; py_step;
    [discriminate|].
  intros [= <-]. exact (normalize_raises _ _ _ Hn).
Qed.

Lemma advance_check s w :
  Engine.advance merge build_cycles_agent "check_constraints" s w
  = (inr (if (iteration_count (check_constraints s) >=? MAX_ITERATIONS)%Z
          then Engine.END
          else if (length (violations (check_constraints s)) =? 0)%nat
               then Engine.END
               else Engine.Step "adjust_portfolio",
          check_constraints s),
     Py.record_call "check_constraints" w).
Proof.
  unfold Engine.advance.
  cbn [Engine.assoc Engine.steps Engine.edges build_cycles_agent String.eqb
       Ascii.eqb Bool.eqb call_check_constraints merge Engine.resolve].
  unfold should_continue_iteration.
  destruct (_ >=? _)%Z; [reflexivity|].
  destruct (_ =? _)%nat; reflexivity.
Qed.

Lemma advance_adjust s w :
  Engine.advance merge build_cycles_agent "adjust_portfolio" s w
  = (match adjust_portfolio s with
     | Py.Ok s' => inr (Engine.Step "check_constraints", s')
     | Py.Raise e => inl (Engine.StepExecutionError e, s)
     end,
     Py.record_call "adjust_portfolio" w).
Proof.
  unfold Engine.advance.
  cbn [Engine.assoc Engine.steps Engine.edges build_cycles_agent String.eqb
       Ascii.eqb Bool.eqb call_adjust_portfolio merge Engine.resolve].
  destruct (adjust_portfolio s); reflexivity.
Qed.

End CycleFacts.

(** ** Frame conditions *)

Section FrameFacts.

Context `{Builtins}.
Import CyclesIteration.

(** C5: a step carries over the fields it does not mention:
    [check_constraints] keeps [holdings] and [adjustments_made],
    [adjust_portfolio] keeps [violations] and [iteration_count], and
    [analyze_trade] keeps [ticker], [quantity], [price], [trade_type],
    [execution_result] and [thread_id]. *)
Theorem steps_carry_over_unmentioned_fields :
  (forall s,
     holdings (check_constraints s) = holdings s
     /\ adjustments_made (check_constraints s) = adjustments_made s)
  /\ (forall s s',
        adjust_portfolio s = Py.Ok s' ->
        violations s' = violations s
        /\ iteration_count s' = iteration_count s)
  /\ (forall t,
        HumanInLoop.ticker (HumanInLoop.analyze_trade t) = HumanInLoop.ticker t
        /\ HumanInLoop.quantity (HumanInLoop.analyze_trade t)
           = HumanInLoop.quantity t
        /\ HumanInLoop.price (HumanInLoop.analyze_trade t) = HumanInLoop.price t
        /\ HumanInLoop.trade_type (HumanInLoop.analyze_trade t)
           = HumanInLoop.trade_type t
        /\ HumanInLoop.execution_result (HumanInLoop.analyze_trade t)
           = HumanInLoop.execution_result t
        /\ HumanInLoop.thread_id (HumanInLoop.analyze_trade t)
           = HumanInLoop.thread_id t).
Proof.
  split; [intros s; split; reflexivity|].
  split; [|intros t; repeat split; reflexivity].
  intros s s' Hs.
  destruct (adjust_portfolio_inv _ _ Hs) as (h1 & a1 & h3 & a3 & _ & _ & ->).
  split; reflexivity.
Qed.

End FrameFacts.


(** ** Routers *)

Section RouterFacts.

Context `{Builtins}.

Lemma should_continue_iteration_labels s :
  In (CyclesIteration.should_continue_iteration s)
     ["adjust"; "satisfied"; "max_iterations"].
Proof.
  unfold CyclesIteration.should_continue_iteration.
  destruct (_ >=? _)%Z; [simpl; tauto|].
  destruct (_ =? _)%nat; simpl; tauto.
Qed.

Lemma should_execute_labels s :
  In (HumanInLoop.should_execute s) ["execute"; "cancel"].
Proof.
  unfold HumanInLoop.should_execute.
  destruct (String.eqb _ "approved"); [simpl; tauto|].
  destruct (String.eqb _ "rejected"); simpl; tauto.
Qed.

Lemma route_to_analysis_labels s :
  In (RouterPattern.route_to_analysis s) ["equity"; "bond"; "alternative"].
Proof.
  unfold RouterPattern.route_to_analysis.
  destruct (existsb _ RouterPattern.equity_keywords); [simpl; tauto|].
  destruct (existsb _ RouterPattern.bond_keywords); simpl; tauto.
Qed.

Lemma declared_routable {State} (router : State -> string)
    (label_to_step : list (string * Engine.destination)) :
  (forall s, In (router s) (map fst label_to_step)) ->
  Engine.routable (Engine.ConditionalEdges router label_to_step).
Proof.
  intros Hin s. unfold Engine.resolve.
  specialize (Hin s). revert Hin. generalize (router s) as label.
  induction label_to_step as [|[k d] l IH]; simpl; intros label; [tauto|].
  destruct (String.eqb_spec k label) as [->|Hne]; [eauto|].
  intros [Hk|Hl]; [congruence|auto].
Qed.

Lemma edge_routable {State} d :
  Engine.routable (State := State) (Engine.Edge d).
Proof. intros s. now exists d. Qed.

Lemma cycles_routable :
  Forall Engine.routable
    (Engine.transitions CyclesIteration.build_cycles_agent).
Proof.
  repeat constructor; try apply edge_routable.
  apply declared_routable, should_continue_iteration_labels.
Qed.

Lemma hitl_routable :
  Forall Engine.routable (Engine.transitions HumanInLoop.build_hitl_agent).
Proof.
  repeat constructor; try apply edge_routable.
  apply declared_routable, should_execute_labels.
Qed.

Lemma router_routable :
  Forall Engine.routable (Engine.transitions RouterPattern.build_router_agent).
Proof.
  repeat constructor; try apply edge_routable.
  apply declared_routable, route_to_analysis_labels.
Qed.

(** the router of the travel agent returns one of its two declared labels
    on every history that has a last message, and raises on the empty one *)
Lemma should_continue_labels s :
  match TravelAgent.should_continue s with
  | Py.Ok label => In label TravelAgent.should_continue_edges
  | Py.Raise e => e = Py.IndexError /\ TravelAgent.messages s = []
  end.
Proof.
  unfold TravelAgent.should_continue.
  destruct (last (TravelAgent.messages s)) as [m|] eqn:Hl.
  - destruct (tool_calls m) as [[|c cs]|]; simpl; tauto.
  - apply last_None in Hl. now split.
Qed.

(** C4: each of the three routers returns, on every state, a label of the
    edge map declared for it in its graph, and no run of the three graphs
    ever aborts on an unroutable label.  (The fourth router of the
    repository, [should_continue], returns no undeclared label either.) *)
Theorem routers_return_declared_labels :
  (forall s,
     In (CyclesIteration.should_continue_iteration s)
        ["adjust"; "satisfied"; "max_iterations"])
  /\ (forall s, In (HumanInLoop.should_execute s) ["execute"; "cancel"])
  /\ (forall s,
        In (RouterPattern.route_to_analysis s)
           ["equity"; "bond"; "alternative"])
  /\ map Engine.declared_labels
       (Engine.transitions CyclesIteration.build_cycles_agent)
     = [[]; ["adjust"; "satisfied"; "max_iterations"]; []]
  /\ map Engine.declared_labels
       (Engine.transitions HumanInLoop.build_hitl_agent)
     = [[]; []; ["execute"; "cancel"]; []; []]
  /\ map Engine.declared_labels
       (Engine.transitions RouterPattern.build_router_agent)
     = [["equity"; "bond"; "alternative"]; []; []; []]
  /\ (forall s n before w,
        ~ Engine.unroutable
            (fst (Engine.execute CyclesIteration.merge
                    CyclesIteration.build_cycles_agent s n before w)))
  /\ (forall s n before w,
        ~ Engine.unroutable
            (fst (Engine.execute HumanInLoop.merge
                    HumanInLoop.build_hitl_agent s n before w)))
  /\ (forall s n before w,
        ~ Engine.unroutable
            (fst (Engine.execute RouterPattern.merge
                    RouterPattern.build_router_agent s n before w)))
  /\ (forall s label,
        TravelAgent.should_continue s = Py.Ok label ->
        In label TravelAgent.should_continue_edges).
Proof.
  split; [exact should_continue_iteration_labels|].
  split; [exact should_execute_labels|].
  split; [exact route_to_analysis_labels|].
  split; [reflexivity|]. split; [reflexivity|]. split; [reflexivity|].
  split; [|split; [|split]]; try intros s n before w.
  - apply execute_routable, cycles_routable.
  - apply execute_routable, hitl_routable.
  - apply execute_routable, router_routable.
  - intros s label Hs. pose proof (should_continue_labels s) as Hl.
    now rewrite Hs in Hl.
Qed.

End RouterFacts.

(** ** The run on the example portfolio *)

Lemma calls_record_calls names w :
  Py.calls (Py.record_calls names w) = Py.calls w ++ names.
Proof.
  revert w. induction names as [|name names IH]; intros w; simpl.
  - now rewrite app_nil_r.
  - unfold Py.record_calls in IH. rewrite IH. simpl. now rewrite <- app_assoc.
Qed.

Section ExampleRun.

Context `{Builtins}.
Import CyclesIteration.

(** C1 (amended): on [{"AAPL": 0.50, "CASH": 0.50}] the first check pass
    reports one violation, the [position_size] of AAPL; the run makes five
    check passes and four adjustments, each capping AAPL at 0.25 and the
    first three normalizing afterwards, none touching the cash reserve;
    it completes with no violation left at [iteration_count = 5], on the
    label [max_iterations]; the final holdings are AAPL 1/4 and CASH
    32/43, whose sum 171/172 is within the tolerance. *)
Theorem example_run_ends_at_iteration_ceiling w :
  let first_pass := check_constraints (initial_state example_portfolio) in
  let run :=
    Engine.execute merge build_cycles_agent (initial_state example_portfolio)
      Engine.recursion_limit [] w in
  let final := Engine.run_state run.1 in
  (exists message,
     violations first_pass
     = [position_size "AAPL" 0.50 MAX_POSITION_SIZE message])
  /\ Engine.run_status run.1 = Engine.completed
  /\ Py.calls run.2
     = Py.calls w
       ++ ["check_constraints"; "adjust_portfolio";
           "check_constraints"; "adjust_portfolio";
           "check_constraints"; "adjust_portfolio";
           "check_constraints"; "adjust_portfolio";
           "check_constraints"]
  /\ (exists old1 old2 old3 old4,
        adjustments_made final
        = ["Reduced AAPL from " +:+ format_percent old1 +:+ " to "
           +:+ format_percent MAX_POSITION_SIZE;
           "Normalized portfolio to 100%";
           "Reduced AAPL from " +:+ format_percent old2 +:+ " to "
           +:+ format_percent MAX_POSITION_SIZE;
           "Normalized portfolio to 100%";
           "Reduced AAPL from " +:+ format_percent old3 +:+ " to "
           +:+ format_percent MAX_POSITION_SIZE;
           "Normalized portfolio to 100%";
           "Reduced AAPL from " +:+ format_percent old4 +:+ " to "
           +:+ format_percent MAX_POSITION_SIZE])
  /\ should_continue_iteration final = "max_iterations"
  /\ iteration_count final = MAX_ITERATIONS
  /\ violations final = []
  /\ same_holdings (holdings final) [("AAPL", 1 # 4); ("CASH", 32 # 43)]%Q
  /\ (Py.sum (Py.values (holdings final)) == 171 # 172)%Q
  /\ (Qabs (Py.sum (Py.values (holdings final)) - 1) <= 0.01)%Q.
Proof.
  cbv zeta.
  split; [eexists; vm_compute; reflexivity|].
  split; [vm_compute; reflexivity|].
  split.
  { rewrite <- (calls_record_calls _ w). apply (f_equal Py.calls).
    vm_compute. reflexivity. }
  split; [do 4 eexists; vm_compute; reflexivity|].
  split; [vm_compute; reflexivity|].
  split; [vm_compute; reflexivity|].
  split; [vm_compute; reflexivity|].
  split. { vm_compute. repeat constructor. }
  split; [vm_compute; reflexivity|].
  vm_compute. discriminate.
Qed.

End ExampleRun.

(** ** Termination of the cycle *)

Section TerminationFacts.

Context `{Builtins}.
Import CyclesIteration.

Lemma check_passes_check w :
  check_passes (Py.record_call "check_constraints" w) = S (check_passes w).
Proof.
  unfold check_passes. cbn [Py.calls Py.record_call].
  rewrite count_occ_app. simpl. lia.
Qed.

Lemma check_passes_adjust w :
  check_passes (Py.record_call "adjust_portfolio" w) = check_passes w.
Proof.
  unfold check_passes. cbn [Py.calls Py.record_call].
  rewrite count_occ_app. simpl. lia.
Qed.

Lemma loop_END fuel s w :
  Engine.loop merge build_cycles_agent [] fuel Engine.END s w
  = ({| Engine.run_status := Engine.completed; Engine.run_state := s |}, w).
Proof. now destruct fuel. Qed.

Lemma completed_terminal s :
  In (should_continue_iteration s) ["satisfied"; "max_iterations"] ->
  terminal_outcome
    {| Engine.run_status := Engine.completed; Engine.run_state := s |}.
Proof. intros Hl. left. now split. Qed.

Lemma check_loop_terminates n : forall s w fuel,
  (MAX_ITERATIONS - iteration_count s <= Z.of_nat (S n))%Z ->
  (2 * n + 1 <= fuel)%nat ->
  terminal_outcome
    (Engine.loop merge build_cycles_agent [] fuel
       (Engine.Step "check_constraints") s w).1
  /\ (check_passes
        (Engine.loop merge build_cycles_agent [] fuel
           (Engine.Step "check_constraints") s w).2
      <= check_passes w + S n)%nat.
Proof.
  induction n as [|n IH]; intros s w fuel Hic Hfuel;
    (destruct fuel as [|fuel]; [lia|]);
    cbn [Engine.loop existsb]; rewrite advance_check;
    destruct (iteration_count (check_constraints s) >=? MAX_ITERATIONS)%Z
      eqn:Hmax.
  1, 3: rewrite loop_END; cbn [fst snd];
    (split; [apply completed_terminal; unfold should_continue_iteration;
             rewrite Hmax; simpl; tauto
            |rewrite check_passes_check; lia]).
  - exfalso. cbn [iteration_count check_constraints] in Hmax.
    unfold MAX_ITERATIONS in *. lia.
  - destruct (length (violations (check_constraints s)) =? 0)%nat eqn:Hv.
    + rewrite loop_END; cbn [fst snd].
      split; [apply completed_terminal; unfold should_continue_iteration;
              rewrite Hmax, Hv; simpl; tauto
             |rewrite check_passes_check; lia].
    + destruct fuel as [|fuel]; [lia|].
      cbn [Engine.loop existsb]. rewrite advance_adjust.
      destruct (adjust_portfolio (check_constraints s)) as [s2|e] eqn:Ha.
      * destruct (adjust_portfolio_inv _ _ Ha)
          as (h1 & a1 & h3 & a3 & _ & _ & Hs2).
        destruct (IH s2 (Py.record_call "adjust_portfolio"
                           (Py.record_call "check_constraints" w)) fuel)
          as [Ht Hc].
        { rewrite Hs2. cbn [iteration_count check_constraints].
          cbn [iteration_count check_constraints] in Hmax.
          unfold MAX_ITERATIONS in *. lia. }
        { lia. }
        split; [exact Ht|].
        rewrite check_passes_adjust, check_passes_check in Hc. lia.
      * rewrite (adjust_after_check_raises _ _ Ha).
        cbn [fst snd].
        split; [now right|].
        rewrite check_passes_adjust, check_passes_check. lia.
Qed.

Lemma loop_outcome fuel :
  (forall s w,
     let r := (Engine.loop merge build_cycles_agent [] fuel
                 (Engine.Step "check_constraints") s w).1 in
     terminal_outcome r
     \/ Engine.run_status r = Engine.aborted Engine.step_limit_exceeded)
  /\ (forall s w,
        let r := (Engine.loop merge build_cycles_agent [] fuel
                    (Engine.Step "adjust_portfolio")
                    (check_constraints s) w).1 in
        terminal_outcome r
        \/ Engine.run_status r = Engine.aborted Engine.step_limit_exceeded).
Proof.
  induction fuel as [|fuel [IHc IHa]]; [split; intros s w; now right|].
  split; intros s w; cbn [Engine.loop existsb].
  - rewrite advance_check.
    destruct (iteration_count (check_constraints s) >=? MAX_ITERATIONS)%Z
      eqn:Hmax;
      [|destruct (length (violations (check_constraints s)) =? 0)%nat eqn:Hv].
    + rewrite loop_END. left. apply completed_terminal.
      unfold should_continue_iteration. rewrite Hmax. simpl. tauto.
    + rewrite loop_END. left. apply completed_terminal.
      unfold should_continue_iteration. rewrite Hmax, Hv. simpl. tauto.
    + apply IHa.
  - rewrite advance_adjust.
    destruct (adjust_portfolio (check_constraints s)) as [s2|e] eqn:Ha.
    + apply IHc.
    + rewrite (adjust_after_check_raises _ _ Ha). left. now right.
Qed.

(** C3: every run of the cycle terminates.  [check_constraints] adds one
    to [iteration_count], the router answers [max_iterations] from
    [MAX_ITERATIONS] on and, below it, [satisfied] on an empty violation
    list (a terminal label in both cases), so a
    run from any state, with any integer [iteration_count], makes at most
    [passes_bound] check passes and ends on a terminal label or aborted by
    the exception of a step; from [iteration_count = 0] the default
    ceiling of the loop is not reached, and under a lower ceiling the run
    is cut off by the loop instead. *)
Theorem cycle_terminates :
  (forall s,
     iteration_count (check_constraints s) = (iteration_count s + 1)%Z)
  /\ (forall s,
        (iteration_count s >= MAX_ITERATIONS)%Z ->
        should_continue_iteration s = "max_iterations")
  /\ (forall s,
        violations s = [] ->
        should_continue_iteration s
        = if (iteration_count s >=? MAX_ITERATIONS)%Z
          then "max_iterations" else "satisfied")
  /\ (forall s w max_steps,
        (2 * passes_bound s - 1 <= max_steps)%nat ->
        terminal_outcome
          (Engine.execute merge build_cycles_agent s max_steps [] w).1
        /\ (check_passes
              (Engine.execute merge build_cycles_agent s max_steps [] w).2
            <= check_passes w + passes_bound s)%nat)
  /\ (forall holdings w,
        terminal_outcome
          (Engine.execute merge build_cycles_agent (initial_state holdings)
             Engine.recursion_limit [] w).1)
  /\ (forall s w max_steps,
        (0 < max_steps)%nat ->
        terminal_outcome
          (Engine.execute merge build_cycles_agent s max_steps [] w).1
        \/ Engine.run_status
             (Engine.execute merge build_cycles_agent s max_steps [] w).1
           = Engine.aborted Engine.step_limit_exceeded).
Proof.
  assert (Hrun : forall s w max_steps,
            (2 * passes_bound s - 1 <= max_steps)%nat ->
            terminal_outcome
              (Engine.execute merge build_cycles_agent s max_steps [] w).1
            /\ (check_passes
                  (Engine.execute merge build_cycles_agent s max_steps [] w).2
                <= check_passes w + passes_bound s)%nat).
  { intros s w max_steps Hm. unfold Engine.execute.
    assert (Hb : (1 <= passes_bound s)%nat) by (unfold passes_bound; lia).
    destruct max_steps as [|m]; [lia|].
    cbn [Engine.resolve Engine.entry_point build_cycles_agent].
    destruct (check_loop_terminates (passes_bound s - 1) s w (S m))
      as [Ht Hc]; [unfold passes_bound; lia|lia|].
    split; [exact Ht|lia]. }
  split; [reflexivity|].
  split.
  { intros s Hs. unfold should_continue_iteration.
    destruct (Z.geb_spec (iteration_count s) MAX_ITERATIONS);
      [reflexivity|lia]. }
  split.
  { intros s Hv. unfold should_continue_iteration.
    destruct (iteration_count s >=? MAX_ITERATIONS)%Z; [reflexivity|].
    now rewrite Hv. }
  split; [exact Hrun|].
  split; [intros holdings w; apply Hrun; vm_compute; lia|].
  intros s w [|m] Hm; [lia|].
  exact (proj1 (loop_outcome (S m)) s w).
Qed.

End TerminationFacts.

(** ** The sum of the adjusted weights *)

Section AdjustFacts.

Context `{Builtins}.
Import CyclesIteration.
Open Scope Q_scope.

Lemma total_scaled f h :
  total (map (scale_non_cash f) h)
  == f * total (List.filter (fun kv => negb (String.eqb kv.1 "CASH")) h)
     + total (List.filter is_cash h).
Proof.
  induction h as [|[k v] h IH]; simpl; [rewrite total_nil; ring|].
  unfold is_cash at 1. simpl.
  destruct (String.eqb k "CASH"); simpl; rewrite !total_cons, IH; ring.
Qed.

Lemma gt_true a b : Py.gt a b = true -> b < a.
Proof.
  unfold Py.gt. intros Hg. apply Qnot_le_lt. intros Hle.
  apply Qle_bool_iff in Hle. rewrite Hle in Hg. discriminate.
Qed.

Lemma gt_false a b : Py.gt a b = false -> a <= b.
Proof.
  unfold Py.gt. intros Hg. apply Qle_bool_iff.
  now destruct (Qle_bool a b).
Qed.

(** fixing the cash reserve moves weight between holdings: the sum stays *)
Lemma fix_cash_reserve_total vs h adj :
  total (fix_cash_reserve vs h adj).1 == total h.
Proof.
  unfold fix_cash_reserve.
  destruct (List.filter is_cash_reserve vs); [reflexivity|].
  destruct (Py.gt _ 0) eqn:Hg; [|reflexivity].
  apply gt_true in Hg. cbn [fst].
  rewrite total_setitem, total_scaled.
  fold (total (List.filter (λ kv, negb (String.eqb kv.1 "CASH")) h)) in *.
  set (nct := total (List.filter (λ kv, negb (String.eqb kv.1 "CASH")) h))
    in *.
  rewrite (total_split h). fold nct.
  field. lra.
Qed.

Lemma fix_oversized_positive vs : forall h adj h' adj',
  fix_oversized vs h adj = Py.Ok (h', adj') ->
  h <> [] -> all_positive h -> h' <> [] /\ all_positive h'.
Proof.
  induction vs as [|v vs IH]; intros h adj h' adj'; simpl.
  - intros [= <- <-]. auto.
  - destruct v as [ticker current limit message| |]; try apply IH.
    destruct (Py.getitem h ticker) as [old|e]; py_step; [|discriminate].
    intros Hf Hne Hpos. apply (IH _ _ _ _ Hf).
    + apply setitem_nonempty.
    + apply all_positive_setitem; [reflexivity|exact Hpos].
Qed.

Lemma divide_all_total h t : forall h',
  divide_all h t = Py.Ok h' -> ~ t == 0 -> total h' == total h / t.
Proof.
  induction h as [|[k v] h IH]; intros h'; simpl.
  - intros [= <-] Ht. rewrite total_nil. field. exact Ht.
  - unfold Py.truediv. destruct (Qeq_bool t 0); py_step; [discriminate|].
    destruct (divide_all h t) as [rest|e]; py_step; [|discriminate].
    intros [= <-] Ht. rewrite !total_cons, (IH rest eq_refl Ht).
    field. exact Ht.
Qed.

Lemma divide_all_ok h t :
  ~ t == 0 -> exists h', divide_all h t = Py.Ok h'.
Proof.
  intros Ht. induction h as [|[k v] h [rest IH]]; simpl; [now eexists|].
  unfold Py.truediv. destruct (Qeq_bool t 0) eqn:Hz.
  - apply Qeq_bool_iff in Hz. contradiction.
  - py_step. rewrite IH. py_step. now eexists.
Qed.

Lemma normalize_within_tolerance h adj h' adj' :
  normalize h adj = Py.Ok (h', adj') -> 0 < total h -> within_tolerance h'.
Proof.
  unfold normalize, within_tolerance. fold (total h).
  destruct (Py.gt _ _) eqn:Hg.
  - destruct (divide_all h (total h)) as [h3|e] eqn:Hd; py_step;
      [|discriminate].
    intros [= <- _] Hpos.
    rewrite (divide_all_total _ _ _ Hd) by lra.
    assert (Hone : total h / total h - 1 == 0) by (field; lra).
    rewrite Hone. discriminate.
  - intros [= <- _] _. now apply gt_false.
Qed.

Lemma normalize_ok h adj :
  0 < total h -> exists r, normalize h adj = Py.Ok r.
Proof.
  intros Hpos. unfold normalize. fold (total h).
  destruct (Py.gt _ _); [|now eexists].
  destruct (divide_all_ok h (total h)) as [h' ->]; [lra|].
  py_step. now eexists.
Qed.

Lemma check_passes_keep_holdings n s :
  holdings (Nat.iter n check_constraints s) = holdings s.
Proof. induction n as [|n IH]; simpl; [reflexivity|exact IH]. Qed.

(** In exact arithmetic: on a non-empty portfolio of strictly positive
    weights, the holdings [adjust_portfolio] returns sum to 1 within the
    0.01 tolerance, and any number of check passes leaves them, and so
    their sum, as they are.  The adjustment does return when its
    [position_size] violations name held tickers, as they do after a
    check pass.  The doubles of the program lose this sum on some
    portfolios. *)
Theorem adjusted_holdings_sum_to_one s :
  holdings s <> [] -> all_positive (holdings s) ->
  (forall s',
     adjust_portfolio s = Py.Ok s' ->
     within_tolerance (holdings s')
     /\ forall n,
          holdings (Nat.iter n check_constraints s') = holdings s'
          /\ within_tolerance (holdings (Nat.iter n check_constraints s')))
  /\ (incl (oversized_tickers (violations s)) (Py.keys (holdings s)) ->
      exists s', adjust_portfolio s = Py.Ok s')
  /\ (exists s',
        adjust_portfolio (check_constraints s) = Py.Ok s'
        /\ within_tolerance (holdings s')).
Proof.
  intros Hne Hpos.
  assert (Hsum : forall s0 s',
            holdings s0 = holdings s ->
            adjust_portfolio s0 = Py.Ok s' -> within_tolerance (holdings s')).
  { intros s0 s' Hh Hs'.
    destruct (adjust_portfolio_inv _ _ Hs')
      as (h1 & adj1 & h3 & adj3 & Hf & Hn & ->).
    rewrite Hh in Hf.
    destruct (fix_oversized_positive _ _ _ _ _ Hf Hne Hpos) as [Hne1 Hpos1].
    apply (normalize_within_tolerance _ _ _ _ Hn).
    rewrite fix_cash_reserve_total. now apply total_positive. }
  assert (Hret : forall s0,
            holdings s0 = holdings s ->
            incl (oversized_tickers (violations s0)) (Py.keys (holdings s0)) ->
            exists s', adjust_portfolio s0 = Py.Ok s').
  { intros s0 Hh Hin. unfold adjust_portfolio.
    destruct (fix_oversized_ok (violations s0) (holdings s0) [] Hin)
      as (h1 & adj1 & Hf & _).
    rewrite Hf. py_step.
    destruct (fix_oversized_positive _ _ _ _ _ Hf) as [Hne1 Hpos1];
      [now rewrite Hh|now rewrite Hh|].
    pose proof (fix_cash_reserve_total (violations s0) h1 adj1) as Ht.
    destruct (fix_cash_reserve _ _ _) as [h2 adj2]. cbn [fst] in Ht.
    destruct (normalize_ok h2 adj2) as [[h3 adj3] ->].
    { rewrite Ht. now apply total_positive. }
    py_step. now eexists. }
  split; [|split].
  - intros s' Hs'.
    assert (Hw : within_tolerance (holdings s')) by now apply (Hsum s).
    split; [exact Hw|].
    intros n. rewrite check_passes_keep_holdings. now split.
  - apply Hret. reflexivity.
  - destruct (Hret (check_constraints s) eq_refl
                (oversized_tickers_check s)) as [s' Hs'].
    exists s'. split; [exact Hs'|].
    now apply (Hsum (check_constraints s)).
Qed.

End AdjustFacts.

(** ** Exceptions raised by a step *)

Section ExceptionFacts.

Context `{Builtins}.
Import CyclesIteration.
Open Scope Q_scope.





End ExceptionFacts.


(** ** Validation of the input *)

Section InputFacts.

Context `{Builtins}.
Import CyclesIteration.


End InputFacts.


(** ** The pending store and resumption *)

Section PendingFacts.

Context `{Builtins}.
Import HumanInLoop.

Lemma approve_trade_present thread_id (pending : gmap string Pending) w entry :
  pending !! thread_id = Some entry ->
  approve_trade thread_id pending w
  = (execution_result
       (fst (call_execute_trade
               (with_human_decision "approved" (pending_state entry)) w)),
     delete thread_id pending,
     snd (call_execute_trade
            (with_human_decision "approved" (pending_state entry)) w)).
Proof.
  intros Hp. unfold approve_trade. rewrite Hp.
  destruct (call_execute_trade _ w) as [final_state w'].
  now rewrite delete_insert_eq.
Qed.

Lemma reject_trade_present thread_id (pending : gmap string Pending) w entry :
  pending !! thread_id = Some entry ->
  reject_trade thread_id pending w
  = (execution_result
       (cancel_trade (with_human_decision "rejected" (pending_state entry))),
     delete thread_id pending,
     Py.record_call "cancel_trade" w).
Proof.
  intros Hp. unfold reject_trade. rewrite Hp. cbn.
  now rewrite delete_insert_eq.
Qed.

(** C10: without an entry for the thread id, [approve_trade] and
    [reject_trade] answer with the not-found message and leave the store
    as it is; with an entry, each removes it, so that either call made
    again answers with the not-found message. *)
Theorem approval_is_one_shot thread_id (pending : gmap string Pending) w :
  (pending !! thread_id = None ->
   approve_trade thread_id pending w = (no_pending_trade, pending, w)
   /\ reject_trade thread_id pending w = (no_pending_trade, pending, w))
  /\ (is_Some (pending !! thread_id) ->
      (approve_trade thread_id pending w).1.2 = delete thread_id pending
      /\ (reject_trade thread_id pending w).1.2 = delete thread_id pending
      /\ forall w2,
           approve_trade thread_id (delete thread_id pending) w2
           = (no_pending_trade, delete thread_id pending, w2)
           /\ reject_trade thread_id (delete thread_id pending) w2
              = (no_pending_trade, delete thread_id pending, w2)).
Proof.
  split.
  - intros Hp. unfold approve_trade, reject_trade. now rewrite Hp.
  - intros [entry Hp].
    rewrite (approve_trade_present _ _ _ _ Hp),
      (reject_trade_present _ _ _ _ Hp).
    cbn [fst snd]. repeat split;
      unfold approve_trade, reject_trade; now rewrite lookup_delete_eq.
Qed.

End PendingFacts.

Section ResumeFacts.

Context `{Builtins}.
Import HumanInLoop.

Lemma merge_every_field s returned : merge s (every_field returned) = returned.
Proof. now destruct returned. Qed.

Lemma hitl_advance name call t d s w :
  Engine.assoc (Engine.steps build_hitl_agent) name = Some (as_step call) ->
  Engine.assoc (Engine.edges build_hitl_agent) name = Some t ->
  Engine.resolve t (call s w).1 = inr d ->
  Engine.advance merge build_hitl_agent name s w
  = (inr (d, (call s w).1), (call s w).2).
Proof.
  intros Hs He Hr. unfold Engine.advance. rewrite Hs. unfold as_step.
  destruct (call s w) as [returned w'].
  rewrite merge_every_field, He. cbn [fst snd] in *. now rewrite Hr.
Qed.

Lemma resume_pending_approved entry w :
  resume_pending "approved" entry w
  = ({| Engine.run_status := Engine.completed;
        Engine.run_state :=
          (execute_trade
             (with_human_decision "approved" (pending_state entry))
             (Py.record_call "execute_trade"
                (Py.record_call "human_approval" w))).1 |},
     (execute_trade
        (with_human_decision "approved" (pending_state entry))
        (Py.record_call "execute_trade"
           (Py.record_call "human_approval" w))).2).
Proof.
  unfold resume_pending, Engine.resume, Engine.recursion_limit.
  change (merge (pending_state entry) (decision_update "approved"))
    with (with_human_decision "approved" (pending_state entry)).
  cbn [Engine.saved_state Engine.resume_step].
  rewrite (hitl_advance interrupt_before call_human_approval
             (Engine.ConditionalEdges should_execute
                [("execute", Engine.Step "execute_trade");
                 ("cancel", Engine.Step "cancel_trade")])
             (Engine.Step "execute_trade")) by reflexivity.
  cbn [Engine.loop existsb].
  rewrite (hitl_advance "execute_trade" call_execute_trade
             (Engine.Edge Engine.END) Engine.END) by reflexivity.
  reflexivity.
Qed.

Lemma resume_pending_rejected entry w :
  resume_pending "rejected" entry w
  = ({| Engine.run_status := Engine.completed;
        Engine.run_state :=
          cancel_trade
            (with_human_decision "rejected" (pending_state entry)) |},
     Py.record_call "cancel_trade" (Py.record_call "human_approval" w)).
Proof.
  unfold resume_pending, Engine.resume, Engine.recursion_limit.
  change (merge (pending_state entry) (decision_update "rejected"))
    with (with_human_decision "rejected" (pending_state entry)).
  cbn [Engine.saved_state Engine.resume_step].
  rewrite (hitl_advance interrupt_before call_human_approval
             (Engine.ConditionalEdges should_execute
                [("execute", Engine.Step "execute_trade");
                 ("cancel", Engine.Step "cancel_trade")])
             (Engine.Step "cancel_trade")) by reflexivity.
  cbn [Engine.loop existsb].
  rewrite (hitl_advance "cancel_trade" call_cancel_trade
             (Engine.Edge Engine.END) Engine.END) by reflexivity.
  reflexivity.
Qed.

Lemma execute_trade_calls s w :
  Py.calls (execute_trade s w).2 = Py.calls w.
Proof.
  unfold execute_trade. now destruct (String.eqb _ _).
Qed.

Lemma execute_trade_ignores_calls s w name :
  (execute_trade s (Py.record_call name w)).1 = (execute_trade s w).1
  /\ Py.uuid_drawn (execute_trade s (Py.record_call name w)).2
     = Py.uuid_drawn (execute_trade s w).2.
Proof.
  unfold execute_trade. now destruct (String.eqb _ _).
Qed.

(** C2 (amended): for a pending thread id, [approve_trade] returns the
    message that re-entering the loop at [human_approval] with the
    decision merged in ends with, draws as many uuids, and removes the
    entry; but it calls [execute_trade] alone, where the loop calls
    [human_approval] first.  [reject_trade] likewise, with
    [cancel_trade]. *)
Theorem approval_agrees_with_resumption thread_id
    (pending : gmap string Pending) w entry :
  pending !! thread_id = Some entry ->
  (let direct := approve_trade thread_id pending w in
   let resumed := resume_pending "approved" entry w in
   Engine.run_status resumed.1 = Engine.completed
   /\ direct.1.1 = execution_result (Engine.run_state resumed.1)
   /\ direct.1.2 = delete thread_id pending
   /\ Py.uuid_drawn direct.2 = Py.uuid_drawn resumed.2
   /\ Py.calls direct.2 = Py.calls w ++ ["execute_trade"]
   /\ Py.calls resumed.2 = Py.calls w ++ ["human_approval"; "execute_trade"])
  /\ (let direct := reject_trade thread_id pending w in
      let resumed := resume_pending "rejected" entry w in
      Engine.run_status resumed.1 = Engine.completed
      /\ direct.1.1 = execution_result (Engine.run_state resumed.1)
      /\ direct.1.2 = delete thread_id pending
      /\ Py.uuid_drawn direct.2 = Py.uuid_drawn resumed.2
      /\ Py.calls direct.2 = Py.calls w ++ ["cancel_trade"]
      /\ Py.calls resumed.2 = Py.calls w ++ ["human_approval"; "cancel_trade"]).
Proof.
  intros Hp. split; cbv zeta.
  - rewrite (approve_trade_present _ _ _ _ Hp), resume_pending_approved.
    cbn [fst snd Engine.run_status Engine.run_state].
    unfold call_execute_trade.
    set (s := with_human_decision "approved" (pending_state entry)).
    rewrite !execute_trade_calls.
    destruct (execute_trade_ignores_calls s
                (Py.record_call "human_approval" w) "execute_trade") as [E1 E2].
    destruct (execute_trade_ignores_calls s w "execute_trade") as [E3 E4].
    destruct (execute_trade_ignores_calls s w "human_approval") as [E5 E6].
    rewrite E1, E2, E3, E4, E5, E6.
    repeat split; try reflexivity.
    cbn. now rewrite <- app_assoc.
  - rewrite (reject_trade_present _ _ _ _ Hp), resume_pending_rejected.
    cbn [fst snd Engine.run_status Engine.run_state].
    repeat split; try reflexivity.
    cbn. now rewrite <- app_assoc.
Qed.

End ResumeFacts.

(** ** What a step function depends on *)

Section PurityFacts.

Context `{Builtins}.

(** C7 (amended): a step function is a function of its input state and of
    what it draws from outside: [execute_trade] of the uuid it draws when
    the decision is approved (and of the state alone otherwise),
    [call_model_with_tools] of the answer of the model; every other step
    function is a function of the state alone. *)
Theorem steps_depend_on_state_and_draws :
  (forall s w1 w2,
     HumanInLoop.human_decision s <> "approved" ->
     (HumanInLoop.execute_trade s w1).1 = (HumanInLoop.execute_trade s w2).1
     /\ (HumanInLoop.execute_trade s w1).2 = w1)
  /\ (forall s w1 w2,
        (Py.uuid4_hex w1).1 = (Py.uuid4_hex w2).1 ->
        (HumanInLoop.execute_trade s w1).1
        = (HumanInLoop.execute_trade s w2).1)
  /\ (forall s tools w1 w2,
        llm_invoke tools (TravelAgent.messages s) (Py.model_requests w1)
        = llm_invoke tools (TravelAgent.messages s) (Py.model_requests w2) ->
        (TravelAgent.call_model_with_tools s tools w1).1
        = (TravelAgent.call_model_with_tools s tools w2).1)
  /\ (forall s w1 w2,
        (CyclesIteration.call_check_constraints s w1).1
        = (CyclesIteration.call_check_constraints s w2).1
        /\ (CyclesIteration.call_adjust_portfolio s w1).1
           = (CyclesIteration.call_adjust_portfolio s w2).1)
  /\ (forall s w1 w2,
        (HumanInLoop.call_analyze_trade s w1).1
        = (HumanInLoop.call_analyze_trade s w2).1
        /\ (HumanInLoop.call_human_approval s w1).1
           = (HumanInLoop.call_human_approval s w2).1
        /\ (HumanInLoop.call_cancel_trade s w1).1
           = (HumanInLoop.call_cancel_trade s w2).1)
  /\ (forall name f s w1 w2,
        In (name, f)
           [("analyze_equity", RouterPattern.analyze_equity);
            ("analyze_bond", RouterPattern.analyze_bond);
            ("analyze_alternative", RouterPattern.analyze_alternative)] ->
        (RouterPattern.as_step name f s w1).1
        = (RouterPattern.as_step name f s w2).1).
Proof.
  split; [|split; [|split; [|repeat split]]].
  - intros s w1 w2 Hd. unfold HumanInLoop.execute_trade.
    destruct (String.eqb_spec (HumanInLoop.human_decision s) "approved");
      [contradiction|]. now split.
  - intros s w1 w2 Hu. unfold HumanInLoop.execute_trade.
    destruct (String.eqb _ _); [|reflexivity].
    unfold Py.uuid4_hex in *. cbn [fst] in *. now rewrite Hu.
  - intros s tools w1 w2 Hm. unfold TravelAgent.call_model_with_tools.
    unfold Py.model_invoke. cbn [fst]. now rewrite Hm.
Qed.

End PurityFacts.


(** * Further properties *)

(** ** What a check pass reports *)

Section CheckFacts.

Context `{Builtins}.
Import CyclesIteration.
Open Scope Q_scope.

Lemma lt_true a b : Py.lt a b = true -> a < b.
Proof. unfold Py.lt. intros Hl. now apply gt_true. Qed.

Lemma lt_false a b : Py.lt a b = false -> b <= a.
Proof. unfold Py.lt. intros Hl. now apply gt_false. Qed.

Lemma gt_iff a b : Py.gt a b = true <-> b < a.
Proof.
  split; [apply gt_true|]. intros Hlt. unfold Py.gt.
  destruct (Qle_bool a b) eqn:Hle; [|reflexivity].
  apply Qle_bool_iff in Hle. lra.
Qed.

(** the violations of Check 1 alone *)
Lemma position_violations_In h v :
  In v (flat_map check_position h) ->
  exists ticker weight message,
    v = position_size ticker weight MAX_POSITION_SIZE message
    /\ In (ticker, weight) h /\ ticker <> "CASH"
    /\ MAX_POSITION_SIZE < weight.
Proof.
  intros Hin. apply in_flat_map in Hin. destruct Hin as ([t w] & Hh & Hv).
  unfold check_position in Hv.
  destruct (String.eqb_spec t "CASH") as [->|Hne]; cbn [negb andb] in Hv;
    [destruct Hv|].
  destruct (Py.gt w MAX_POSITION_SIZE) eqn:Hg; [|destruct Hv].
  destruct Hv as [<-|[]]. do 3 eexists. split; [reflexivity|].
  repeat split; [exact Hh|exact Hne|now apply gt_true].
Qed.

Lemma position_violations_complete h ticker weight :
  In (ticker, weight) h -> ticker <> "CASH" -> MAX_POSITION_SIZE < weight ->
  exists message,
    In (position_size ticker weight MAX_POSITION_SIZE message)
       (flat_map check_position h).
Proof.
  intros Hh Hne Hw. eexists. apply in_flat_map.
  exists (ticker, weight). split; [exact Hh|].
  unfold check_position.
  destruct (String.eqb_spec ticker "CASH") as [->|_]; [congruence|].
  cbn [negb andb]. rewrite (proj2 (gt_iff _ _) Hw). now left.
Qed.

Lemma violations_check s :
  exists cash_part sum_part,
    violations (check_constraints s)
    = flat_map check_position (holdings s) ++ cash_part ++ sum_part
    /\ Forall (fun v => is_cash_reserve v = true) cash_part
    /\ Forall (fun v => exists c r m, v = sum_constraint c r m) sum_part
    /\ (cash_part = []
        <-> MIN_CASH_RESERVE <= Py.get (holdings s) "CASH" 0)
    /\ (sum_part = [] <-> within_tolerance (holdings s)).
Proof.
  unfold check_constraints, within_tolerance, total. cbn [violations].
  destruct (Py.lt _ _) eqn:Hc; destruct (Py.gt _ _) eqn:Hs.
  - eexists [_], [_]. rewrite <- app_assoc. split; [reflexivity|].
    repeat split; try (repeat constructor; eauto); try discriminate.
    + apply lt_true in Hc. intros Hle. lra.
    + apply gt_true in Hs. intros Hle. lra.
  - eexists [_], []. rewrite app_nil_r. split; [reflexivity|].
    repeat split; try (repeat constructor; eauto); try discriminate.
    + apply lt_true in Hc. intros Hle. lra.
    + intros _. now apply gt_false.
  - eexists [], [_]. split; [reflexivity|].
    repeat split; try (repeat constructor; eauto); try discriminate.
    + intros _. now apply lt_false.
    + apply gt_true in Hs. intros Hle. lra.
  - exists [], []. rewrite app_nil_r. split; [reflexivity|].
    repeat split; try constructor.
    + intros _. now apply lt_false.
    + intros _. now apply gt_false.
Qed.

(** X2: the [position_size] violations of a check pass are exactly the
    holdings other than CASH that are above 25%: each names a held ticker
    with its weight and the limit, and each such holding is reported.
    CASH itself is never reported as oversized. *)
Theorem position_violations_are_the_oversized_holdings s :
  (forall ticker current limit message,
     In (position_size ticker current limit message)
        (violations (check_constraints s)) ->
     ticker <> "CASH" /\ In (ticker, current) (holdings s)
     /\ limit = MAX_POSITION_SIZE /\ MAX_POSITION_SIZE < current)
  /\ (forall ticker weight,
        In (ticker, weight) (holdings s) -> ticker <> "CASH" ->
        MAX_POSITION_SIZE < weight ->
        exists message,
          In (position_size ticker weight MAX_POSITION_SIZE message)
             (violations (check_constraints s))).
Proof.
  destruct (violations_check s) as (cp & sp & -> & Hcf & Hsf & _ & _).
  split.
  - intros ticker current limit message Hin.
    apply in_app_or in Hin. destruct Hin as [Hin|Hin].
    + destruct (position_violations_In _ _ Hin)
        as (t & w & m & [= -> -> -> ->] & Hh & Hne & Hlt). auto.
    + apply in_app_or in Hin. destruct Hin as [Hin|Hin].
      * apply (proj1 (List.Forall_forall _ _) Hcf) in Hin. discriminate.
      * apply (proj1 (List.Forall_forall _ _) Hsf) in Hin.
        destruct Hin as (c & r & m & [=]).
  - intros ticker weight Hh Hne Hlt.
    destruct (position_violations_complete _ _ _ Hh Hne Hlt) as [m Hm].
    exists m. apply in_or_app. now left.
Qed.

End CheckFacts.

(** ** The cap on oversized positions *)

Section AdjustmentFacts.

Context `{Builtins}.
Import CyclesIteration.
Open Scope Q_scope.

Lemma find_None_keys {V} (d : Py.dict V) k :
  Py.find d k = None -> ~ In k (Py.keys d).
Proof.
  induction d as [|[k' v] d IH]; simpl; [tauto|].
  destruct (String.eqb_spec k' k) as [->|Hne]; [discriminate|].
  intros Hf [Hk|Hd]; [congruence|]. now apply IH.
Qed.

Lemma find_Some_In {V} (d : Py.dict V) k v :
  Py.find d k = Some v -> In (k, v) d.
Proof.
  induction d as [|[k' v'] d IH]; simpl; [discriminate|].
  destruct (String.eqb_spec k' k) as [->|Hne]; [intros [= ->]; now left|].
  intros Hf. right. now apply IH.
Qed.

Lemma find_Some_In_keys {V} (d : Py.dict V) k v :
  Py.find d k = Some v -> In k (Py.keys d).
Proof. intros Hf. apply (in_map fst _ _ (find_Some_In _ _ _ Hf)). Qed.

Lemma keys_setitem_absent {V} (d : Py.dict V) k v :
  ~ In k (Py.keys d) -> Py.keys (Py.setitem d k v) = Py.keys d ++ [k].
Proof.
  induction d as [|[k' v'] d IH]; simpl; [reflexivity|].
  destruct (String.eqb_spec k' k) as [->|Hne]; [tauto|].
  intros Hn. simpl. f_equal. apply IH. tauto.
Qed.

Lemma fix_oversized_keys vs : forall h adj h' adj',
  fix_oversized vs h adj = Py.Ok (h', adj') ->
  Py.keys h' = Py.keys h /\ incl (oversized_tickers vs) (Py.keys h).
Proof.
  induction vs as [|v vs IH]; intros h adj h' adj'; simpl.
  - intros [= <- <-]. split; [reflexivity|easy].
  - destruct v as [ticker current limit message| |]; try apply IH.
    unfold Py.getitem. destruct (Py.find h ticker) as [old|] eqn:Hf;
      py_step; [|discriminate].
    assert (Ht : In ticker (Py.keys h)) by exact (find_Some_In_keys _ _ _ Hf).
    intros Hr. destruct (IH _ _ _ _ Hr) as [Hk Hi].
    rewrite keys_setitem_present in Hk, Hi by exact Ht.
    split; [exact Hk|]. simpl. intros t [<-|Hin]; auto.
Qed.

End AdjustmentFacts.

(** ** What an adjustment raises, keeps and leaves alone *)

Section AdjustmentResults.

Context `{Builtins}.
Import CyclesIteration.
Open Scope Q_scope.

Lemma divide_all_keys h t : forall h',
  divide_all h t = Py.Ok h' -> Py.keys h' = Py.keys h.
Proof.
  induction h as [|[k v] h IH]; intros h'; simpl; [now intros [= <-]|].
  destruct (Py.truediv v t); py_step; [|discriminate].
  destruct (divide_all h t) as [rest|]; py_step; [|discriminate].
  intros [= <-]. simpl. f_equal. now apply IH.
Qed.

Lemma keys_scaled f h : Py.keys (map (scale_non_cash f) h) = Py.keys h.
Proof.
  unfold Py.keys. rewrite map_map. apply map_ext. intros [k v].
  unfold scale_non_cash. now destruct (negb _).
Qed.

Lemma normalize_keys h adj h' adj' :
  normalize h adj = Py.Ok (h', adj') -> Py.keys h' = Py.keys h.
Proof.
  unfold normalize. destruct (Py.gt _ _); [|now intros [= <- _]].
  destruct (divide_all _ _) as [h3|] eqn:Hd; py_step; [|discriminate].
  intros [= <- _]. exact (divide_all_keys _ _ _ Hd).
Qed.

(** X5: an adjustment never drops a holding and never adds one, except
    that fixing the cash reserve of a portfolio without CASH appends
    CASH: the tickers come back in the same order. *)
Theorem adjust_portfolio_keeps_the_tickers s s' :
  adjust_portfolio s = Py.Ok s' ->
  Py.keys (holdings s') = Py.keys (holdings s)
  \/ (~ In "CASH" (Py.keys (holdings s))
      /\ List.filter is_cash_reserve (violations s) <> []
      /\ Py.keys (holdings s') = Py.keys (holdings s) ++ ["CASH"]).
Proof.
  intros Hs.
  destruct (adjust_portfolio_inv _ _ Hs)
    as (h1 & adj1 & h3 & adj3 & Hf & Hn & ->).
  cbn [holdings]. rewrite (normalize_keys _ _ _ _ Hn).
  destruct (fix_oversized_keys _ _ _ _ _ Hf) as [Hk _].
  unfold fix_cash_reserve.
  destruct (List.filter is_cash_reserve (violations s)) as [|v vs];
    [left; exact Hk|].
  destruct (Py.gt _ 0); [|left; exact Hk]. cbn [fst].
  destruct (in_dec string_dec "CASH" (Py.keys h1)) as [Hin|Hnin].
  - left. rewrite keys_setitem_present by (now rewrite keys_scaled).
    now rewrite keys_scaled.
  - right. rewrite keys_setitem_absent by (now rewrite keys_scaled).
    rewrite keys_scaled, Hk. rewrite Hk in Hnin. now repeat split.
Qed.

End AdjustmentResults.

(** ** The cap and the normalization *)

Section CapAndCashFacts.

Context `{Builtins}.
Import CyclesIteration.
Open Scope Q_scope.

Lemma find_setitem_eq {V} (h : Py.dict V) k v :
  Py.find (Py.setitem h k v) k = Some v.
Proof.
  induction h as [|[k' v'] h IH]; simpl.
  - now rewrite String.eqb_refl.
  - destruct (String.eqb_spec k' k) as [->|Hne]; simpl.
    + now rewrite String.eqb_refl.
    + destruct (String.eqb_spec k' k); [congruence|exact IH].
Qed.

Lemma find_setitem_ne {V} (h : Py.dict V) k k' v :
  k <> k' -> Py.find (Py.setitem h k v) k' = Py.find h k'.
Proof.
  intros Hne. induction h as [|[k0 v0] h IH]; simpl.
  - destruct (String.eqb_spec k k'); [congruence|reflexivity].
  - destruct (String.eqb_spec k0 k) as [->|Hk]; simpl.
    + destruct (String.eqb_spec k k'); [congruence|reflexivity].
    + destruct (String.eqb_spec k0 k'); [reflexivity|exact IH].
Qed.


End CapAndCashFacts.

(** ** The cash fix *)

Section CashFixFacts.

Context `{Builtins}.
Import CyclesIteration.
Open Scope Q_scope.




End CashFixFacts.

(** ** The constraint checker as a whole *)

Section CheckerFacts.

Context `{Builtins}.
Import CyclesIteration.

(** X9: the status a report ends on.  Without a violation left it is
    ALL CONSTRAINTS SATISFIED, also when the router ended the run on
    [max_iterations]; with violations left at the iteration ceiling it is
    MAXIMUM ITERATIONS REACHED.  A run that the router ended has one of
    these two, never CONSTRAINTS VIOLATED. *)
Theorem report_status_of_an_ended_run initial_state final_state :
  In (should_continue_iteration final_state)
     ["satisfied"; "max_iterations"] ->
  exists body,
    format_results initial_state final_state
    = body
      +:+ (if (length (violations final_state) =? 0)%nat then
             "## ✅ Status: ALL CONSTRAINTS SATISFIED" +:+ Py.nl +:+ Py.nl
             +:+ "The portfolio meets all defined constraints:" +:+ Py.nl
             +:+ "✓ No position exceeds "
             +:+ format_percent MAX_POSITION_SIZE +:+ Py.nl
             +:+ "✓ Cash reserve above "
             +:+ format_percent MIN_CASH_RESERVE +:+ Py.nl
             +:+ "✓ Portfolio sums to 100%" +:+ Py.nl
           else
             "## ⚠️ Status: MAXIMUM ITERATIONS REACHED" +:+ Py.nl +:+ Py.nl
             +:+ "Could not satisfy all constraints within "
             +:+ format_int MAX_ITERATIONS +:+ " iterations." +:+ Py.nl
             +:+ "Manual review recommended." +:+ Py.nl).
Proof.
  intros Hl. unfold format_results.
  destruct (length (violations final_state) =? 0)%nat eqn:Hv;
    [eexists; reflexivity|].
  unfold should_continue_iteration in Hl. rewrite Hv in Hl.
  destruct (iteration_count final_state >=? MAX_ITERATIONS)%Z;
    [eexists; reflexivity|].
  simpl in Hl. destruct Hl as [Hl|[Hl|[]]]; discriminate.
Qed.

End CheckerFacts.

(** ** Submitting and deciding a trade *)

Section TradeFacts.

Context `{Builtins}.
Import HumanInLoop.





Lemma should_execute_iff s :
  should_execute s = "execute" <-> human_decision s = "approved".
Proof.
  unfold should_execute.
  destruct (String.eqb_spec (human_decision s) "approved") as [->|Hne].
  - tauto.
  - destruct (String.eqb _ "rejected"); split; congruence.
Qed.

(** X13: the decision is matched as the exact string: the router answers
    [execute] only for [approved], and a resumption with any other
    decision, [rejected] or not, completes on the cancellation message
    after [human_approval] and [cancel_trade], executing nothing and
    drawing no uuid. *)
Theorem only_approved_executes :
  (forall s, should_execute s = "execute" <-> human_decision s = "approved")
  /\ (forall decision entry w,
        decision <> "approved" ->
        resume_pending decision entry w
        = ({| Engine.run_status := Engine.completed;
              Engine.run_state :=
                cancel_trade
                  (with_human_decision decision (pending_state entry)) |},
           Py.record_calls ["human_approval"; "cancel_trade"] w)).
Proof.
  split; [exact should_execute_iff|].
  intros decision entry w Hd.
  unfold resume_pending, Engine.resume, Engine.recursion_limit.
  change (merge (pending_state entry) (decision_update decision))
    with (with_human_decision decision (pending_state entry)).
  cbn [Engine.saved_state Engine.resume_step].
  rewrite (hitl_advance interrupt_before call_human_approval
             (Engine.ConditionalEdges should_execute
                [("execute", Engine.Step "execute_trade");
                 ("cancel", Engine.Step "cancel_trade")])
             (Engine.Step "cancel_trade"));
    [reflexivity|reflexivity|reflexivity|].
  cbn [call_human_approval human_approval fst Engine.resolve].
  unfold should_execute.
  replace (human_decision
             (human_approval
                (merge (pending_state entry) (decision_update decision))))
    with decision by reflexivity.
  destruct (String.eqb_spec decision "approved"); [contradiction|].
  destruct (String.eqb decision "rejected"); reflexivity.
Qed.

End TradeFacts.

(** ** Substrings *)

Section SubstringFacts.

Lemma prefix_app needle haystack :
  String.prefix needle haystack = true
  <-> exists rest, haystack = needle +:+ rest.
Proof.
  revert haystack. induction needle as [|c needle IH]; intros haystack.
  - split; [intros _; now exists haystack|].
    intros _. now destruct haystack.
  - destruct haystack as [|c' haystack]; simpl.
    + split; [discriminate|]. intros [rest [=]].
    + destruct (Ascii.ascii_dec c c') as [->|Hne].
      * rewrite IH. split; intros [rest Hr]; exists rest.
        -- simpl. now rewrite Hr.
        -- simpl in Hr. now injection Hr.
      * split; [discriminate|]. intros [rest [=]]. congruence.
Qed.

Lemma append_assoc (a b c : string) : (a +:+ b) +:+ c = a +:+ b +:+ c.
Proof.
  induction a as [|x a IH]; [reflexivity|].
  change (String x ((a +:+ b) +:+ c) = String x (a +:+ b +:+ c)).
  now f_equal.
Qed.

Lemma contains_unfold needle haystack :
  Py.contains needle haystack
  = if String.prefix needle haystack then true
    else match haystack with
         | EmptyString => false
         | String _ rest => Py.contains needle rest
         end.
Proof. now destruct haystack. Qed.

(** [needle in haystack] holds exactly when the haystack is some text,
    the needle, and some text *)
Lemma contains_iff needle haystack :
  Py.contains needle haystack = true
  <-> exists before after, haystack = before +:+ needle +:+ after.
Proof.
  split.
  - induction haystack as [|c haystack IH]; rewrite contains_unfold;
      destruct (String.prefix needle _) eqn:Hp.
    + intros _. apply prefix_app in Hp. destruct Hp as [rest Hr].
      now exists "", rest.
    + discriminate.
    + intros _. apply prefix_app in Hp. destruct Hp as [rest Hr].
      now exists "", rest.
    + intros Hc. destruct (IH Hc) as (before & after & ->).
      now exists (String c before), after.
  - intros (before & after & ->).
    induction before as [|c before IH]; rewrite contains_unfold.
    + rewrite (proj2 (prefix_app needle ("" +:+ needle +:+ after)))
        by now exists after.
      reflexivity.
    + destruct (String.prefix needle _); [reflexivity|exact IH].
Qed.

End SubstringFacts.

(** ** The investment router *)

Section RoutingFacts.

Context `{Builtins}.
Import RouterPattern RouterRun.

Lemma existsb_mentions keywords state :
  existsb (fun keyword => Py.contains keyword (str_lower (user_input state)))
    keywords = true
  <-> mentions keywords state.
Proof.
  rewrite existsb_exists. unfold mentions. split.
  - intros (keyword & Hin & Hc). apply contains_iff in Hc.
    destruct Hc as (before & after & Hc). now exists keyword, before, after.
  - intros (keyword & before & after & Hin & Hc). exists keyword.
    split; [exact Hin|]. apply contains_iff. now exists before, after.
Qed.

(** X14: [route_to_analysis] answers by substring search in the
    lower-cased request, equity keywords first: "equity" exactly when an
    equity keyword occurs somewhere in it (also inside a longer word, and
    whatever bond keywords occur besides), "bond" exactly when none does
    but a bond keyword occurs, and "alternative" exactly when no keyword of
    either list occurs. *)
Theorem route_to_analysis_by_substring (state : InvestmentState) :
  (route_to_analysis state = "equity" <-> mentions equity_keywords state)
  /\ (route_to_analysis state = "bond"
      <-> ~ mentions equity_keywords state /\ mentions bond_keywords state)
  /\ (route_to_analysis state = "alternative"
      <-> ~ mentions equity_keywords state
          /\ ~ mentions bond_keywords state).
Proof.
  rewrite <- !existsb_mentions. unfold route_to_analysis.
  destruct (existsb _ equity_keywords); destruct (existsb _ bond_keywords);
    repeat split; try discriminate; try congruence; intuition congruence.
Qed.

Lemma contains_longer needle left right haystack :
  Py.contains (left +:+ needle +:+ right) haystack = true ->
  Py.contains needle haystack = true.
Proof.
  rewrite !contains_iff. intros (before & after & ->).
  exists (before +:+ left), (right +:+ after).
  now rewrite !append_assoc.
Qed.

(** X15: five of the twenty keywords never decide a route: "stocks",
    "shares", "bonds", "corporate bond" and "municipal bond" each hold a
    shorter keyword of the same list, so the router answers the same with
    these five removed. *)
Theorem longer_keywords_are_redundant (state : InvestmentState) :
  let text := str_lower (user_input state) in
  route_to_analysis state
  = if existsb (fun keyword => Py.contains keyword text) core_equity_keywords
    then "equity"
    else if existsb (fun keyword => Py.contains keyword text)
              core_bond_keywords
    then "bond"
    else "alternative".
Proof.
  intros text. unfold route_to_analysis. fold text.
  assert (He : existsb (fun keyword => Py.contains keyword text)
                 equity_keywords
               = existsb (fun keyword => Py.contains keyword text)
                   core_equity_keywords).
  { cbn [existsb equity_keywords core_equity_keywords].
    assert (H1 : Py.contains "stocks" text = true
                  -> Py.contains "stock" text = true)
      by exact (contains_longer "stock" "" "s" text).
    assert (H2 : Py.contains "shares" text = true
                  -> Py.contains "share" text = true)
      by exact (contains_longer "share" "" "s" text).
    destruct (Py.contains "stock" text); [reflexivity|].
    destruct (Py.contains "stocks" text); [discriminate (H1 eq_refl)|].
    destruct (Py.contains "equity" text); [reflexivity|].
    destruct (Py.contains "equities" text); [reflexivity|].
    destruct (Py.contains "share" text); [reflexivity|].
    destruct (Py.contains "shares" text); [discriminate (H2 eq_refl)|].
    reflexivity. }
  assert (Hb : existsb (fun keyword => Py.contains keyword text)
                 bond_keywords
               = existsb (fun keyword => Py.contains keyword text)
                   core_bond_keywords).
  { cbn [existsb bond_keywords core_bond_keywords].
    assert (H1 : Py.contains "bonds" text = true
                  -> Py.contains "bond" text = true)
      by exact (contains_longer "bond" "" "s" text).
    assert (H2 : Py.contains "corporate bond" text = true
                  -> Py.contains "bond" text = true)
      by exact (contains_longer "bond" "corporate " "" text).
    assert (H3 : Py.contains "municipal bond" text = true
                  -> Py.contains "bond" text = true)
      by exact (contains_longer "bond" "municipal " "" text).
    destruct (Py.contains "bond" text); [reflexivity|].
    destruct (Py.contains "bonds" text); [discriminate (H1 eq_refl)|].
    destruct (Py.contains "corporate bond" text); [discriminate (H2 eq_refl)|].
    destruct (Py.contains "municipal bond" text); [discriminate (H3 eq_refl)|].
    reflexivity. }
  now rewrite He, Hb.
Qed.

(** X16: [run_router] never reports an error: for every request and
    world it runs exactly one analysis function, the one behind the label
    [route_to_analysis] gives for the request, logs that one call, and
    returns that function's analysis followed by the routing line with the
    upper-cased label, together with the rendering of the graph. *)
Theorem run_router_runs_the_routed_analysis
    (user_query : string) (w : Py.World) :
  let state := initial_state user_query in
  let label := route_to_analysis state in
  exists name analyze,
    In (label, (name, analyze)) analysis_nodes
    /\ run_router user_query w
       = ((analysis_result (analyze state) +:+ routing_line label,
           visualize_graph _ _ _ build_router_agent),
          Py.record_call name w).
Proof.
  intros state label.
  unfold run_router, Engine.invoke, Engine.execute.
  fold (initial_state user_query). fold state.
  cbn [Engine.resolve Engine.entry_point build_router_agent].
  fold label. subst label. unfold route_to_analysis.
  destruct (existsb _ equity_keywords);
    [|destruct (existsb _ bond_keywords)].
  - exists "analyze_equity", analyze_equity.
    split; [now left|reflexivity].
  - exists "analyze_bond", analyze_bond.
    split; [right; now left|reflexivity].
  - exists "analyze_alternative", analyze_alternative.
    split; [right; right; now left|reflexivity].
Qed.

End RoutingFacts.

(** ** The graphs the demos build *)

Section ValidationFacts.

Context {State Partial World : Type}.
Variable merge : State -> Partial -> State.
Variable g : Engine.Graph State Partial World.

Import Validation.

Hypothesis validated : validate g = true.

Lemma named_assoc {V} (l : list (string * V)) name :
  named (map fst l) name = true -> exists v, Engine.assoc l name = Some v.
Proof.
  unfold named. induction l as [|[k v] l IH]; simpl; [discriminate|].
  rewrite (String.eqb_sym name k).
  destruct (String.eqb k name); [now exists v|exact IH].
Qed.

Lemma resolve_destinations (t : Engine.transition State) s d :
  Engine.resolve t s = inr d -> In d (destinations t).
Proof.
  destruct t as [d'|router label_to_step]; simpl.
  - intros [= ->]. now left.
  - destruct (Engine.assoc label_to_step (router s)) as [d'|] eqn:Ha;
      [|discriminate].
    intros [= ->]. exact (assoc_In _ _ _ Ha).
Qed.

Lemma validated_destinations t d :
  In t (Engine.transitions g) -> In d (destinations t) -> known g d.
Proof.
  intros Ht Hd. unfold validate in validated.
  apply andb_prop in validated. destruct validated as [Hv _].
  apply andb_prop in Hv. destruct Hv as [Hv _].
  rewrite forallb_forall in Hv.
  specialize (Hv d (proj2 (in_flat_map _ _ _) (ex_intro _ t (conj Ht Hd)))).
  destruct d; [exact Hv|exact I].
Qed.

Lemma validated_edges name :
  named (map fst (Engine.steps g)) name = true ->
  exists t, Engine.assoc (Engine.edges g) name = Some t.
Proof.
  intros Hn. apply named_assoc.
  unfold validate in validated.
  apply andb_prop in validated. destruct validated as [Hv _].
  apply andb_prop in Hv. destruct Hv as [_ Hv].
  rewrite forallb_forall in Hv. apply Hv.
  unfold named in Hn. apply existsb_exists in Hn.
  destruct Hn as (k & Hin & Heq). apply String.eqb_eq in Heq. now subst k.
Qed.

Lemma advance_validated name s w :
  named (map fst (Engine.steps g)) name = true ->
  match Engine.advance merge g name s w with
  | (inl (r, _), _) => ~ structural r
  | (inr (d, _), _) => known g d
  end.
Proof.
  intros Hn. unfold Engine.advance.
  destruct (named_assoc _ _ Hn) as [fn ->].
  destruct (fn s w) as [[partial|e] w']; [|now intros []].
  destruct (validated_edges _ Hn) as [t Ht]. rewrite Ht.
  destruct (Engine.resolve t (merge s partial)) as [r|d] eqn:Hr.
  - destruct t as [d|router label_to_step]; simpl in Hr; [discriminate|].
    destruct (Engine.assoc label_to_step _); [discriminate|].
    injection Hr as <-. now intros [].
  - apply (validated_destinations t); [|exact (resolve_destinations _ _ _ Hr)].
    right. exact (assoc_In _ _ _ Ht).
Qed.

Lemma loop_validated suspend_before fuel : forall current s w,
  known g current ->
  forall r,
    Engine.run_status
      (Engine.loop merge g suspend_before fuel current s w).1
    = Engine.aborted r ->
    ~ structural r.
Proof.
  induction fuel as [|fuel IH]; intros [name|] s w Hk r; simpl;
    try discriminate.
  - destruct (existsb _ _); simpl; [discriminate|].
    intros [= <-]. now intros [].
  - destruct (existsb _ _); simpl; [discriminate|].
    pose proof (advance_validated name s w Hk) as Ha.
    destruct (Engine.advance merge g name s w) as [[[r' s']|[d s']] w'].
    + simpl. now intros [= <-].
    + now apply IH.
Qed.

Lemma execute_validated initial_state max_steps suspend_before w r :
  Engine.run_status
    (Engine.execute merge g initial_state max_steps suspend_before w).1
  = Engine.aborted r ->
  ~ structural r.
Proof.
  unfold Engine.execute. destruct max_steps as [|n];
    [simpl; intros [= <-]; now intros []|].
  destruct (Engine.resolve (Engine.entry_point g) initial_state)
    as [r'|d] eqn:Hr.
  - simpl. intros [= <-].
    destruct (Engine.entry_point g) as [d|router label_to_step];
      simpl in Hr; [discriminate|].
    destruct (Engine.assoc label_to_step _); [discriminate|].
    injection Hr as <-. now intros [].
  - apply loop_validated.
    apply (validated_destinations (Engine.entry_point g));
      [now left|exact (resolve_destinations _ _ _ Hr)].
Qed.

Lemma resume_validated checkpoint update max_steps suspend_before w r :
  named (map fst (Engine.steps g)) (Engine.resume_step checkpoint) = true ->
  Engine.run_status
    (Engine.resume merge g checkpoint update max_steps suspend_before w).1
  = Engine.aborted r ->
  ~ structural r.
Proof.
  intros Hn. unfold Engine.resume. destruct max_steps as [|n];
    [simpl; intros [= <-]; now intros []|].
  pose proof (advance_validated (Engine.resume_step checkpoint)
                (merge (Engine.saved_state checkpoint) update) w Hn) as Ha.
  destruct (Engine.advance merge g _ _ w) as [[[r' s']|[d s']] w'].
  - simpl. now intros [= <-].
  - now apply loop_validated.
Qed.

End ValidationFacts.

Section BuiltGraphs.

Context `{Builtins}.

(** X17: the three graphs the demos build pass the validation of
    [compile]: every destination of an edge or of a label map is a
    registered step or the end, every step has its edges and no name is
    used twice.  So no run of them, from any state, under any step
    ceiling and suspend set, and no resumption of a trade at
    [human_approval], fails on a step the graph does not know. *)
Theorem built_graphs_are_closed :
  Validation.validate CyclesIteration.build_cycles_agent = true
  /\ Validation.validate HumanInLoop.build_hitl_agent = true
  /\ Validation.validate RouterPattern.build_router_agent = true
  /\ (forall s max_steps suspend_before w name,
        Engine.run_status
          (Engine.execute CyclesIteration.merge
             CyclesIteration.build_cycles_agent s max_steps suspend_before
             w).1
        <> Engine.aborted (Engine.UnknownStepError name))
  /\ (forall s max_steps suspend_before w name,
        Engine.run_status
          (Engine.execute HumanInLoop.merge HumanInLoop.build_hitl_agent s
             max_steps suspend_before w).1
        <> Engine.aborted (Engine.UnknownStepError name))
  /\ (forall s max_steps suspend_before w name,
        Engine.run_status
          (Engine.execute RouterPattern.merge
             RouterPattern.build_router_agent s max_steps suspend_before
             w).1
        <> Engine.aborted (Engine.UnknownStepError name))
  /\ (forall decision entry w name,
        Engine.run_status (HumanInLoop.resume_pending decision entry w).1
        <> Engine.aborted (Engine.UnknownStepError name)).
Proof.
  assert (Hc : Validation.validate CyclesIteration.build_cycles_agent = true)
    by reflexivity.
  assert (Hh : Validation.validate HumanInLoop.build_hitl_agent = true)
    by reflexivity.
  assert (Hr : Validation.validate RouterPattern.build_router_agent = true)
    by reflexivity.
  repeat split; try reflexivity.
  - intros s max_steps suspend_before w name Ha.
    exact (execute_validated _ _ Hc _ _ _ _ _ Ha I).
  - intros s max_steps suspend_before w name Ha.
    exact (execute_validated _ _ Hh _ _ _ _ _ Ha I).
  - intros s max_steps suspend_before w name Ha.
    exact (execute_validated _ _ Hr _ _ _ _ _ Ha I).
  - intros decision entry w name Ha.
    unfold HumanInLoop.resume_pending in Ha.
    refine (resume_validated _ _ Hh _ _ _ _ _ _ _ Ha I). reflexivity.
Qed.

End BuiltGraphs.

(** ** The travel agent *)

Section TravelRunFacts.

Context `{Builtins} `{TravelRun.Packages}.
Import TravelAgent TravelRun.

Hypothesis tools_quiet : tools_leave_the_model_alone.

Lemma advance_agent s w :
  Engine.advance merge build_travel_agent "agent" s w
  = let reply := llm_invoke tools (messages s) (Py.model_requests w) in
    let s' := merge s [reply] in
    let w' := (Py.model_invoke (llm_invoke tools (messages s)) w).2 in
    match tool_calls reply with
    | Some (_ :: _) => (inr (Engine.Step "action", s'), w')
    | _ => (inr (Engine.END, s'), w')
    end.
Proof.
  unfold Engine.advance.
  cbn [Engine.assoc Engine.steps Engine.edges build_travel_agent
       String.eqb Ascii.eqb Bool.eqb].
  unfold agent_node, call_model_with_tools, Py.model_invoke.
  cbn [Engine.resolve fst snd]. unfold route, should_continue.
  cbn [messages merge]. rewrite last_snoc.
  destruct (tool_calls _) as [[|call calls]|]; reflexivity.
Qed.

Lemma advance_action s w :
  Engine.advance merge build_travel_agent "action" s w
  = match ToolNode tools s w with
    | (Py.Raise e, w') => (inl (Engine.StepExecutionError e, s), w')
    | (Py.Ok returned, w') =>
        (inr (Engine.Step "agent", merge s returned), w')
    end.
Proof.
  unfold Engine.advance.
  cbn [Engine.assoc Engine.steps Engine.edges build_travel_agent
       String.eqb Ascii.eqb Bool.eqb].
  destruct (ToolNode tools s w) as [[returned|e] w']; reflexivity.
Qed.

Lemma travel_loop_ends fuel : forall s w,
  ends_well (Nat.div2 (S fuel)) w
    (Engine.loop merge build_travel_agent [] fuel (Engine.Step "agent") s w)
  /\ ends_well (Nat.div2 fuel) w
       (Engine.loop merge build_travel_agent [] fuel (Engine.Step "action")
          s w).
Proof.
  induction fuel as [|fuel IH]; intros s w.
  - split; (split; [simpl; lia|simpl; lia]).
  - split.
    + cbn [Engine.loop existsb]. rewrite advance_agent. cbv zeta.
      destruct (tool_calls (llm_invoke tools (messages s)
                              (Py.model_requests w)))
        as [[|call calls]|] eqn:Hc.
      * destruct fuel; (split; [simpl; lia|]); simpl;
          exists (messages s), (Py.model_requests w);
          (split; [reflexivity|]); intros (c & cs & Hcs); congruence.
      * assert (Hw : Py.model_requests
                       (Py.model_invoke (llm_invoke tools (messages s)) w).2
                     = S (Py.model_requests w)) by reflexivity.
        revert Hw.
        generalize (Py.model_invoke (llm_invoke tools (messages s)) w).2.
        intros w1 Hw.
        destruct (proj2 (IH (merge s [llm_invoke tools (messages s)
                                        (Py.model_requests w)]) w1))
          as [Hb Ho].
        change (Nat.div2 (S (S fuel))) with (S (Nat.div2 fuel)).
        split; [lia|].
        destruct (Engine.run_status _) as [| |[| | | |e]];
          try exact Ho. lia.
      * destruct fuel; (split; [simpl; lia|]); simpl;
          exists (messages s), (Py.model_requests w);
          (split; [reflexivity|]); intros (c & cs & Hcs); congruence.
    + cbn [Engine.loop existsb]. rewrite advance_action.
      pose proof (tools_quiet s w) as Hq.
      destruct (ToolNode tools s w) as [[returned|e] w'] eqn:Ht;
        cbn [snd] in Hq.
      * destruct (proj1 (IH (merge s returned) w')) as [Hb Ho].
        rewrite Hq in Hb, Ho. now split.
      * split; [cbn [snd]; rewrite Hq; apply Nat.le_add_r|].
        cbn [fst Engine.run_status].
        exists s, w. now rewrite Ht.
Qed.

Lemma run_travel_agent_ends user_query w :
  let out := run_travel_agent user_query w in
  (Py.model_requests out.2 <= Py.model_requests w + 8)%nat
  /\ ((exists history request,
         let reply := llm_invoke tools history request in
         ~ asks_for_a_tool reply
         /\ out.1
            = (if is_AIMessage reply then content reply
               else message_str reply,
               visualize_graph _ _ _ build_travel_agent))
      \/ (out.1 = (error_executing Py.GraphRecursionError, None)
          /\ Py.model_requests out.2 = (Py.model_requests w + 8)%nat)
      \/ (exists e state w0,
            (ToolNode tools state w0).1 = Py.Raise e
            /\ out.1 = (error_executing e, None))).
Proof.
  cbv zeta. unfold run_travel_agent, invoke_with, Engine.execute.
  cbn [Engine.resolve Engine.entry_point build_travel_agent].
  destruct (proj1 (travel_loop_ends 15
                     {| messages := [HumanMessage user_query] |} w))
    as [Hb Ho].
  change (Nat.div2 16) with 8%nat in Hb, Ho.
  destruct (Engine.loop merge build_travel_agent [] 15 (Engine.Step "agent")
              {| messages := [HumanMessage user_query] |} w)
    as [[st final] w'].
  cbn [fst snd Engine.run_status Engine.run_state] in Hb, Ho.
  destruct st as [| |[| | | |e]]; try contradiction.
  - destruct Ho as (history & request & Hm & Hn).
    rewrite Hm, last_snoc. cbn [fst snd]. split; [exact Hb|].
    left. exists history, request. now split.
  - cbn [fst snd Engine.raised]. split; [exact Hb|]. right. left. now split.
  - destruct Ho as (state & w0 & Hr).
    cbn [fst snd Engine.raised]. split; [exact Hb|]. right. right.
    now exists e, state, w0.
Qed.

(** X18: [run_travel_agent] sends at most eight requests to the model,
    whatever the model answers, as long as the tool node sends none.  When
    the replies of the model are messages of the model, it ends in one of
    three ways: on the content of a reply that asks for no tool (never on
    [str] of a message), on the error message of the recursion limit
    after exactly eight requests, or on the error message of an exception
    of the tool node. *)
Theorem run_travel_agent_outcomes user_query w :
  model_replies_are_AIMessages ->
  let out := run_travel_agent user_query w in
  (Py.model_requests out.2 <= Py.model_requests w + 8)%nat
  /\ ((exists history request,
         let reply := llm_invoke tools history request in
         tool_calls reply = Some []
         /\ out.1
            = (content reply, visualize_graph _ _ _ build_travel_agent))
      \/ (out.1 = (error_executing Py.GraphRecursionError, None)
          /\ Py.model_requests out.2 = (Py.model_requests w + 8)%nat)
      \/ (exists e state w0,
            (ToolNode tools state w0).1 = Py.Raise e
            /\ out.1 = (error_executing e, None))).
Proof.
  intros Hai. cbv zeta.
  destruct (run_travel_agent_ends user_query w) as [Hb Ho].
  split; [exact Hb|].
  destruct Ho as [(history & request & Hn & Ho)|[Ho|Ho]];
    [left|right; now left|right; now right].
  exists history, request. cbv zeta in *.
  specialize (Hai tools history request).
  unfold is_AIMessage in Ho.
  destruct (tool_calls (llm_invoke tools history request))
    as [[|call calls]|] eqn:Hc.
  - now split.
  - exfalso. apply Hn. now exists call, calls.
  - contradiction.
Qed.

(** X19: the ceiling is what stops a model that keeps asking for tools:
    when every reply asks for a tool and the tool node never raises,
    [run_travel_agent] returns the error message of the recursion limit,
    after exactly eight requests; the eighth reply is dropped. *)
Theorem run_travel_agent_is_cut_off user_query w :
  (forall history request,
     asks_for_a_tool (llm_invoke tools history request)) ->
  (forall state w0 e, (ToolNode tools state w0).1 <> Py.Raise e) ->
  (run_travel_agent user_query w).1
  = (error_executing Py.GraphRecursionError, None)
  /\ Py.model_requests (run_travel_agent user_query w).2
     = (Py.model_requests w + 8)%nat.
Proof.
  intros Hask Hok.
  destruct (run_travel_agent_ends user_query w) as [_ Ho]. cbv zeta in Ho.
  destruct Ho as [(history & request & Hn & _)|[Ho|(e & state & w0 & Hr & _)]].
  - destruct (Hn (Hask history request)).
  - exact Ho.
  - destruct (Hok _ _ _ Hr).
Qed.

End TravelRunFacts.

(** ** The search tools of the travel agent *)

Section ToolFacts.

Import TravelTools SearchTools.
Context `{Builtins} `{Amadeus}.

Lemma slice_to_nil {A} (n : Z) (l : list A) :
  l <> [] ->
  slice_to n l = [] <-> (n = 0 \/ n <= - Z.of_nat (length l))%Z.
Proof.
  intros Hl. unfold slice_to.
  assert (Hlen : (0 < length l)%nat)
    by (destruct l; [contradiction|simpl; lia]).
  destruct (Z.leb_spec 0 n) as [Hn|Hn].
  - split.
    + intros Hf. destruct (Z.to_nat n) as [|k] eqn:Hk; [left; lia|].
      destruct l; [contradiction|discriminate].
    + intros [->|Hle]; [reflexivity|lia].
  - split.
    + intros Hf. right.
      destruct (length l - Z.to_nat (- n))%nat as [|k] eqn:Hk; [lia|].
      destruct l; [contradiction|discriminate].
    + intros [->|Hle]; [lia|].
      replace (length l - Z.to_nat (- n))%nat with 0%nat by lia.
      reflexivity.
Qed.

Lemma flight_results_Done offers : forall idx fields,
  Forall2 (fun offer f => flight_fields offer = Done f) offers fields ->
  flight_results idx offers
  = Done (imap (fun i f => flight_text (idx + Z.of_nat i) f) fields).
Proof.
  induction offers as [|offer offers IH]; intros idx fields Hf;
    inversion Hf as [|? f ? fs Ho Hrest]; subst; [reflexivity|].
  cbn [flight_results]. rewrite Ho. cbn [mbind outcome_bind].
  rewrite (IH (idx + 1)%Z fs Hrest). cbn [mbind outcome_bind imap].
  rewrite Z.add_0_r. do 2 f_equal. apply imap_ext.
  intros i f' _. cbn. f_equal. lia.
Qed.

Lemma flight_results_Fails good : forall idx bad rest e,
  Forall readable good ->
  flight_fields bad = Fails e ->
  flight_results idx (good ++ bad :: rest) = Fails e.
Proof.
  induction good as [|offer good IH]; intros idx bad rest e Hg Hb.
  - cbn [app flight_results]. now rewrite Hb.
  - inversion Hg as [|? ? [f Hf] Hg']; subst.
    cbn [app flight_results]. rewrite Hf. cbn [mbind outcome_bind].
    now rewrite (IH (idx + 1)%Z bad rest e Hg' Hb).
Qed.

(** X20: [search_flights_tool] is all or nothing.  When the service
    answers with offers, the result is the blocks of the first
    [max_offers] of them, numbered from 1 and joined by a newline, if
    every one of these has the fields the tool reads; if one of them lacks
    a field, the result is the error message of the first such offer and
    nothing else, also when the offers before it were complete. *)
Theorem search_flights_is_all_or_nothing origin_code destination_code
    departure_date return_date adults travel_class currency max_offers
    data :
  flight_offers_search
    (search_params origin_code destination_code departure_date
       return_date adults travel_class currency max_offers)
  = Data data ->
  data <> [] ->
  let out :=
    search_flights_tool origin_code destination_code departure_date
      return_date adults travel_class currency max_offers in
  (forall fields,
     Forall2 (fun offer f => flight_fields offer = Done f)
       (slice_to max_offers data) fields ->
     out = join Py.nl
             (imap (fun i f => flight_text (1 + Z.of_nat i) f) fields))
  /\ (forall good bad rest e,
        slice_to max_offers data = good ++ bad :: rest ->
        Forall readable good ->
        flight_fields bad = Fails e ->
        out = "Error searching flights: " +:+ error_str e).
Proof.
  intros Hs Hd out. subst out. unfold search_flights_tool. rewrite Hs.
  destruct data as [|offer data]; [contradiction|]. split.
  - intros fields Hf. now rewrite (flight_results_Done _ _ _ Hf).
  - intros good bad rest e Hg Hr Hb. rewrite Hg.
    now rewrite (flight_results_Fails _ _ _ _ _ Hr Hb).
Qed.

(** X21: when the service answers with offers, [search_flights_tool]
    returns the empty string, not the no-flights message, exactly when
    [max_offers] leaves no offer to show: when it is 0, or negative and at
    least the number of offers in size (a negative [max_offers] drops
    that many offers from the end). *)
Theorem search_flights_shows_nothing origin_code destination_code
    departure_date return_date adults travel_class currency max_offers
    data :
  flight_offers_search
    (search_params origin_code destination_code departure_date
       return_date adults travel_class currency max_offers)
  = Data data ->
  data <> [] ->
  search_flights_tool origin_code destination_code departure_date
    return_date adults travel_class currency max_offers = ""
  <-> (max_offers = 0 \/ max_offers <= - Z.of_nat (length data))%Z.
Proof.
  intros Hs Hd. rewrite <- (slice_to_nil max_offers data Hd).
  unfold search_flights_tool. rewrite Hs.
  destruct data as [|offer data]; [contradiction|].
  destruct (slice_to max_offers (offer :: data)) as [|shown rest];
    [now split|].
  split; [|discriminate]. cbn [flight_results].
  destruct (flight_fields shown) as [fields|e]; cbn [mbind outcome_bind];
    [|discriminate].
  destruct (flight_results (1 + 1) rest) as [results|e];
    cbn [mbind outcome_bind]; [|discriminate].
  destruct results; discriminate.
Qed.

Lemma hotel_results_Done hotels : forall idx fields,
  Forall2 (fun hotel f => hotel_fields hotel = Done f) hotels fields ->
  hotel_results idx hotels = Done (numbered_hotels idx fields).
Proof.
  unfold numbered_hotels.
  induction hotels as [|hotel hotels IH]; intros idx fields Hf;
    inversion Hf as [|? f ? fs Ho Hrest]; subst; [reflexivity|].
  cbn [hotel_results]. rewrite Ho. cbn [mbind outcome_bind].
  rewrite (IH (idx + 1)%Z fs Hrest). cbn [mbind outcome_bind imap omap].
  assert (He : imap (fun i => option_map
                                (hotel_text (idx + 1 + Z.of_nat i))) fs
               = imap ((fun i => option_map
                                   (hotel_text (idx + Z.of_nat i))) ∘ S)
                   fs).
  { apply imap_ext. intros i f' _. cbn. do 2 f_equal. lia. }
  rewrite He. rewrite Z.add_0_r. now destruct f.
Qed.

(** X22: the hotels keep the number of their position.  When both
    requests are answered and every entry shown can be read,
    [search_hotels_tool] numbers each block by the position of its entry
    among the first [max_offers] offers, counted from 1: an entry without
    offers gives no block but uses up its number, and when no entry has
    offers the result is the no-pricing message. *)
Theorem search_hotels_numbers_by_position city_code check_in_date
    check_out_date adults radius radius_unit currency max_offers
    hotels ids offers fields :
  hotels_by_city city_code = Data hotels ->
  hotels <> [] ->
  (ids ← hotel_ids (firstn 10 hotels); join_ids ids) = Done ids ->
  hotel_offers_search
    {| hotelIds := join "," ids;
       checkInDate := check_in_date;
       checkOutDate := check_out_date;
       hotel_adults := adults;
       hotel_currency := currency |}
  = Data offers ->
  offers <> [] ->
  Forall2 (fun hotel f => hotel_fields hotel = Done f)
    (slice_to max_offers offers) fields ->
  search_hotels_tool city_code check_in_date check_out_date adults radius
    radius_unit currency max_offers
  = match numbered_hotels 1 fields with
    | [] => "No hotel offers with pricing available."
    | results => join Py.nl results
    end.
Proof.
  intros Hh Hne Hi Ho Hoe Hf. unfold search_hotels_tool. rewrite Hh.
  destruct hotels as [|hotel hotels]; [contradiction|].
  rewrite Hi, Ho. destruct offers as [|offer offers]; [contradiction|].
  rewrite (hotel_results_Done _ _ _ Hf).
  now destruct (numbered_hotels 1 fields).
Qed.

End ToolFacts.


(** ** The constraint checker in doubles *)

Section DoubleFacts.

Context `{Doubles.Runtime}.
Import PrimFloat Doubles.

Lemma double_position_violations_In h v :
  In v (flat_map check_position h) ->
  exists ticker weight message,
    v = position_size ticker weight MAX_POSITION_SIZE message
    /\ In (ticker, weight) h /\ ticker <> "CASH"
    /\ gt weight MAX_POSITION_SIZE = true.
Proof.
  intros Hin. apply in_flat_map in Hin.
  destruct Hin as ([ticker weight] & Hh & Hv). unfold check_position in Hv.
  destruct (String.eqb_spec ticker "CASH") as [->|Hne]; [destruct Hv|].
  cbn [negb andb] in Hv.
  destruct (gt weight MAX_POSITION_SIZE) eqn:Hg; [|destruct Hv].
  destruct Hv as [<-|[]]. now eexists ticker, weight, _.
Qed.

Lemma double_position_violations_complete h ticker weight :
  In (ticker, weight) h -> ticker <> "CASH" ->
  gt weight MAX_POSITION_SIZE = true ->
  exists message,
    In (position_size ticker weight MAX_POSITION_SIZE message)
       (flat_map check_position h).
Proof.
  intros Hh Hne Hg. eexists. apply in_flat_map.
  exists (ticker, weight). split; [exact Hh|]. unfold check_position.
  destruct (String.eqb_spec ticker "CASH") as [->|_]; [contradiction|].
  cbn [negb andb]. rewrite Hg. now left.
Qed.

(** X1: in doubles, a check pass reports nothing exactly when its three
    tests are all false: [weight > 0.25] for every holding other than
    CASH, [cash < 0.05] for the CASH weight (0 when absent), and
    [abs(total - 1.0) > 0.01] for the sum [sum] returns.  The tests are
    those of the doubles, rounding of the sum and weights that are no
    numbers included. *)
Theorem check_reports_nothing_iff (s : PortfolioState) :
  violations (check_constraints s) = []
  <-> (forall ticker weight,
         In (ticker, weight) (holdings s) -> ticker <> "CASH" ->
         gt weight MAX_POSITION_SIZE = false)
      /\ lt (Py.get (holdings s) "CASH" PrimFloat.zero) MIN_CASH_RESERVE
         = false
      /\ off_target (sum (Py.values (holdings s))) = false.
Proof.
  unfold check_constraints. cbn [violations].
  change 0%float with PrimFloat.zero.
  destruct (lt (Py.get (holdings s) "CASH" PrimFloat.zero) MIN_CASH_RESERVE)
    eqn:Hc;
    destruct (off_target (sum (Py.values (holdings s)))) eqn:Hs.
  - split; [intros Hn; now apply app_eq_nil in Hn|now intros (_ & [=] & _)].
  - split; [intros Hn; now apply app_eq_nil in Hn|now intros (_ & [=] & _)].
  - split; [intros Hn; now apply app_eq_nil in Hn|now intros (_ & _ & [=])].
  - split.
    + intros Hn. split; [|now split]. intros ticker weight Hh Hne.
      destruct (gt weight MAX_POSITION_SIZE) eqn:Hg; [|reflexivity].
      destruct (double_position_violations_complete _ _ _ Hh Hne Hg)
        as [m Hm].
      rewrite Hn in Hm. destruct Hm.
    + intros (Hp & _ & _).
      destruct (flat_map check_position (holdings s)) as [|v vs] eqn:Hf;
        [reflexivity|].
      destruct (double_position_violations_In (holdings s) v)
        as (t & w & m & _ & Hh & Hne & Hg); [rewrite Hf; now left|].
      rewrite (Hp t w Hh Hne) in Hg. discriminate.
Qed.

Lemma double_fix_oversized_keys vs : forall h adj h' adj',
  fix_oversized vs h adj = Py.Ok (h', adj') ->
  Py.keys h' = Py.keys h /\ incl (oversized_tickers vs) (Py.keys h).
Proof.
  induction vs as [|v vs IH]; intros h adj h' adj'; cbn [fix_oversized].
  - py_step. intros [= <- _]. split; [reflexivity|]. intros x [].
  - destruct v as [ticker current limit message| |].
    + unfold Py.getitem.
      destruct (Py.find h ticker) as [old|] eqn:Hf; py_step; [|discriminate].
      intros Hr. destruct (IH _ _ _ _ Hr) as [Hk Hi].
      assert (Ht : In ticker (Py.keys h))
        by exact (find_Some_In_keys _ _ _ Hf).
      rewrite (keys_setitem_present _ _ _ Ht) in Hk, Hi.
      split; [exact Hk|]. intros x [<-|Hx]; [exact Ht|exact (Hi x Hx)].
    + intros Hr. exact (IH _ _ _ _ Hr).
    + intros Hr. exact (IH _ _ _ _ Hr).
Qed.

Lemma double_fix_oversized_raise vs : forall h adj e,
  fix_oversized vs h adj = Py.Raise e ->
  exists ticker,
    e = Py.KeyError ticker /\ In ticker (oversized_tickers vs)
    /\ ~ In ticker (Py.keys h).
Proof.
  induction vs as [|v vs IH]; intros h adj e; cbn [fix_oversized].
  - py_step. discriminate.
  - destruct v as [ticker current limit message| |].
    + unfold Py.getitem.
      destruct (Py.find h ticker) as [old|] eqn:Hf; py_step.
      * intros Hr. destruct (IH _ _ _ Hr) as (t & -> & Hin & Hn).
        exists t. split; [reflexivity|]. split; [now right|].
        rewrite (keys_setitem_present _ _ _ (find_Some_In_keys _ _ _ Hf))
          in Hn.
        exact Hn.
      * intros [= <-]. exists ticker. split; [reflexivity|].
        split; [now left|]. exact (find_None_keys _ _ Hf).
    + intros Hr. exact (IH _ _ _ Hr).
    + intros Hr. exact (IH _ _ _ Hr).
Qed.

Lemma double_divide_all_raise h total : forall e,
  divide_all h total = Py.Raise e ->
  e = Py.ZeroDivisionError /\ PrimFloat.eqb total PrimFloat.zero = true
  /\ h <> [].
Proof.
  induction h as [|[k v] h IH]; intros e; cbn [divide_all]; py_step;
    [discriminate|].
  unfold truediv. change 0%float with PrimFloat.zero.
  destruct (PrimFloat.eqb total PrimFloat.zero) eqn:Hz; py_step.
  - intros [= <-]. now repeat split.
  - destruct (divide_all h total) as [rest|e'] eqn:Hd; py_step;
      [discriminate|].
    intros [= <-]. destruct (IH _ eq_refl) as (_ & [=] & _).
Qed.

Lemma double_divide_all_zero h total :
  PrimFloat.eqb total PrimFloat.zero = true -> h <> [] ->
  divide_all h total = Py.Raise Py.ZeroDivisionError.
Proof.
  intros Hz Hne. destruct h as [|[k v] h]; [contradiction|].
  cbn [divide_all]. unfold truediv. change 0%float with PrimFloat.zero.
  now rewrite Hz.
Qed.

(** X3: in doubles, [adjust_portfolio] raises [KeyError] exactly when a
    [position_size] violation names a ticker that is not held, and names
    such a ticker.  The only other exception it raises is the
    [ZeroDivisionError] of the normalization, which then divides holdings
    that are not empty by a sum that is zero as a double. *)
Theorem adjust_raises_in_doubles (s : PortfolioState) :
  ((exists ticker, adjust_portfolio s = Py.Raise (Py.KeyError ticker))
   <-> ~ incl (oversized_tickers (violations s)) (Py.keys (holdings s)))
  /\ (forall e,
        adjust_portfolio s = Py.Raise e ->
        (exists ticker,
           e = Py.KeyError ticker
           /\ In ticker (oversized_tickers (violations s))
           /\ ~ In ticker (Py.keys (holdings s)))
        \/ (e = Py.ZeroDivisionError
            /\ exists fixed,
                 fixed_holdings s = Py.Ok fixed /\ fixed <> []
                 /\ PrimFloat.eqb (sum (Py.values fixed)) PrimFloat.zero
                    = true)).
Proof.
  assert (Hraise : forall e,
            adjust_portfolio s = Py.Raise e ->
            (exists ticker,
               e = Py.KeyError ticker
               /\ In ticker (oversized_tickers (violations s))
               /\ ~ In ticker (Py.keys (holdings s)))
            \/ (e = Py.ZeroDivisionError
                /\ exists fixed,
                     fixed_holdings s = Py.Ok fixed /\ fixed <> []
                     /\ PrimFloat.eqb (sum (Py.values fixed)) PrimFloat.zero
                        = true)).
  { intros e. unfold adjust_portfolio, fixed_holdings.
    destruct (fix_oversized _ _ _) as [[h1 adj1]|e1] eqn:Hf; py_step.
    - destruct (fix_cash_reserve _ _ _) as [h2 adj2]. cbn [fst].
      unfold normalize. destruct (off_target _); py_step; [|discriminate].
      destruct (divide_all h2 _) as [h3|e3] eqn:Hd; py_step;
        [discriminate|].
      intros [= <-]. right.
      destruct (double_divide_all_raise _ _ _ Hd) as (-> & Hz & Hne).
      split; [reflexivity|]. now exists h2.
    - intros [= <-]. left. exact (double_fix_oversized_raise _ _ _ _ Hf). }
  split; [|exact Hraise]. split.
  - intros [ticker Hr].
    destruct (Hraise _ Hr) as [(t & _ & Hin & Hn)|[[=] _]].
    intros Hincl. exact (Hn (Hincl _ Hin)).
  - intros Hn. unfold adjust_portfolio.
    destruct (fix_oversized _ _ _) as [[h1 adj1]|e1] eqn:Hf; py_step.
    + destruct (double_fix_oversized_keys _ _ _ _ _ Hf) as [_ Hi].
      contradiction.
    + destruct (double_fix_oversized_raise _ _ _ _ Hf) as (t & -> & _ & _).
      now exists t.
Qed.

Lemma double_fix_oversized_none vs : forall h adj,
  oversized_tickers vs = [] -> fix_oversized vs h adj = Py.Ok (h, adj).
Proof.
  induction vs as [|v vs IH]; intros h adj; simpl; [reflexivity|].
  destruct v; simpl; try discriminate; apply IH.
Qed.

(** X4: in doubles, when no [position_size] and no [cash_reserve]
    violation is listed and the test [abs(total - 1.0) > 0.01] is false
    for the sum [sum] returns, [adjust_portfolio] returns the holdings
    and the adjustment history as they are (whatever [sum_constraint]
    entries the list holds). *)
Theorem adjust_leaves_a_clean_portfolio (s : PortfolioState) :
  oversized_tickers (violations s) = [] ->
  List.filter is_cash_reserve (violations s) = [] ->
  off_target (sum (Py.values (holdings s))) = false ->
  adjust_portfolio s
  = Py.Ok {| holdings := holdings s;
             violations := violations s;
             iteration_count := iteration_count s;
             adjustments_made := adjustments_made s;
             status := "adjusting" |}.
Proof.
  intros Ho Hc Hw. unfold adjust_portfolio.
  rewrite (double_fix_oversized_none _ _ _ Ho). py_step.
  unfold fix_cash_reserve. rewrite Hc.
  unfold normalize. rewrite Hw. py_step. now rewrite app_nil_r.
Qed.

Lemma double_fix_oversized_keeps_cap vs : forall h adj h1 adj1 t,
  fix_oversized vs h adj = Py.Ok (h1, adj1) ->
  Py.find h t = Some MAX_POSITION_SIZE ->
  Py.find h1 t = Some MAX_POSITION_SIZE.
Proof.
  induction vs as [|v vs IH]; intros h adj h1 adj1 t; cbn [fix_oversized].
  - py_step. now intros [= <- _].
  - destruct v as [ticker current limit message| |].
    + unfold Py.getitem.
      destruct (Py.find h ticker) as [old|] eqn:Hf; py_step; [|discriminate].
      intros Hr Ht. apply (IH _ _ _ _ _ Hr).
      destruct (String.eqb_spec ticker t) as [->|Hne].
      * apply find_setitem_eq.
      * now rewrite find_setitem_ne.
    + intros Hr. exact (IH _ _ _ _ _ Hr).
    + intros Hr. exact (IH _ _ _ _ _ Hr).
Qed.

Lemma double_fix_oversized_caps vs : forall h adj h1 adj1 t,
  fix_oversized vs h adj = Py.Ok (h1, adj1) ->
  In t (oversized_tickers vs) ->
  Py.find h1 t = Some MAX_POSITION_SIZE.
Proof.
  induction vs as [|v vs IH]; intros h adj h1 adj1 t; cbn [fix_oversized];
    [intros _ []|].
  destruct v as [ticker current limit message| |].
  - unfold Py.getitem.
    destruct (Py.find h ticker) as [old|] eqn:Hf; py_step; [|discriminate].
    intros Hr [<-|Hin].
    + apply (double_fix_oversized_keeps_cap _ _ _ _ _ _ Hr).
      apply find_setitem_eq.
    + exact (IH _ _ _ _ _ Hr Hin).
  - intros Hr Hin. exact (IH _ _ _ _ _ Hr Hin).
  - intros Hr Hin. exact (IH _ _ _ _ _ Hr Hin).
Qed.

Lemma double_divide_all_find h total : forall h' k w,
  divide_all h total = Py.Ok h' ->
  Py.find h k = Some w ->
  Py.find h' k = Some (PrimFloat.div w total).
Proof.
  induction h as [|[k0 v0] h IH]; intros h' k w; cbn [divide_all]; py_step;
    [discriminate|].
  unfold truediv. destruct (PrimFloat.eqb total _); py_step; [discriminate|].
  destruct (divide_all h total) as [rest|] eqn:Hd; py_step; [|discriminate].
  intros [= <-]. cbn [Py.find].
  destruct (String.eqb k0 k); [now intros [= ->]|].
  now apply IH.
Qed.

(** X6: in doubles, the normalization undoes the cap.  Without a cash
    fix, a ticker named by a [position_size] violation comes back at
    exactly 0.25 when the test [abs(total - 1.0) > 0.01] is false for the
    sum of the capped holdings, and at the double [0.25 / total]
    otherwise; whenever that quotient is above 0.25 and the ticker is not
    CASH, the next check pass reports the ticker again. *)
Theorem normalization_undoes_the_cap_in_doubles
    (s s' : PortfolioState) capped adjustments ticker :
  fix_oversized (violations s) (holdings s) [] = Py.Ok (capped, adjustments) ->
  List.filter is_cash_reserve (violations s) = [] ->
  In ticker (oversized_tickers (violations s)) ->
  adjust_portfolio s = Py.Ok s' ->
  let total := sum (Py.values capped) in
  (off_target total = false ->
   Py.find (holdings s') ticker = Some MAX_POSITION_SIZE)
  /\ (off_target total = true ->
      Py.find (holdings s') ticker
      = Some (PrimFloat.div MAX_POSITION_SIZE total)
      /\ (ticker <> "CASH" ->
          gt (PrimFloat.div MAX_POSITION_SIZE total) MAX_POSITION_SIZE
          = true ->
          In ticker
             (oversized_tickers (violations (check_constraints s'))))).
Proof.
  intros Hf Hc Ht Hs total. revert Hs. unfold adjust_portfolio.
  rewrite Hf. py_step. unfold fix_cash_reserve. rewrite Hc.
  unfold normalize. fold total.
  pose proof (double_fix_oversized_caps _ _ _ _ _ _ Hf Ht) as Hcap.
  destruct (off_target total) eqn:Ho; py_step.
  - destruct (divide_all capped total) as [h3|] eqn:Hd; py_step;
      [|discriminate].
    intros [= <-]. cbn [holdings]. split; [discriminate|]. intros _.
    pose proof (double_divide_all_find _ _ _ _ _ Hd Hcap) as Hq.
    split; [exact Hq|]. intros Hne Hg.
    destruct (double_position_violations_complete h3 ticker _
                (find_Some_In _ _ _ Hq) Hne Hg) as [m Hm].
    unfold check_constraints. cbn [violations holdings].
    apply in_flat_map.
    exists (position_size ticker (PrimFloat.div MAX_POSITION_SIZE total)
              MAX_POSITION_SIZE m).
    split; [|now left].
    destruct (lt _ _); destruct (off_target (sum (Py.values h3)));
      repeat (apply in_or_app; left); exact Hm.
  - intros [= <-]. cbn [holdings]. split; [now intros _|discriminate].
Qed.

End DoubleFacts.


(** * Closed examples *)

(** C1, as stated, fails: the run on the example portfolio applies four
    adjustments, not one, and its router ends it on [max_iterations], not
    on [satisfied]. *)
Lemma example_run_is_not_satisfied_after_one_adjustment :
  CyclesIteration.adjustments Examples.example_run.2 <> 1%nat
  /\ CyclesIteration.should_continue_iteration
       (Engine.run_state Examples.example_run.1)
     <> "satisfied".
Proof. split; vm_compute; discriminate. Qed.

(** C2, as stated, fails: on the trade stored by [submit_trade],
    [approve_trade] does not call [human_approval], which re-entering the
    loop at the suspended step does. *)
Lemma approve_trade_skips_human_approval :
  Examples.pending !! Examples.thread = Some Examples.entry
  /\ Py.calls
       (@HumanInLoop.approve_trade Sample.builtins Examples.thread
          Examples.pending Examples.after_submit).2
     <> Py.calls
          (@HumanInLoop.resume_pending Sample.builtins "approved"
             Examples.entry Examples.after_submit).2.
Proof. split; [vm_compute; reflexivity|vm_compute; discriminate]. Qed.

(** the trade stored by [submit_trade], approved directly and by resumption *)
Lemma approval_agrees_with_resumption_witness :
  Examples.pending !! Examples.thread = Some Examples.entry
  /\ (@HumanInLoop.approve_trade Sample.builtins Examples.thread
        Examples.pending Examples.after_submit).1.1
     = HumanInLoop.execution_result
         (Engine.run_state
            (@HumanInLoop.resume_pending Sample.builtins "approved"
               Examples.entry Examples.after_submit).1).
Proof.
  assert (Hp : Examples.pending !! Examples.thread = Some Examples.entry)
    by (vm_compute; reflexivity).
  split; [exact Hp|].
  exact (proj1 (proj2 (proj1
           (@approval_agrees_with_resumption Sample.builtins Examples.thread
              Examples.pending Examples.after_submit Examples.entry Hp)))).
Defined.

(** the example portfolio under a ceiling of nine steps *)
Lemma cycle_terminates_witness :
  (2 * CyclesIteration.passes_bound
         (CyclesIteration.initial_state CyclesIteration.example_portfolio) - 1
   <= 9)%nat
  /\ CyclesIteration.terminal_outcome
       (Engine.execute CyclesIteration.merge
          (@CyclesIteration.build_cycles_agent Sample.builtins)
          (CyclesIteration.initial_state CyclesIteration.example_portfolio)
          9 [] Sample.world).1.
Proof.
  assert (Hb : (2 * CyclesIteration.passes_bound
                      (CyclesIteration.initial_state
                         CyclesIteration.example_portfolio) - 1 <= 9)%nat)
    by (vm_compute; lia).
  split; [exact Hb|].
  exact (proj1 (proj1 (proj2 (proj2 (proj2
           (@cycle_terminates Sample.builtins)))) _ Sample.world 9 Hb)).
Defined.

(** the first adjustment of the example portfolio keeps the iteration count *)
Lemma steps_carry_over_unmentioned_fields_witness :
  exists s',
    @CyclesIteration.adjust_portfolio Sample.builtins
      (@CyclesIteration.check_constraints Sample.builtins
         (CyclesIteration.initial_state CyclesIteration.example_portfolio))
    = Py.Ok s'
    /\ CyclesIteration.iteration_count s' = 1%Z.
Proof.
  destruct (@CyclesIteration.adjust_portfolio Sample.builtins
              (@CyclesIteration.check_constraints Sample.builtins
                 (CyclesIteration.initial_state
                    CyclesIteration.example_portfolio)))
    as [s'|e] eqn:Ha; [|vm_compute in Ha; discriminate].
  exists s'. split; [reflexivity|].
  exact (proj2 (proj1 (proj2
           (@steps_carry_over_unmentioned_fields Sample.builtins)) _ _ Ha)).
Defined.

(** the first adjustment of the example portfolio sums to 1 within tolerance *)
Lemma adjusted_holdings_sum_to_one_witness :
  CyclesIteration.holdings
    (CyclesIteration.initial_state CyclesIteration.example_portfolio) <> []
  /\ CyclesIteration.all_positive
       (CyclesIteration.holdings
          (CyclesIteration.initial_state CyclesIteration.example_portfolio))
  /\ exists s',
       @CyclesIteration.adjust_portfolio Sample.builtins
         (@CyclesIteration.check_constraints Sample.builtins
            (CyclesIteration.initial_state CyclesIteration.example_portfolio))
       = Py.Ok s'
       /\ CyclesIteration.within_tolerance (CyclesIteration.holdings s').
Proof.
  assert (Hne : CyclesIteration.holdings
                  (CyclesIteration.initial_state
                     CyclesIteration.example_portfolio) <> [])
    by discriminate.
  assert (Hpos : CyclesIteration.all_positive
                   (CyclesIteration.holdings
                      (CyclesIteration.initial_state
                         CyclesIteration.example_portfolio)))
    by (repeat constructor).
  split; [exact Hne|]. split; [exact Hpos|].
  exact (proj2 (proj2
           (@adjusted_holdings_sum_to_one Sample.builtins _ Hne Hpos))).
Defined.


(** approval on the empty store, and on the store after [submit_trade] *)
Lemma approval_is_one_shot_witness :
  (@HumanInLoop.approve_trade Sample.builtins Examples.thread ∅ Sample.world
   = (HumanInLoop.no_pending_trade, ∅, Sample.world))
  /\ is_Some (Examples.pending !! Examples.thread)
  /\ (@HumanInLoop.approve_trade Sample.builtins Examples.thread
        Examples.pending Examples.after_submit).1.2
     = delete Examples.thread Examples.pending.
Proof.
  split.
  - apply (proj1 (@approval_is_one_shot Sample.builtins Examples.thread ∅
                    Sample.world)).
    reflexivity.
  - assert (Hp : is_Some (Examples.pending !! Examples.thread))
      by (exists Examples.entry; vm_compute; reflexivity).
    split; [exact Hp|].
    exact (proj1 (proj2 (@approval_is_one_shot Sample.builtins
                           Examples.thread Examples.pending
                           Examples.after_submit) Hp)).
Defined.



(** C7, as stated, fails: evaluated twice in a row on the same approved
    trade, [execute_trade] gives two different [execution_result]s, since
    each evaluation draws a fresh order id. *)
Lemma execute_trade_twice_differs :
  HumanInLoop.execution_result
    (@HumanInLoop.execute_trade Sample.builtins Examples.approved_trade
       Sample.world).1
  <> HumanInLoop.execution_result
       (@HumanInLoop.execute_trade Sample.builtins Examples.approved_trade
          (@HumanInLoop.execute_trade Sample.builtins Examples.approved_trade
             Sample.world).2).1.
Proof. apply String.eqb_neq. vm_compute. reflexivity. Qed.

(** a rejected trade gives the same result in two different worlds *)
Lemma steps_depend_on_state_and_draws_witness :
  HumanInLoop.human_decision
    (HumanInLoop.with_human_decision "rejected" Examples.approved_trade)
  <> "approved"
  /\ (@HumanInLoop.execute_trade Sample.builtins
        (HumanInLoop.with_human_decision "rejected" Examples.approved_trade)
        Sample.world).1
     = (@HumanInLoop.execute_trade Sample.builtins
          (HumanInLoop.with_human_decision "rejected" Examples.approved_trade)
          Examples.after_submit).1.
Proof.
  assert (Hd : HumanInLoop.human_decision
                 (HumanInLoop.with_human_decision "rejected"
                    Examples.approved_trade) <> "approved")
    by discriminate.
  split; [exact Hd|].
  exact (proj1 (proj1 (@steps_depend_on_state_and_draws Sample.builtins)
                  _ Sample.world Examples.after_submit Hd)).
Defined.

(** a history that ends on a request for a tool routes to [action] *)
Lemma routers_return_declared_labels_witness :
  TravelAgent.should_continue
    {| TravelAgent.messages :=
         [{| content := ""; tool_calls := Some ["search_flights_tool"] |}] |}
  = Py.Ok "action"
  /\ In "action" TravelAgent.should_continue_edges.
Proof.
  assert (Hs : TravelAgent.should_continue
                 {| TravelAgent.messages :=
                      [{| content := "";
                          tool_calls := Some ["search_flights_tool"] |}] |}
               = Py.Ok "action") by reflexivity.
  split; [exact Hs|].
  exact (proj2 (proj2 (proj2 (proj2 (proj2 (proj2 (proj2 (proj2 (proj2
           (@routers_return_declared_labels Sample.builtins)))))))))
           _ _ Hs).
Defined.

(** the first adjustment of the example portfolio keeps its two tickers *)
Lemma adjust_portfolio_keeps_the_tickers_witness :
  exists s',
    @CyclesIteration.adjust_portfolio Sample.builtins Cases.checked = Py.Ok s'
    /\ Py.keys (CyclesIteration.holdings s') = ["AAPL"; "CASH"].
Proof.
  destruct (@CyclesIteration.adjust_portfolio Sample.builtins Cases.checked)
    as [s'|e] eqn:Ha; [|vm_compute in Ha; discriminate].
  exists s'. split; [reflexivity|].
  destruct (@adjust_portfolio_keeps_the_tickers Sample.builtins _ _ Ha)
    as [Hk|(Hn & _)]; [exact Hk|].
  exfalso. apply Hn. right. now left.
Defined.


(** the example run is ended by the iteration ceiling, and its report
    ends on the satisfied status *)
Lemma report_status_of_an_ended_run_witness :
  exists body,
    @CyclesIteration.format_results Sample.builtins
      (CyclesIteration.initial_state CyclesIteration.example_portfolio)
      (Engine.run_state Examples.example_run.1)
    = body
      +:+ "## ✅ Status: ALL CONSTRAINTS SATISFIED" +:+ Py.nl +:+ Py.nl
      +:+ "The portfolio meets all defined constraints:" +:+ Py.nl
      +:+ "✓ No position exceeds 25.0%" +:+ Py.nl
      +:+ "✓ Cash reserve above 5.0%" +:+ Py.nl
      +:+ "✓ Portfolio sums to 100%" +:+ Py.nl.
Proof.
  assert (Hl : In (CyclesIteration.should_continue_iteration
                     (Engine.run_state Examples.example_run.1))
                  ["satisfied"; "max_iterations"])
    by (right; left; vm_compute; reflexivity).
  destruct (@report_status_of_an_ended_run Sample.builtins
              (CyclesIteration.initial_state
                 CyclesIteration.example_portfolio) _ Hl) as [body Hb].
  exists body. rewrite Hb. apply (f_equal (String.append body)).
  vm_compute. reflexivity.
Defined.


(** a decision in capitals is no approval *)
Lemma only_approved_executes_witness :
  Engine.run_state
    (@HumanInLoop.resume_pending Sample.builtins "APPROVED" Examples.entry
       Examples.after_submit).1
  = @HumanInLoop.cancel_trade Sample.builtins
      (HumanInLoop.with_human_decision "APPROVED"
         (HumanInLoop.pending_state Examples.entry)).
Proof.
  rewrite (proj2 (@only_approved_executes Sample.builtins) "APPROVED"
             Examples.entry Examples.after_submit);
    [reflexivity|discriminate].
Defined.

(** a query the sample model answers after one round of tools *)
Lemma run_travel_agent_outcomes_witness :
  (Py.model_requests
     (@TravelRun.run_travel_agent Sample.builtins TravelCases.packages
        "Find flights from YYZ to CDG" Sample.world).2 <= 8)%nat.
Proof.
  assert (Hq : @TravelRun.tools_leave_the_model_alone TravelCases.packages)
    by (intros state w; reflexivity).
  assert (Hai : @TravelRun.model_replies_are_AIMessages Sample.builtins)
    by (intros tools history [|request]; discriminate).
  exact (proj1 (@run_travel_agent_outcomes Sample.builtins
                  TravelCases.packages Hq "Find flights from YYZ to CDG"
                  Sample.world Hai)).
Defined.

(** the same query put to a model that always asks for tools *)
Lemma run_travel_agent_is_cut_off_witness :
  (@TravelRun.run_travel_agent TravelCases.eager TravelCases.packages
     "Find flights from YYZ to CDG" Sample.world).1
  = (@TravelRun.error_executing TravelCases.eager Py.GraphRecursionError,
     None).
Proof.
  assert (Hq : @TravelRun.tools_leave_the_model_alone TravelCases.packages)
    by (intros state w; reflexivity).
  refine (proj1 (@run_travel_agent_is_cut_off TravelCases.eager
                   TravelCases.packages Hq "Find flights from YYZ to CDG"
                   Sample.world _ _)).
  - intros history request. now exists "tavily_search_tool",
      ["search_flights_tool"; "search_hotels_tool"; "get_current_date_tool"].
  - intros state w0 e. discriminate.
Defined.

(** a complete offer followed by one without itineraries *)
Lemma search_flights_is_all_or_nothing_witness :
  @SearchTools.search_flights_tool Sample.builtins ToolCases.amadeus
    "YYZ" "CDG" "2026-06-01" None 1 "ECONOMY" "USD" 5
  = "Error searching flights: 'itineraries'".
Proof.
  refine (proj2 (@search_flights_is_all_or_nothing Sample.builtins
                   ToolCases.amadeus "YYZ" "CDG" "2026-06-01" None 1
                   "ECONOMY" "USD" 5 ToolCases.flights _ _)
            [ToolCases.complete_offer] ToolCases.bare_offer []
            (TravelTools.KeyError "itineraries") _ _ _).
  - reflexivity.
  - discriminate.
  - reflexivity.
  - constructor; [|constructor]. eexists. vm_compute. reflexivity.
  - reflexivity.
Defined.

(** two offers and room for none *)
Lemma search_flights_shows_nothing_witness :
  @SearchTools.search_flights_tool Sample.builtins ToolCases.amadeus
    "YYZ" "CDG" "2026-06-01" None 1 "ECONOMY" "USD" 0
  = "".
Proof.
  refine (proj2 (@search_flights_shows_nothing Sample.builtins
                   ToolCases.amadeus "YYZ" "CDG" "2026-06-01" None 1
                   "ECONOMY" "USD" 0 ToolCases.flights _ _) _).
  - reflexivity.
  - discriminate.
  - now left.
Defined.

(** the only hotel with an offer is the second one, and is called so *)
Lemma search_hotels_numbers_by_position_witness :
  @SearchTools.search_hotels_tool Sample.builtins ToolCases.amadeus
    "PAR" "2026-06-01" "2026-06-07" 2 5 "KM" "USD" 5
  = "Hotel 2:" +:+ Py.nl
    +:+ "  Name: Hotel B" +:+ Py.nl
    +:+ "  Price: USD 1200.00 (total)" +:+ Py.nl.
Proof.
  refine (eq_trans
            (@search_hotels_numbers_by_position Sample.builtins
               ToolCases.amadeus "PAR" "2026-06-01" "2026-06-07" 2 5 "KM"
               "USD" 5 ToolCases.hotels ["HLPAR001"; "HLPAR002"]
               ToolCases.hotel_offers
               [None;
                Some {| SearchTools.name := JString "Hotel B";
                        SearchTools.hotel_price := JString "1200.00";
                        SearchTools.price_currency := JString "USD" |}]
               _ _ _ _ _ _) _).
  - reflexivity.
  - discriminate.
  - reflexivity.
  - reflexivity.
  - discriminate.
  - repeat constructor.
  - vm_compute. reflexivity.
Defined.

(** C8, in doubles, fails on the portfolio [{"A": 1e-30, "B": 1e-16}]:
    its weights are strictly positive, the check pass reports the cash
    reserve and the sum, and [adjust_portfolio] returns; the cash fix
    cancels the sum down to rounding noise, the normalization divides by
    it, and the weights returned sum to 1.0625, which is not 1.0 within
    the tolerance, so that the next check pass reports the sum again. *)
Theorem adjusted_sum_misses_one_in_doubles :
  DoubleCases.tiny <> []
  /\ Forall (fun kv => Doubles.gt kv.2 PrimFloat.zero = true)
       DoubleCases.tiny
  /\ exists s',
       @Doubles.adjust_portfolio DoubleCases.runtime
         (@Doubles.check_constraints DoubleCases.runtime
            (Doubles.initial_state DoubleCases.tiny))
       = Py.Ok s'
       /\ Py.keys (Doubles.holdings s') = ["A"; "B"; "CASH"]
       /\ DoubleCases.left_to_right (Py.values (Doubles.holdings s'))
          = DoubleCases.missed_sum
       /\ Doubles.off_target DoubleCases.missed_sum = true
       /\ exists message,
            In (Doubles.sum_constraint DoubleCases.missed_sum
                  PrimFloat.one message)
               (Doubles.violations
                  (@Doubles.check_constraints DoubleCases.runtime s')).
Proof.
  split; [discriminate|]. split; [repeat constructor|].
  eexists. split; [vm_compute; reflexivity|].
  split; [reflexivity|]. split; [vm_compute; reflexivity|].
  split; [vm_compute; reflexivity|].
  eexists. vm_compute. left. reflexivity.
Qed.

(** a portfolio that meets the constraints comes back as it is *)
Lemma adjust_leaves_a_clean_portfolio_witness :
  @Doubles.adjust_portfolio DoubleCases.runtime DoubleCases.balanced
  = Py.Ok {| Doubles.holdings := Doubles.holdings DoubleCases.balanced;
             Doubles.violations := [];
             Doubles.iteration_count := 1;
             Doubles.adjustments_made := [];
             Doubles.status := "adjusting" |}.
Proof.
  apply (@adjust_leaves_a_clean_portfolio DoubleCases.runtime
           DoubleCases.balanced).
  - reflexivity.
  - reflexivity.
  - vm_compute. reflexivity.
Defined.

(** the first adjustment of the example portfolio leaves AAPL above 25% *)
Lemma normalization_undoes_the_cap_in_doubles_witness :
  exists s',
    @Doubles.adjust_portfolio DoubleCases.runtime DoubleCases.checked
    = Py.Ok s'
    /\ In "AAPL"
         (Doubles.oversized_tickers
            (Doubles.violations
               (@Doubles.check_constraints DoubleCases.runtime s'))).
Proof.
  destruct (@Doubles.adjust_portfolio DoubleCases.runtime DoubleCases.checked)
    as [s'|e] eqn:Ha; [|vm_compute in Ha; discriminate].
  exists s'. split; [reflexivity|].
  assert (Hf : @Doubles.fix_oversized DoubleCases.runtime
                 (Doubles.violations DoubleCases.checked)
                 (Doubles.holdings DoubleCases.checked) []
               = Py.Ok (DoubleCases.capped, ["Reduced AAPL from % to %"]))
    by (vm_compute; reflexivity).
  assert (Hc : List.filter Doubles.is_cash_reserve
                 (Doubles.violations DoubleCases.checked) = [])
    by (vm_compute; reflexivity).
  assert (Ht : In "AAPL"
                 (Doubles.oversized_tickers
                    (Doubles.violations DoubleCases.checked)))
    by (vm_compute; now left).
  refine (proj2 (proj2 (@normalization_undoes_the_cap_in_doubles
                          DoubleCases.runtime _ _ _ _ _ Hf Hc Ht Ha) _)
            _ _).
  - vm_compute. reflexivity.
  - discriminate.
  - vm_compute. reflexivity.
Defined.


